(** * Stock-Price-Prediction: the data-acquisition layer and the forecast models

    A shallow embedding of [utils/prediction_models.py] (class
    [StockPredictionModels]) and of [utils/data_utils.py] (class
    [StockDataFetcher]), followed by the properties of the specification
    that concern them.

    Conventions of the embedding.
    - A Python call either returns a value or raises: [outcome A].
    - Numbers are kept abstract behind the class [Arith]; the program runs
      on its binary64 instance ([Float64], what numpy computes with), and a
      finite binary64 number denotes a rational ([Float64.to_Q]).
    - scikit-learn, Keras, numpy's random generator, the clock and the
      network are not part of the repository: they are interfaces
      ([Sklearn], [Keras], [Platform], the fields of [World]) and every
      theorem holds for all their implementations.  Small implementations
      ([Sample]) are provided to run the code on concrete inputs.
    - [print] calls are not modelled. *)

From Stdlib Require Import ZArith QArith Qabs Qpower Floats List Lia Lqa Sorted.
From stdpp Require Import base list gmap strings pretty.

Set Warnings "-inexact-float".
Local Open Scope string_scope.
Local Open Scope list_scope.
Local Open Scope Z_scope.

(* ================================================================== *)
(** ** Python values: exceptions, indexing, slices, ranges             *)
(* ================================================================== *)

Inductive exn : Type :=
  | IndexError
  | ValueError
  | OverflowError
  | LibraryError (what : string).

Inductive outcome (A : Type) : Type :=
  | Ok (a : A)
  | Raise (e : exn).
Arguments Ok {A} a.
Arguments Raise {A} e.

#[global] Instance outcome_ret : MRet outcome := fun A a => Ok a.
#[global] Instance outcome_bind : MBind outcome := fun A B k m =>
  match m with
  | Ok a => k a
  | Raise e => Raise e
  end.

(** [l[i]] for a Python list or a one-dimensional array: a negative index
    counts from the end, an index out of range raises [IndexError]. *)
Definition getitem {A} (l : list A) (i : Z) : outcome A :=
  let j := if i <? 0 then i + Z.of_nat (length l) else i in
  if j <? 0 then Raise IndexError
  else match l !! Z.to_nat j with
       | Some x => Ok x
       | None => Raise IndexError
       end.

(** [l[a:b]] for [0 <= a] and [0 <= b]: clamped, empty when [b <= a]. *)
Definition slice {A} (l : list A) (a b : nat) : list A :=
  take (b - a) (drop a l).

(** [range(n)] and [range(a, b)]. *)
Definition py_range (n : Z) : list nat := seq 0 (Z.to_nat n).
Definition py_range2 (a b : nat) : list nat := seq a (b - a).

(** [int(n * 0.8)] for a length [n]: the binary64 product truncates to
    [floor(4n/5)] for every length a list can have. *)
Definition int_08 (n : nat) : nat := (4 * n / 5)%nat.

(* ================================================================== *)
(** ** Arithmetic                                                      *)
(* ================================================================== *)

Class Arith (F : Type) : Type := {
  lit : Q -> F;             (* a numeric literal of the source *)
  fadd : F -> F -> F;
  fsub : F -> F -> F;
  fmul : F -> F -> F;
  fdiv : F -> F -> F;
  fabs : F -> F;
  fleb : F -> F -> bool;
  np_sqrt : F -> F;         (* numpy.sqrt *)
}.

Declare Scope arith_scope.
Delimit Scope arith_scope with A.
Infix "+" := fadd : arith_scope.
Infix "-" := fsub : arith_scope.
Infix "*" := fmul : arith_scope.
Infix "/" := fdiv : arith_scope.

(** Binary64, as numpy and Python floats compute. A literal is the binary64
    value nearest to the decimal (the correctly rounded quotient of two
    exactly represented integers). *)
Module Float64.
Definition of_pos (p : positive) : float := PrimFloat.of_uint63 (Uint63.of_Z (Zpos p)).
Definition of_Q (q : Q) : float :=
  match Qnum q with
  | Z0 => 0%float
  | Zpos n => PrimFloat.div (of_pos n) (of_pos (Qden q))
  | Zneg n => PrimFloat.opp (PrimFloat.div (of_pos n) (of_pos (Qden q)))
  end.
#[global] Instance arith : Arith float := {|
  lit := of_Q;
  fadd := PrimFloat.add;
  fsub := PrimFloat.sub;
  fmul := PrimFloat.mul;
  fdiv := PrimFloat.div;
  fabs := PrimFloat.abs;
  fleb := PrimFloat.leb;
  np_sqrt := PrimFloat.sqrt;
|}.
Definition dist (a b : float) : float := PrimFloat.abs (PrimFloat.sub a b).

(** The rational number that a finite binary64 number denotes, from its
    sign, mantissa and exponent (0 for the infinities and NaN). *)
Definition SF2Q (x : spec_float) : Q :=
  match x with
  | S754_finite s m e => ((if s then -1 else 1) * inject_Z (Z.pos m) * 2 ^ e)%Q
  | _ => 0%Q
  end.
Definition to_Q (x : float) : Q := SF2Q (Prim2SF x).

(** Half a unit in the last place of a number in [1, 2): [2 ^ -53]. *)
Definition u53 : Q := 1 # 9007199254740992.

(** The doubles [0.3] and [0.7] of the source, as rationals. *)
Definition q03 : Q := 5404319552844595 # 18014398509481984.
Definition q07 : Q := 6305039478318694 # 9007199254740992.

(** A price: a double between [2 ^ -1000] and [2 ^ 1000]. *)
Definition price_low : float := 0x1p-1000%float.
Definition price_high : float := 0x1p1000%float.
Definition price (p : float) : bool :=
  PrimFloat.leb price_low p && PrimFloat.leb p price_high.

(** [x] is a positive normal number between [2 ^ lo] and [2 ^ hi]. *)
Definition in_band (x : float) (lo hi : Z) : Prop :=
  exists m e, Prim2SF x = S754_finite false m e
              /\ Z.pos (digits2_pos m) = 53
              /\ (2 ^ lo <= to_Q x <= 2 ^ hi)%Q.

(** How the round and sticky bits of a [shr_record] place the remainder
    [rem] of a division by [2 ^ n]. *)
Definition loc_ok (n : Z) (rem : Z) (r s : bool) : Prop :=
  match r, s with
  | false, false => rem = 0
  | false, true => 0 < 2 * rem < 2 ^ n
  | true, false => 2 * rem = 2 ^ n
  | true, true => 2 ^ n < 2 * rem
  end.
End Float64.

(* ================================================================== *)
(** ** The libraries the models call                                   *)
(* ================================================================== *)

(** scikit-learn: [MinMaxScaler], [LinearRegression],
    [RandomForestRegressor] and the two metrics. A fitted object is a value
    of an abstract type; a call may raise. *)
Class Sklearn (F : Type) : Type := {
  scaler : Type;
  fit_transform : list F -> outcome (scaler * list F);
  inverse_transform : scaler -> list F -> outcome (list F);
  linreg : Type;
  linreg_fit : list nat -> list F -> outcome linreg;
  linreg_predict : linreg -> list nat -> outcome (list F);
  forest : Type;
  forest_fit : list (list F) -> list F -> outcome forest;
  forest_predict : forest -> list (list F) -> outcome (list F);
  mean_squared_error : list F -> list F -> outcome F;
  mean_absolute_error : list F -> list F -> outcome F;
}.

(** Keras: a compiled [Sequential] network, [fit] and [predict]. *)
Class Keras (F : Type) : Type := {
  network : Type;
  sequential_lstm : nat * nat -> outcome network;
  keras_fit : network -> list (list F) -> list F -> outcome network;
  keras_predict : network -> list (list F) -> outcome (list F);
}.

(* ================================================================== *)
(** ** utils/prediction_models.py                                      *)
(* ================================================================== *)

(** What a model returns: the tuple [(future_predictions, rmse, mae)], each
    component possibly [None]. *)
Definition Forecast (F : Type) : Type := (option (list F) * option F * option F)%type.
Definition absent {F} : Forecast F := (None, None, None).

Section PredictionModels.
Context {F : Type} {AR : Arith F} {SK : Sklearn F} {KR : Keras F}.
Local Open Scope nat_scope.

(** The loop of [prepare_data] and of [predict_random_forest]:
    [for i in range(lookback, len(src)): X.append(src[i-lookback:i]);
    y.append(src[i])]. [lookback] is a window length: the call sites pass
    the constants 60 and 10. *)
Fixpoint window_loop (src : list F) (lookback : nat) (idx : list nat)
    (X : list (list F)) (y : list F) : outcome (list (list F) * list F) :=
  match idx with
  | [] => Ok (X, y)
  | i :: rest =>
      yi ← getitem src (Z.of_nat i);
      window_loop src lookback rest (X ++ [slice src (i - lookback) i]) (y ++ [yi])
  end.

(** [prepare_data]: fits [self.scaler] on the whole series (the fitted
    scaler is returned with the windows) and windows the scaled series. *)
Definition prepare_data (data : list F) (lookback : nat)
    : outcome (scaler * (list (list F) * list F)) :=
  '(sc, scaled_data) ← fit_transform data;
  Xy ← window_loop scaled_data lookback (py_range2 lookback (length scaled_data)) [] [];
  Ok (sc, Xy).

(** [build_lstm_model]: three LSTM layers (50, 50, 25) with dropout and a
    dense output unit, compiled with adam and the mean squared error. *)
Definition build_lstm_model (input_shape : nat * nat) : outcome network :=
  sequential_lstm input_shape.

(** The recursive rollout of [predict_lstm]. *)
Fixpoint lstm_rollout (model : network) (sc : scaler) (steps : list nat)
    (last_sequence : list F) (future_predictions : list F) : outcome (list F) :=
  match steps with
  | [] => Ok future_predictions
  | _ :: rest =>
      out ← keras_predict model [last_sequence];
      next_pred ← getitem out 0%Z;
      inv ← inverse_transform sc [next_pred];
      v ← getitem inv 0%Z;
      lstm_rollout model sc rest (drop 1 last_sequence ++ [next_pred])
                   (future_predictions ++ [v])
  end.

Definition predict_lstm (data : list F) (days_to_predict : Z) : outcome (Forecast F) :=
  let lookback := 60 in
  '(sc, (X, y)) ← prepare_data data lookback;
  if length X <? 10 then Ok absent
  else
    let split_idx := int_08 (length X) in
    let X_train := take split_idx X in
    let X_test := drop split_idx X in
    let y_train := take split_idx y in
    let y_test := drop split_idx y in
    model ← build_lstm_model (lookback, 1);
    model ← keras_fit model X_train y_train;
    train_predict ← keras_predict model X_train;
    test_predict ← keras_predict model X_test;
    train_predict ← inverse_transform sc train_predict;
    test_predict ← inverse_transform sc test_predict;
    y_test_actual ← inverse_transform sc y_test;
    mse ← mean_squared_error y_test_actual test_predict;
    let rmse := np_sqrt mse in
    mae ← mean_absolute_error y_test_actual test_predict;
    last_sequence ← getitem X (-1);
    future_predictions ← lstm_rollout model sc (py_range days_to_predict) last_sequence [];
    Ok (Some future_predictions, Some rmse, Some mae).

Definition predict_linear_regression (data : list F) (days_to_predict : Z)
    : outcome (Forecast F) :=
  let X := seq 0 (length data) in
  let y := data in
  let split_idx := int_08 (length X) in
  let X_train := take split_idx X in
  let X_test := drop split_idx X in
  let y_train := take split_idx y in
  let y_test := drop split_idx y in
  model ← linreg_fit X_train y_train;
  y_pred ← linreg_predict model X_test;
  mse ← mean_squared_error y_test y_pred;
  let rmse := np_sqrt mse in
  mae ← mean_absolute_error y_test y_pred;
  let future_X := seq (length data) (Z.to_nat days_to_predict) in
  future_predictions ← linreg_predict model future_X;
  Ok (Some future_predictions, Some rmse, Some mae).

(** The recursive rollout of [predict_random_forest]. *)
Fixpoint forest_rollout (model : forest) (steps : list nat)
    (last_sequence : list F) (future_predictions : list F) : outcome (list F) :=
  match steps with
  | [] => Ok future_predictions
  | _ :: rest =>
      out ← forest_predict model [last_sequence];
      next_pred ← getitem out 0%Z;
      forest_rollout model rest (drop 1 last_sequence ++ [next_pred])
                     (future_predictions ++ [next_pred])
  end.

Definition predict_random_forest (data : list F) (days_to_predict : Z)
    : outcome (Forecast F) :=
  let lookback := 10 in
  '(X, y) ← window_loop data lookback (py_range2 lookback (length data)) [] [];
  if length X <? 10 then Ok absent
  else
    let split_idx := int_08 (length X) in
    let X_train := take split_idx X in
    let X_test := drop split_idx X in
    let y_train := take split_idx y in
    let y_test := drop split_idx y in
    model ← forest_fit X_train y_train;
    y_pred ← forest_predict model X_test;
    mse ← mean_squared_error y_test y_pred;
    let rmse := np_sqrt mse in
    mae ← mean_absolute_error y_test y_pred;
    let last_sequence := drop (length data - lookback) data in
    future_predictions ← forest_rollout model (py_range days_to_predict) last_sequence [];
    Ok (Some future_predictions, Some rmse, Some mae).

Definition alpha : F := lit (3 # 10).

(** The smoothing loop of [predict_arima_simple]:
    [for i in range(1, len(data)):
       result.append(alpha * data[i] + (1 - alpha) * result[i-1])]. *)
Fixpoint smoothing_loop (data : list F) (idx : list nat) (result : list F)
    : outcome (list F) :=
  match idx with
  | [] => Ok result
  | i :: rest =>
      di ← getitem data (Z.of_nat i);
      prev ← getitem result (Z.of_nat i - 1)%Z;
      smoothing_loop data rest (result ++ [(alpha * di + (lit 1 - alpha) * prev)%A])
  end.

(** [result = [data[0]]] followed by the smoothing loop. *)
Definition smoothed (data : list F) : outcome (list F) :=
  d0 ← getitem data 0%Z;
  smoothing_loop data (py_range2 1 (length data)) [d0].

(** The projection loop of [predict_arima_simple]:
    [next_pred = alpha * data[-1] + (1 - alpha) * last_value]. *)
Fixpoint projection_loop (data : list F) (steps : list nat) (last_value : F)
    (future_predictions : list F) : outcome (list F) :=
  match steps with
  | [] => Ok future_predictions
  | _ :: rest =>
      dl ← getitem data (-1);
      let next_pred := (alpha * dl + (lit 1 - alpha) * last_value)%A in
      projection_loop data rest next_pred (future_predictions ++ [next_pred])
  end.

Definition predict_arima_simple (data : list F) (days_to_predict : Z)
    : outcome (Forecast F) :=
  result ← smoothed data;
  let split_idx := int_08 (length data) in
  let y_test := drop split_idx data in
  let y_pred := drop split_idx result in
  mse ← mean_squared_error y_test (take (length y_test) y_pred);
  let rmse := np_sqrt mse in
  mae ← mean_absolute_error y_test (take (length y_test) y_pred);
  last_value ← getitem result (-1);
  future_predictions ← projection_loop data (py_range days_to_predict) last_value [];
  Ok (Some future_predictions, Some rmse, Some mae).

(** The dict display evaluates its four values in order; an exception in
    one of them leaves the function before the dict exists. *)
Definition predict_all_models (data : list F) (days_to_predict : Z)
    : outcome (gmap string (Forecast F)) :=
  r_lstm ← predict_lstm data days_to_predict;
  r_linear ← predict_linear_regression data days_to_predict;
  r_forest ← predict_random_forest data days_to_predict;
  r_arima ← predict_arima_simple data days_to_predict;
  Ok (<["arima" := r_arima]> (<["random_forest" := r_forest]>
       (<["linear" := r_linear]> (<["lstm" := r_lstm]> ∅)))).

(** *** Vocabulary of the properties *)

(** One step of the recurrence, as the source writes it. *)
Definition blend (price previous : F) : F :=
  (alpha * price + (lit 1 - alpha) * previous)%A.

(** [s] follows the smoothing recurrence of [data] as far as it goes. *)
Definition smooth_prefix (data s : list F) : Prop :=
  s !! 0 = data !! 0 /\
  forall i p prev, data !! S i = Some p -> s !! i = Some prev ->
    S i < length s -> s !! S i = Some (blend p prev).

(** The successive projections from [last_value] towards [target]. *)
Fixpoint projections (target last_value : F) (n : nat) : list F :=
  match n with
  | O => []
  | S n' => let next_pred := blend target last_value in
            next_pred :: projections target next_pred n'
  end.

(** [predict_random_forest] from the guard on, given the windows [X] and
    the targets [y] that its loop has built. *)
Definition forest_on_windows (data : list F) (days_to_predict : Z)
    (X : list (list F)) (y : list F) : outcome (Forecast F) :=
  let lookback := 10 in
  if length X <? 10 then Ok absent
  else
    let split_idx := int_08 (length X) in
    let X_train := take split_idx X in
    let X_test := drop split_idx X in
    let y_train := take split_idx y in
    let y_test := drop split_idx y in
    model ← forest_fit X_train y_train;
    y_pred ← forest_predict model X_test;
    mse ← mean_squared_error y_test y_pred;
    let rmse := np_sqrt mse in
    mae ← mean_absolute_error y_test y_pred;
    let last_sequence := drop (length data - lookback) data in
    future_predictions ← forest_rollout model (py_range days_to_predict) last_sequence [];
    Ok (Some future_predictions, Some rmse, Some mae).

End PredictionModels.

(** The windows of the specification: the [k]-th window is the slice of
    length [lookback] that starts at position [k], its target is the value
    that follows it, and there are [len - lookback] of them. *)
Definition windows_of {F} (series : list F) (lookback : nat)
    (X : list (list F)) (y : list F) : Prop :=
  length X = (length series - lookback)%nat /\
  length y = (length series - lookback)%nat /\
  forall k : nat, (k < length series - lookback)%nat ->
    X !! k = Some (take lookback (drop k series)) /\
    y !! k = series !! (k + lookback)%nat.

(* ================================================================== *)
(** ** utils/data_utils.py                                             *)
(* ================================================================== *)

(** What the fetcher runs on: Python's [hash] (salted once per process),
    [strftime('%Y-%m-%d')] of a day given by its ordinal, [numpy.exp], and
    numpy's global random generator, one draw at a time.
    [date_range_other] is what [pandas.date_range] does with a negative
    [periods] or with days it cannot represent as timestamps (an empty index
    or an exception, depending on the version). *)
Class Platform (F : Type) : Type := {
  py_hash : string -> Z;
  strftime : Z -> string;
  np_exp : F -> F;
  rng : Type;
  rng_seed : Z -> rng;
  rng_normal : F -> F -> rng -> F * rng;
  rng_uniform : F -> F -> rng -> F * rng;
  rng_randint : Z -> Z -> rng -> Z * rng;
  date_range_other : Z -> Z -> outcome (list Z);
}.

(** The price columns of a frame. *)
Record Columns (F : Type) : Type := {
  Open : list F;
  High : list F;
  Low : list F;
  Close : list F;
  Volume : list Z;
  Adj_Close : list F;
}.
Arguments Open {F} c.
Arguments High {F} c.
Arguments Low {F} c.
Arguments Close {F} c.
Arguments Volume {F} c.
Arguments Adj_Close {F} c.

(** A frame with a ['Date'] column of strings, as both paths return it. *)
Record DataFrame (F : Type) : Type := {
  Date : list string;
  columns : Columns F;
}.
Arguments Date {F} d.
Arguments columns {F} d.

(** What [yf.download] returns: a frame indexed by day. *)
Record Download (F : Type) : Type := {
  dl_index : list Z;
  dl_columns : Columns F;
}.
Arguments dl_index {F} d.
Arguments dl_columns {F} d.

(** [timedelta(days=days)] and [datetime - timedelta], on day ordinals. *)
Definition timedelta (days : Z) : outcome Z :=
  if 999999999 <? Z.abs days then Raise OverflowError else Ok days.
Definition datetime_sub (d delta : Z) : outcome Z :=
  let r := d - delta in
  if (1 <=? r) && (r <=? 3652059) then Ok r else Raise OverflowError.

(** The days on which pandas represents every time of day as a timestamp:
    1677-09-22 to 2262-04-10, as ordinals; and whether the [periods] days
    that end on [end_date] are among them. *)
Definition timestamp_first_day : Z := 612412.
Definition timestamp_last_day : Z := 825913.
Definition representable (end_date periods : Z) : bool :=
  (0 <=? periods) && (timestamp_first_day <=? end_date - (periods - 1))
  && (end_date <=? timestamp_last_day).

Definition base_price_table : gmap string Z :=
  list_to_map [("AAPL", 150); ("GOOGL", 140); ("MSFT", 380);
               ("AMZN", 170); ("TSLA", 240); ("META", 300);
               ("NFLX", 450); ("NVDA", 875); ("AMD", 140); ("INTC", 35)].

Section DataUtils.
Context {F : Type} {AR : Arith F} {PF : Platform F}.

(** The world a call runs in: today's ordinal, the state of numpy's global
    generator, the answers of the quote source to the successive
    [yf.download] calls, how many were made, and the [time.sleep] calls so
    far. *)
Record World : Type := {
  clock : Z;
  generator : rng;
  yahoo : nat -> string -> string -> string -> outcome (option (Download F));
  downloads : nat;
  sleeps : list Z;
}.

(** A computation that reads and changes the world and may raise. *)
Definition Eff (A : Type) : Type := World -> outcome A * World.
Definition eff_ret {A} (a : A) : Eff A := fun w => (Ok a, w).
Definition eff_bind {A B} (m : Eff A) (k : A -> Eff B) : Eff B := fun w =>
  match m w with
  | (Ok a, w') => k a w'
  | (Raise e, w') => (Raise e, w')
  end.
Definition eff_lift {A} (r : outcome A) : Eff A := fun w => (r, w).
Definition try_except {A} (body : Eff A) (handler : exn -> Eff A) : Eff A := fun w =>
  match body w with
  | (Ok a, w') => (Ok a, w')
  | (Raise e, w') => handler e w'
  end.

Notation "x ⇐ m ; k" := (eff_bind m (fun x => k))
  (at level 20, m at level 100, k at level 200, only parsing).

Definition datetime_now : Eff Z := fun w => (Ok (clock w), w).

Definition time_sleep (secs : Z) : Eff unit := fun w =>
  (Ok tt, {| clock := clock w; generator := generator w; yahoo := yahoo w;
             downloads := downloads w; sleeps := sleeps w ++ [secs] |}).

Definition yf_download (symbol start_str end_str : string)
    : Eff (option (Download F)) := fun w =>
  (yahoo w (downloads w) symbol start_str end_str,
   {| clock := clock w; generator := generator w; yahoo := yahoo w;
      downloads := S (downloads w); sleeps := sleeps w |}).

Definition set_generator (g : rng) (w : World) : World :=
  {| clock := clock w; generator := g; yahoo := yahoo w;
     downloads := downloads w; sleeps := sleeps w |}.

Definition np_random_seed (s : Z) : Eff unit := fun w =>
  (Ok tt, set_generator (rng_seed s) w).

Fixpoint draw_many {X} (draw : rng -> X * rng) (n : nat) (g : rng) : list X * rng :=
  match n with
  | O => ([], g)
  | S n' => let '(x, g1) := draw g in
            let '(xs, g2) := draw_many draw n' g1 in
            (x :: xs, g2)
  end.

(** [np.random.<dist>(..., size)]: [size] draws from the global generator;
    a negative size raises. *)
Definition np_random {X} (draw : rng -> X * rng) (size : Z) : Eff (list X) := fun w =>
  if size <? 0 then (Raise ValueError, w)
  else let '(xs, g) := draw_many draw (Z.to_nat size) (generator w) in
       (Ok xs, set_generator g w).

(** [pd.date_range(end=end_date, periods=periods, freq='D')]. *)
Definition pd_date_range (end_date periods : Z) : outcome (list Z) :=
  if representable end_date periods
  then Ok ((fun k => end_date - (periods - 1) + Z.of_nat k) <$> seq 0 (Z.to_nat periods))
  else date_range_other end_date periods.

Fixpoint cumsum_from (acc : F) (l : list F) : list F :=
  match l with
  | [] => []
  | x :: r => let acc' := (acc + x)%A in acc' :: cumsum_from acc' r
  end.
Definition np_cumsum (l : list F) : list F :=
  match l with
  | [] => []
  | x :: r => x :: cumsum_from x r
  end.

(** [pd.DataFrame({...})]: the columns must have one length. *)
Definition pd_DataFrame (date : list string) (c : Columns F) : outcome (DataFrame F) :=
  let n := length date in
  if ((length (Open c) =? n) && (length (High c) =? n) && (length (Low c) =? n)
      && (length (Close c) =? n) && (length (Volume c) =? n)
      && (length (Adj_Close c) =? n))%nat
  then Ok {| Date := date; columns := c |}
  else Raise ValueError.

(** [len(data)] and [data.empty]. *)
Definition df_len (d : DataFrame F) : nat := length (Date d).
Definition dl_len (d : Download F) : nat := length (dl_index d).
Definition dl_empty (d : Download F) : bool := (dl_len d =? 0)%nat.

(** [data.reset_index()] and the ['Date'] column as strings. *)
Definition reset_index (d : Download F) : DataFrame F :=
  {| Date := strftime <$> dl_index d; columns := dl_columns d |}.

(** [prices * (1 + u)], element by element. *)
Definition offset (prices u : list F) : list F :=
  zip_with fmul prices (fadd (lit 1) <$> u).

Definition generate_demo_data (symbol : string) (days : Z) : Eff (DataFrame F) :=
  end_date ⇐ datetime_now;
  dates ⇐ eff_lift (pd_date_range end_date days);
  _ ⇐ np_random_seed (py_hash symbol `mod` 2 ^ 32);
  let base_price := lit (inject_Z (default 100 (base_price_table !! symbol))) in
  returns ⇐ np_random (rng_normal (lit (5 # 10000)) (lit (2 # 100))) days;
  let prices := (fun c => (base_price * np_exp c)%A) <$> np_cumsum returns in
  let date := strftime <$> dates in
  u_open ⇐ np_random (rng_uniform (lit (-1 # 100)) (lit (1 # 100))) days;
  u_high ⇐ np_random (rng_uniform (lit (1 # 100)) (lit (3 # 100))) days;
  u_low ⇐ np_random (rng_uniform (lit (-3 # 100)) (lit (-1 # 100))) days;
  volume ⇐ np_random (rng_randint 50000000 100000000) days;
  eff_lift (pd_DataFrame date
    {| Open := offset prices u_open; High := offset prices u_high;
       Low := offset prices u_low; Close := prices; Volume := volume;
       Adj_Close := prices |}).

(** [if attempt < retries - 1: time.sleep((attempt + 1) * 5)]. *)
Definition backoff (attempt : nat) (retries : Z) : Eff unit :=
  if Z.of_nat attempt <? retries - 1
  then time_sleep ((Z.of_nat attempt + 1) * 5)
  else eff_ret tt.

(** One pass of the retry loop: [Some data] is the [return data] inside
    the loop, [None] falls through to the next attempt. *)
Definition attempt_once (symbol start_str end_str : string) (retries : Z)
    (attempt : nat) : Eff (option (DataFrame F)) :=
  try_except
    (data ⇐ yf_download symbol start_str end_str;
     match data with
     | Some d =>
         if negb (dl_empty d) && (0 <? dl_len d)%nat
         then eff_ret (Some (reset_index d))
         else (_ ⇐ backoff attempt retries; eff_ret None)
     | None => (_ ⇐ backoff attempt retries; eff_ret None)
     end)
    (fun e => _ ⇐ backoff attempt retries; eff_ret None).

Fixpoint attempt_loop (symbol start_str end_str : string) (retries : Z)
    (attempts : list nat) : Eff (option (DataFrame F)) :=
  match attempts with
  | [] => eff_ret None
  | attempt :: rest =>
      r ⇐ attempt_once symbol start_str end_str retries attempt;
      match r with
      | Some data => eff_ret (Some data)
      | None => attempt_loop symbol start_str end_str retries rest
      end
  end.

Definition fetch_stock_data (symbol : string) (days retries : Z) : Eff (DataFrame F) :=
  try_except
    (end_date ⇐ datetime_now;
     delta ⇐ eff_lift (timedelta days);
     start_date ⇐ eff_lift (datetime_sub end_date delta);
     let start_str := strftime start_date in
     let end_str := strftime end_date in
     r ⇐ attempt_loop symbol start_str end_str retries (py_range retries);
     match r with
     | Some data => eff_ret data
     | None => generate_demo_data symbol days
     end)
    (fun e => generate_demo_data symbol days).

Definition get_closing_prices (data : DataFrame F) : list F := Close (columns data).

(** *** Vocabulary of the properties *)

(** The draws of [generate_demo_data], from the generator seeded with the
    hash of the symbol: the columns of the frame and the generator left
    behind. *)
Definition demo_draws (symbol : string) (n : nat) : Columns F * rng :=
  let g0 := rng_seed (py_hash symbol `mod` 2 ^ 32) in
  let base_price := lit (inject_Z (default 100 (base_price_table !! symbol))) in
  let r := draw_many (rng_normal (lit (5 # 10000)) (lit (2 # 100))) n g0 in
  let prices := (fun c => (base_price * np_exp c)%A) <$> np_cumsum r.1 in
  let o := draw_many (rng_uniform (lit (-1 # 100)) (lit (1 # 100))) n r.2 in
  let h := draw_many (rng_uniform (lit (1 # 100)) (lit (3 # 100))) n o.2 in
  let l := draw_many (rng_uniform (lit (-3 # 100)) (lit (-1 # 100))) n h.2 in
  let v := draw_many (rng_randint 50000000 100000000) n l.2 in
  ({| Open := offset prices o.1; High := offset prices h.1;
      Low := offset prices l.1; Close := prices; Volume := v.1;
      Adj_Close := prices |}, v.2).

(** The days [pd.date_range] returns for a representable range. *)
Definition demo_dates (end_date periods : Z) : list Z :=
  (fun k => end_date - (periods - 1) + Z.of_nat k) <$> seq 0 (Z.to_nat periods).

(** The download the loop returns on: not [None] and not empty. *)
Definition accepted (o : outcome (option (Download F))) : option (Download F) :=
  match o with
  | Ok (Some d) => if negb (dl_empty d) && (0 <? dl_len d)%nat then Some d else None
  | _ => None
  end.

(** The waits after the failed attempts [a, a + 1, ..., a + j - 1]. *)
Definition backoff_waits (a j : nat) : list Z :=
  (fun k => ((Z.of_nat k + 1) * 5)%Z) <$> seq a j.

(** [w'] is [w] after [n] downloads and the sleeps [extra]. *)
Definition advanced (w w' : World) (n : nat) (extra : list Z) : Prop :=
  clock w' = clock w /\ generator w' = generator w /\ yahoo w' = yahoo w
  /\ downloads w' = (downloads w + n)%nat /\ sleeps w' = sleeps w ++ extra.

(** [start_date = datetime.now() - timedelta(days=days)]. *)
Definition start_date_of (w : World) (days : Z) : outcome Z :=
  delta ← timedelta days; datetime_sub (clock w) delta.

End DataUtils.

(* ================================================================== *)
(** ** Sample implementations of the libraries                         *)
(* ================================================================== *)

(** Stand-ins with the interfaces above, to run the code on concrete
    inputs: a min-max scaler, a line through the end points of the training
    set, predictors that return the mean of a window, the two metrics, a
    linear congruential generator and a second-order exponential. They are
    not the libraries' algorithms; the theorems do not depend on them. *)
Module Sample.
Section Sample.
Context {F : Type} {AR : Arith F}.
Local Open Scope arith_scope.

Definition of_nat (n : nat) : F := lit (inject_Z (Z.of_nat n)).
Definition fsum (l : list F) : F := foldl fadd (lit 0) l.
Definition mean (l : list F) : F := fsum l / of_nat (length l).
Definition fmin (a b : F) : F := if fleb a b then a else b.
Definition fmax (a b : F) : F := if fleb a b then b else a.

Definition min_max_fit (d : list F) : outcome ((F * F) * list F) :=
  match d with
  | [] => Raise ValueError
  | x :: r =>
      let lo := foldl fmin x r in
      let hi := foldl fmax x r in
      let range := if fleb hi lo then lit 1 else hi - lo in
      Ok ((lo, range), map (fun v => (v - lo) / range) d)
  end.
Definition min_max_inverse (p : F * F) (l : list F) : outcome (list F) :=
  match l with
  | [] => Raise ValueError
  | _ => Ok (map (fun v => v * snd p + fst p) l)
  end.

Definition line_fit (X : list nat) (y : list F) : outcome (F * F) :=
  match X, y, last X, last y with
  | x0 :: _, y0 :: _, Some x1, Some y1 =>
      let slope := if (x1 =? x0)%nat then lit 0 else (y1 - y0) / (of_nat x1 - of_nat x0) in
      Ok (y0 - slope * of_nat x0, slope)
  | _, _, _, _ => Raise ValueError
  end.
Definition line_predict (m : F * F) (X : list nat) : outcome (list F) :=
  match X with
  | [] => Raise ValueError
  | _ => Ok (map (fun x => fst m + snd m * of_nat x) X)
  end.

Definition mean_fit (X : list (list F)) (y : list F) : outcome unit :=
  match X with
  | [] => Raise ValueError
  | _ => Ok tt
  end.
Definition mean_predict (m : unit) (X : list (list F)) : outcome (list F) :=
  match X with
  | [] => Raise ValueError
  | _ => Ok (map mean X)
  end.

Definition metric (err : F -> F -> F) (y_true y_pred : list F) : outcome F :=
  match y_true with
  | [] => Raise ValueError
  | _ => if (length y_true =? length y_pred)%nat
         then Ok (mean (zip_with err y_true y_pred))
         else Raise ValueError
  end.

Definition sklearn : Sklearn F := {|
  scaler := F * F;
  fit_transform := min_max_fit;
  inverse_transform := min_max_inverse;
  linreg := F * F;
  linreg_fit := line_fit;
  linreg_predict := line_predict;
  forest := unit;
  forest_fit := mean_fit;
  forest_predict := mean_predict;
  mean_squared_error := metric (fun a b => (a - b) * (a - b));
  mean_absolute_error := metric (fun a b => fabs (a - b));
|}.

Definition keras : Keras F := {|
  network := unit;
  sequential_lstm := fun _ => Ok tt;
  keras_fit := fun m X y => mean_fit X y;
  keras_predict := mean_predict;
|}.

(** A Keras whose training fails. *)
Definition keras_failing : Keras F := {|
  network := unit;
  sequential_lstm := fun _ => Ok tt;
  keras_fit := fun _ _ _ => Raise (LibraryError "ResourceExhaustedError");
  keras_predict := mean_predict;
|}.

Definition lcg (g : Z) : Z := ((g * 1103515245 + 12345) mod 2 ^ 31)%Z.

Definition platform : Platform F := {|
  py_hash := fun s =>
    foldl (fun h c => (h * 31 + Z.of_nat (Ascii.nat_of_ascii c))%Z) 7%Z
          (String.list_ascii_of_string s);
  strftime := fun d => pretty d;
  np_exp := fun x => lit 1 + x + x * x * lit (1 # 2);
  rng := Z;
  rng_seed := fun s => s;
  rng_normal := fun mu sigma g =>
    let g' := lcg g in (mu + sigma * lit ((g' mod 2001 - 1000)%Z # 1000), g');
  rng_uniform := fun lo hi g =>
    let g' := lcg g in (lo + (hi - lo) * lit ((g' mod 1001)%Z # 1000), g');
  rng_randint := fun lo hi g =>
    let g' := lcg g in ((lo + g' mod (hi - lo))%Z, g');
  date_range_other := fun _ periods =>
    if (periods <? 0)%Z then Raise OverflowError
    else Raise (LibraryError "OutOfBoundsDatetime");
|}.

(** A world in which the quote source answers every call with [answer]. *)
Definition world (today : Z) (answer : outcome (option (Download F)))
    : World (PF := platform) :=
  {| clock := today; generator := (0%Z : @rng F platform);
     yahoo := fun _ _ _ _ => answer; downloads := 0; sleeps := [] |}.

(** The series [start, start + 1, ...] of [n] prices. *)
Definition ramp (start : Z) (n : nat) : list F :=
  map (fun k => lit (inject_Z (start + Z.of_nat k))) (seq 0 n).

End Sample.
End Sample.

(** The inputs of the runs below. *)
Definition three_prices : list float := [293.64; 472.62; 221.54]%float.

(** A day on which the quote source answers every call with an empty
    result, in binary64. *)
Definition offline : World (PF := Sample.platform (F := float)) :=
  Sample.world 739923 (Ok None).

(** The next day, with numpy's generator in another state and a quote
    source that raises. *)
Definition next_day : World (PF := Sample.platform (F := float)) :=
  {| clock := 739924; generator := (42 : @rng float Sample.platform);
     yahoo := fun _ _ _ _ => Raise (LibraryError "YFRateLimitError");
     downloads := 7; sleeps := [5] |}.

(* ================================================================== *)
(** ** utils/data_utils.py: ChartGenerator                             *)
(* ================================================================== *)

(** The builtin exceptions of the presentation layer. *)
Definition TypeError : exn := LibraryError "TypeError".
Definition KeyError : exn := LibraryError "KeyError".

(** The truth value of a prediction list in [x if x else y]: [None] and the
    empty list are false. *)
Definition truthy {A} (p : option (list A)) : bool :=
  match p with
  | Some (_ :: _) => true
  | _ => false
  end.

(** The dict that [prepare_prediction_data] returns. *)
Record ChartData (F : Type) : Type := {
  actual : list F;
  predicted : option (list F);
  dates : list string;
}.
Arguments actual {F} c.
Arguments predicted {F} c.
Arguments dates {F} c.

(** [prepare_prediction_data]: the last 30 prices, the predictions, and one
    label ["Day i"] per prediction; [len(predictions)] raises on [None]. *)
Definition prepare_prediction_data {F} (actual_data : list F)
    (predictions : option (list F)) : outcome (ChartData F) :=
  let shown := if (30 <? length actual_data)%nat
               then drop (length actual_data - 30) actual_data
               else actual_data in
  match predictions with
  | None => Raise TypeError
  | Some p =>
      Ok {| actual := shown; predicted := predictions;
            dates := (fun i : nat => "Day " +:+ pretty (i + 1)%nat) <$> seq 0 (length p) |}
  end.

(** [pred[:10] if pred else []]. *)
Definition first_ten {A} (pred : option (list A)) : list A :=
  if truthy pred then take 10 (default [] pred) else [].

Definition prepare_comparison_data {F} (lstm_pred linear_pred rf_pred arima_pred : option (list F))
    : gmap string (list F) :=
  <["ARIMA" := first_ten arima_pred]> (<["Random Forest" := first_ten rf_pred]>
    (<["Linear Regression" := first_ten linear_pred]> (<["LSTM" := first_ten lstm_pred]> ∅))).

(** What the routes of [app/__init__.py] rest on besides the models and the
    fetcher: [round(x, 4)] on a number, the row of the [Prediction] table
    ([json.dumps] of its fields, [db.session.add] and [commit]), the cache
    row of [StockData], and [jsonify] of the two answers. Each may raise. *)
Class WebStack (F : Type) : Type := {
  py_round : F -> Z -> F;
  save_prediction : string -> Z -> list F * list F * list F * list F ->
                    list (option F) -> ChartData F -> outcome unit;
  cache_stock_data : string -> DataFrame F -> outcome unit;
  jsonify : forall {P : Type}, P -> outcome unit;
}.

(** The [{'RMSE': ..., 'MAE': ...}] entry of one model. *)
Record Metrics (F : Type) : Type := {
  RMSE : F;
  MAE : F;
}.
Arguments RMSE {F} m.
Arguments MAE {F} m.

Section Presentation.
Context {F : Type} {WS : WebStack F}.

(** [round(x, 4)]: a [TypeError] on [None]. *)
Definition round4 (x : option F) : outcome F :=
  match x with
  | Some v => Ok (py_round v 4)
  | None => Raise TypeError
  end.

Definition prepare_metrics_data (lstm_rmse lstm_mae linear_rmse linear_mae
    rf_rmse rf_mae arima_rmse arima_mae : option F) : outcome (gmap string (Metrics F)) :=
  a ← round4 lstm_rmse;
  b ← round4 lstm_mae;
  c ← round4 linear_rmse;
  d ← round4 linear_mae;
  e ← round4 rf_rmse;
  f ← round4 rf_mae;
  g ← round4 arima_rmse;
  h ← round4 arima_mae;
  Ok (<["ARIMA" := {| RMSE := g; MAE := h |}]>
       (<["Random Forest" := {| RMSE := e; MAE := f |}]>
         (<["Linear Regression" := {| RMSE := c; MAE := d |}]>
           (<["LSTM" := {| RMSE := a; MAE := b |}]> ∅)))).

End Presentation.

(* ================================================================== *)
(** ** app/__init__.py: the prediction and download routes             *)
(* ================================================================== *)

(** What a route returns: the 200 answer with its payload, a refusal with
    its status and message, or the 500 answer of [except Exception]. *)
Inductive response (P : Type) : Type :=
  | Respond200 (payload : P)
  | Refuse (status : Z) (message : string)
  | Respond500 (e : exn).
Arguments Respond200 {P} payload.
Arguments Refuse {P} status message.
Arguments Respond500 {P} e.

Definition status_of {P} (r : response P) : Z :=
  match r with
  | Respond200 _ => 200
  | Refuse status _ => status
  | Respond500 _ => 500
  end.

(** The payload of a successful prediction. *)
Record PredictionAnswer (F : Type) : Type := {
  predictions : gmap string (list F);
  metrics : gmap string (Metrics F);
  comparison : gmap string (list F);
  current_price : F;
}.
Arguments predictions {F} p.
Arguments metrics {F} p.
Arguments comparison {F} p.
Arguments current_price {F} p.

(** [_to_list]: [None] becomes the empty list. *)
Definition _to_list {A} (x : option (list A)) : list A := default [] x.

(** [d[key]] on a dict. *)
Definition dict_get {V} (d : gmap string V) (key : string) : outcome V :=
  match d !! key with
  | Some v => Ok v
  | None => Raise KeyError
  end.

Section Routes.
Context {F : Type} {AR : Arith F} {SK : Sklearn F} {KR : Keras F}
        {PF : Platform F} {WS : WebStack F}.

Notation "x ⇐ m ; k" := (eff_bind m (fun x => k))
  (at level 20, m at level 100, k at level 200, only parsing).

(** [except Exception as e: return jsonify(...), 500]. *)
Definition answer_500 {P} (body : Eff (response P)) : World -> response P * World := fun w =>
  match body w with
  | (Ok r, w') => (r, w')
  | (Raise e, w') => (Respond500 e, w')
  end.

(** From [results = model.predict_all_models(...)] to the answer. *)
Definition predict_and_answer (stock_symbol : string) (days_to_predict : Z)
    (closing_prices : list F) : outcome (response (PredictionAnswer F)) :=
  results ← predict_all_models closing_prices days_to_predict;
  '(lstm_pred, lstm_rmse, lstm_mae) ← dict_get results "lstm";
  '(linear_pred, linear_rmse, linear_mae) ← dict_get results "linear";
  '(rf_pred, rf_rmse, rf_mae) ← dict_get results "random_forest";
  '(arima_pred, arima_rmse, arima_mae) ← dict_get results "arima";
  chart_data ← prepare_prediction_data closing_prices
                 (if truthy lstm_pred then lstm_pred else linear_pred);
  let comparison_data := prepare_comparison_data lstm_pred linear_pred rf_pred arima_pred in
  metrics_data ← prepare_metrics_data lstm_rmse lstm_mae linear_rmse linear_mae
                                      rf_rmse rf_mae arima_rmse arima_mae;
  _ ← save_prediction stock_symbol days_to_predict
        (_to_list lstm_pred, _to_list linear_pred, _to_list rf_pred, _to_list arima_pred)
        [lstm_rmse; lstm_mae; linear_rmse; linear_mae; rf_rmse; rf_mae; arima_rmse; arima_mae]
        chart_data;
  last_price ← getitem closing_prices (-1);
  let answer :=
    {| predictions :=
         <["arima" := _to_list arima_pred]> (<["random_forest" := _to_list rf_pred]>
           (<["linear" := _to_list linear_pred]> (<["lstm" := _to_list lstm_pred]> ∅)));
       metrics := metrics_data;
       comparison := comparison_data;
       current_price := last_price |} in
  _ ← jsonify answer;
  Ok (Respond200 answer).

(** The POST branch of [prediction], from the validation on: [stock_symbol]
    is the upper-cased symbol of the request and [days_to_predict] its
    [days] as an integer. *)
Definition prediction (stock_symbol : string) (days_to_predict : Z)
    : World -> response (PredictionAnswer F) * World := fun w =>
  if String.eqb stock_symbol ""
  then (Refuse 400 "Stock symbol is required", w)
  else if (days_to_predict <? 1) || (30 <? days_to_predict)
  then (Refuse 400 "Days must be between 1 and 30", w)
  else
    answer_500
      (stock_data ⇐ fetch_stock_data stock_symbol 365 3;
       if (df_len stock_data =? 0)%nat
       then eff_ret (Refuse 400 ("Unable to fetch data for " +:+ stock_symbol
                                 +:+ ". Please check the symbol and try again."))
       else
         let closing_prices := get_closing_prices stock_data in
         if (length closing_prices <? 60)%nat
         then eff_ret (Refuse 400 ("Insufficient data for " +:+ stock_symbol
                                   +:+ ". Need at least 60 days of data."))
         else eff_lift (predict_and_answer stock_symbol days_to_predict closing_prices))
      w.


(** *** Vocabulary of the properties *)

(** The scaler returns as many values as it is given. *)
Definition scaler_keeps_length : Prop :=
  forall (d : list F) sc (s : list F), fit_transform d = Ok (sc, s) -> length s = length d.

(** What the route does with the frame the fetcher returned. *)
Definition after_fetch (stock_symbol : string) (days_to_predict : Z) (stock_data : DataFrame F)
    : response (PredictionAnswer F) :=
  if (df_len stock_data =? 0)%nat
  then Refuse 400 ("Unable to fetch data for " +:+ stock_symbol
                   +:+ ". Please check the symbol and try again.")
  else if (length (get_closing_prices stock_data) <? 60)%nat
  then Refuse 400 ("Insufficient data for " +:+ stock_symbol
                   +:+ ". Need at least 60 days of data.")
  else match predict_and_answer stock_symbol days_to_predict (get_closing_prices stock_data) with
       | Ok r => r
       | Raise e => Respond500 e
       end.

End Routes.

(* ================================================================== *)
(** ** utils/chatbot.py                                                *)
(* ================================================================== *)

Definition nl : string := String (Ascii.ascii_of_nat 10) EmptyString.

(** One entry of the table of [_initialize_responses]. *)
Record Topic : Type := {
  keywords : list string;
  reply : string;
}.

(** The table, in the order of the dict display. *)
Definition responses : list (string * Topic) := [
  ("greeting",
   {| keywords := ["hello"; "hi"; "hey"; "greetings"];
      reply := "Hello! Welcome to Stock Price Prediction. How can I assist you today?" |});
  ("help",
   {| keywords := ["help"; "assist"; "guide"; "how to"];
      reply := "I can help you with:" +:+ nl +:+ "- Stock price predictions" +:+ nl
               +:+ "- Model explanations" +:+ nl +:+ "- Data interpretation" +:+ nl
               +:+ "- FAQs" +:+ nl +:+ "- Technical support" |});
  ("models",
   {| keywords := ["model"; "lstm"; "regression"; "forest"; "arima"];
      reply := "We use 4 prediction models:" +:+ nl
               +:+ "1. **LSTM** - Deep learning for time series" +:+ nl
               +:+ "2. **Linear Regression** - Simple trend analysis" +:+ nl
               +:+ "3. **Random Forest** - Ensemble learning approach" +:+ nl
               +:+ "4. **ARIMA** - Statistical forecasting" +:+ nl
               +:+ "Each model provides different perspectives on price movements." |});
  ("prediction",
   {| keywords := ["predict"; "forecast"; "prediction"; "future"];
      reply := "To make a prediction:" +:+ nl +:+ "1. Click 'Start Prediction'" +:+ nl
               +:+ "2. Select a stock symbol" +:+ nl
               +:+ "3. Choose prediction days (1-30)" +:+ nl +:+ "4. Click 'Predict'" +:+ nl
               +:+ "Results will show predicted prices and model comparisons." |});
  ("accuracy",
   {| keywords := ["accuracy"; "reliable"; "reliable"; "accurate"];
      reply := "Accuracy varies by stock and market conditions:" +:+ nl
               +:+ "- RMSE (Root Mean Square Error) measures prediction error" +:+ nl
               +:+ "- MAE (Mean Absolute Error) shows average deviation" +:+ nl
               +:+ "- Compare all models to find the best fit" +:+ nl
               +:+ "- Historical data improves predictions" |});
  ("data",
   {| keywords := ["data"; "download"; "export"; "csv"];
      reply := "You can:" +:+ nl +:+ "- Download historical stock data" +:+ nl
               +:+ "- Export as CSV for analysis" +:+ nl
               +:+ "- Choose custom date ranges" +:+ nl
               +:+ "- Use data in your own models" |});
  ("stock_symbols",
   {| keywords := ["symbol"; "stock"; "company"; "ticker"];
      reply := "Popular stocks available:" +:+ nl
               +:+ "AAPL (Apple), GOOGL (Google), MSFT (Microsoft), AMZN (Amazon), "
               +:+ "TSLA (Tesla), META (Meta), NFLX (Netflix), NVDA (NVIDIA), AMD (AMD), "
               +:+ "INTC (Intel)" |});
  ("theme",
   {| keywords := ["dark"; "light"; "theme"; "mode"];
      reply := "You can toggle between light and dark themes using the theme switch "
               +:+ "in the top right corner!" |});
  ("account",
   {| keywords := ["account"; "login"; "signup"; "register"; "password"];
      reply := "Account management features:" +:+ nl
               +:+ "- Secure login with email/username" +:+ nl
               +:+ "- Password reset available" +:+ nl +:+ "- Remember me option" +:+ nl
               +:+ "- Profile settings" |});
  ("faq",
   {| keywords := ["faq"; "frequently"; "question"; "common"];
      reply := "Check our FAQs page for:" +:+ nl
               +:+ "- Common questions about predictions" +:+ nl
               +:+ "- Model explanations" +:+ nl +:+ "- Data interpretation" +:+ nl
               +:+ "- Troubleshooting" |});
  ("default",
   {| keywords := [];
      reply := "I'm here to help with stock predictions! Ask me about models, "
               +:+ "predictions, data, or any other features." |})
].

(** [keyword in user_input]: the keyword occurs as a substring. *)
Fixpoint occurs_in (keyword user_input : string) : bool :=
  String.prefix keyword user_input
  || match user_input with
     | EmptyString => false
     | String _ rest => occurs_in keyword rest
     end.

(** What [keyword in user_input] means: the input is some text, the
    keyword, and some more text. *)
Definition substring_of (keyword user_input : string) : Prop :=
  exists before after, user_input = before +:+ keyword +:+ after.

Section Chatbot.
(** [str.lower] and [str.strip]. *)
Variables (py_lower py_strip : string -> string).

(** The inner loop: [for keyword in data['keywords']: if keyword in
    user_input: return data['response']]. *)
Fixpoint first_keyword (kws : list string) (user_input : string) : bool :=
  match kws with
  | [] => false
  | keyword :: rest =>
      if occurs_in keyword user_input then true else first_keyword rest user_input
  end.

(** The outer loop over [self.responses.items()]. *)
Fixpoint scan_topics (items : list (string * Topic)) (user_input : string) : option string :=
  match items with
  | [] => None
  | (key, data) :: rest =>
      if String.eqb key "default" then scan_topics rest user_input
      else if first_keyword (keywords data) user_input then Some (reply data)
      else scan_topics rest user_input
  end.

(** [self.responses[key]['response']]. *)
Fixpoint topic_reply (items : list (string * Topic)) (key : string) : outcome string :=
  match items with
  | [] => Raise KeyError
  | (k, data) :: rest => if String.eqb k key then Ok (reply data) else topic_reply rest key
  end.

Definition get_response (user_input : string) : outcome string :=
  let user_input := py_strip (py_lower user_input) in
  match scan_topics responses user_input with
  | Some r => Ok r
  | None => topic_reply responses "default"
  end.

End Chatbot.

(** Stand-ins for the web stack and for [str.lower] and [str.strip] on
    plain letters and blanks, to run the routes and the chatbot on concrete
    inputs. *)
Module SampleWeb.

Definition webstack {F : Type} : WebStack F := {|
  py_round := fun x _ => x;
  save_prediction := fun _ _ _ _ _ => Ok tt;
  cache_stock_data := fun _ _ => Ok tt;
  jsonify := fun _ _ => Ok tt;
|}.

Definition lower_char (c : Ascii.ascii) : Ascii.ascii :=
  let n := Ascii.nat_of_ascii c in
  if ((65 <=? n) && (n <=? 90))%nat then Ascii.ascii_of_nat (n + 32) else c.
Fixpoint lower (s : string) : string :=
  match s with
  | EmptyString => EmptyString
  | String c rest => String (lower_char c) (lower rest)
  end.

Fixpoint lstrip (s : string) : string :=
  match s with
  | String c rest => if Ascii.eqb c (Ascii.ascii_of_nat 32) then lstrip rest else s
  | EmptyString => EmptyString
  end.
Definition strip (s : string) : string :=
  String.rev (lstrip (String.rev (lstrip s))).

(** A quote source that answers every call with [n] days of prices. *)
Definition quotes (n : nat) : Download float :=
  {| dl_index := (fun k => 739000 + Z.of_nat k) <$> seq 0 n;
     dl_columns := {| Open := Sample.ramp 100 n; High := Sample.ramp 101 n;
                      Low := Sample.ramp 99 n; Close := Sample.ramp 100 n;
                      Volume := (fun k => Z.of_nat k) <$> seq 0 n;
                      Adj_Close := Sample.ramp 100 n |} |}.

End SampleWeb.

(** Days on which the quote source answers every call with 50, 65 and 80
    days of prices, in binary64. *)
Definition short_history : World (PF := Sample.platform (F := float)) :=
  Sample.world 739923 (Ok (Some (SampleWeb.quotes 50))).
Definition medium_history : World (PF := Sample.platform (F := float)) :=
  Sample.world 739923 (Ok (Some (SampleWeb.quotes 65))).
Definition long_history : World (PF := Sample.platform (F := float)) :=
  Sample.world 739923 (Ok (Some (SampleWeb.quotes 80))).

(* ================================================================== *)
(** * Properties                                                       *)
(* ================================================================== *)

(** ** Indexing *)

Lemma getitem_lookup {A} (l : list A) (i : nat) (x : A) :
  l !! i = Some x -> getitem l (Z.of_nat i) = Ok x.
Proof.
  intros H. unfold getitem. cbv zeta.
  destruct (Z.of_nat i <? 0) eqn:E; [apply Z.ltb_lt in E; lia|].
  rewrite E, Nat2Z.id, H. reflexivity.
Qed.

Lemma getitem_last {A} (l : list A) (x : A) :
  last l = Some x -> getitem l (-1) = Ok x.
Proof.
  intros H. rewrite last_lookup in H.
  assert (Hlen : (0 < length l)%nat).
  { destruct l; [discriminate|simpl; lia]. }
  unfold getitem. cbv zeta. change (-1 <? 0) with true. cbv iota.
  destruct (_ <? 0) eqn:E; [apply Z.ltb_lt in E; lia|].
  replace (Z.to_nat _) with (pred (length l)) by lia.
  rewrite H. reflexivity.
Qed.

(** ** Windows *)

Section WindowFacts.
Context {F : Type} {AR : Arith F} {SK : Sklearn F} {KR : Keras F}.
Local Open Scope nat_scope.

Lemma window_loop_run (src : list F) (lookback n : nat) :
  forall (a : nat) (X : list (list F)) (y : list F),
    (n = 0 \/ a + n <= length src) ->
    window_loop src lookback (seq a n) X y
    = Ok (X ++ ((fun i => slice src (i - lookback) i) <$> seq a n),
          y ++ take n (drop a src)).
Proof.
  induction n as [|n IH]; intros a X y Hr; simpl.
  - by rewrite !app_nil_r.
  - destruct Hr as [Hr|Hr]; [discriminate|].
    destruct (lookup_lt_is_Some_2 src a ltac:(lia)) as [x Hx].
    rewrite (getitem_lookup _ _ _ Hx). simpl.
    rewrite IH by (right; lia).
    rewrite <- !app_assoc. simpl.
    rewrite (drop_S _ _ _ Hx). reflexivity.
Qed.

Lemma windows_run (src : list F) (lookback : nat) :
  exists X y,
    window_loop src lookback (py_range2 lookback (length src)) [] [] = Ok (X, y)
    /\ windows_of src lookback X y
    /\ (length src <= lookback -> X = [] /\ y = []).
Proof.
  unfold py_range2.
  assert (Hr : length src - lookback = 0 \/ lookback + (length src - lookback) <= length src)
    by lia.
  eexists _, _. split; [apply (window_loop_run _ _ _ _ _ _ Hr)|].
  simpl. split; [repeat split|].
  - by rewrite length_fmap, length_seq.
  - rewrite length_take, length_drop. lia.
  - rewrite list_lookup_fmap, lookup_seq_lt by done. simpl.
    unfold slice.
    replace (lookback + k - lookback) with k by lia.
    replace (lookback + k - k) with lookback by lia. reflexivity.
  - rewrite lookup_take_lt by done. rewrite lookup_drop. f_equal. lia.
  - intros Hle. replace (length src - lookback) with 0 by lia. done.
Qed.

(** C3, as the code has it. The loop shared by [prepare_data] and
    [predict_random_forest] produces exactly [len(series) - lookback]
    window/target pairs, the [k]-th pair being the [lookback] values from
    position [k] and the value after them, and empty sequences when
    [lookback >= len(series)]. [predict_random_forest] runs it on the raw
    series with lookback 10 and goes on with these windows.
    [prepare_data] runs it on the series the scaler returns: when the
    scaler raises, as [MinMaxScaler] does on a series without values,
    [prepare_data] raises the same exception and returns no sequences. *)
Theorem window_construction (series : list F) (lookback : nat) :
  (exists X y,
      window_loop series lookback (py_range2 lookback (length series)) [] [] = Ok (X, y)
      /\ windows_of series lookback X y
      /\ (length series <= lookback -> X = [] /\ y = []))
  /\ (forall days_to_predict,
        exists X y,
          windows_of series 10 X y
          /\ (length series <= 10 -> X = [] /\ y = [])
          /\ predict_random_forest series days_to_predict
             = forest_on_windows series days_to_predict X y)
  /\ match fit_transform series with
     | Raise e => prepare_data series lookback = Raise e
     | Ok (sc, scaled_data) =>
         exists X y,
           prepare_data series lookback = Ok (sc, (X, y))
           /\ windows_of scaled_data lookback X y
           /\ (length scaled_data <= lookback -> X = [] /\ y = [])
           /\ (length scaled_data = length series ->
               length X = length series - lookback
               /\ length y = length series - lookback)
     end.
Proof.
  split; [apply windows_run|]. split.
  - intros days_to_predict.
    destruct (windows_run series 10) as (X & y & Hrun & Hw & Hempty).
    exists X, y. split; [exact Hw|]. split; [exact Hempty|].
    unfold predict_random_forest. rewrite Hrun. reflexivity.
  - unfold prepare_data.
    destruct (fit_transform series) as [[sc scaled]|e]; [|reflexivity].
    destruct (windows_run scaled lookback) as (X & y & Hrun & Hw & Hempty).
    exists X, y. simpl. rewrite Hrun. simpl.
    pose proof Hw as (HX & Hy & _).
    split; [reflexivity|]. split; [exact Hw|]. split; [exact Hempty|].
    intros Hlen. lia.
Qed.

End WindowFacts.

(** ** The insufficient-data guard and the orchestrator *)

Section OrchestratorFacts.
Context {F : Type} {AR : Arith F} {SK : Sklearn F} {KR : Keras F}.
Local Open Scope nat_scope.

Lemma forest_guard (data : list F) (days_to_predict : Z) (X : list (list F)) (y : list F) :
  window_loop data 10 (py_range2 10 (length data)) [] [] = Ok (X, y) ->
  length X < 10 ->
  predict_random_forest data days_to_predict = Ok absent.
Proof.
  intros Hrun Hlt. unfold predict_random_forest. rewrite Hrun. simpl.
  apply Nat.ltb_lt in Hlt. rewrite Hlt. reflexivity.
Qed.

Lemma lstm_guard (data : list F) (days_to_predict : Z) sc (X : list (list F)) (y : list F) :
  prepare_data data 60 = Ok (sc, (X, y)) ->
  length X < 10 ->
  predict_lstm data days_to_predict = Ok absent.
Proof.
  intros Hrun Hlt. unfold predict_lstm. rewrite Hrun. simpl.
  apply Nat.ltb_lt in Hlt. rewrite Hlt. reflexivity.
Qed.

(** C8, as the code has it. A series of fewer than 20 prices (fewer than
    10 windows of 10) makes [predict_random_forest] return
    [(None, None, None)], and only such a series does. [predict_lstm] first
    scales the series: when the scaler raises, as [MinMaxScaler] does on a
    series without values, [predict_lstm] raises the same exception instead
    of returning [(None, None, None)]; when the scaler returns fewer than 70
    values (fewer than 10 windows of 60), [predict_lstm] returns
    [(None, None, None)], and only then. No model is built or fitted in
    these cases, whatever the libraries would do. *)
Theorem insufficient_data_is_absent (data : list F) (days_to_predict : Z) :
  (length data < 20 ->
   predict_random_forest data days_to_predict = Ok (None, None, None))
  /\ (20 <= length data ->
      predict_random_forest data days_to_predict <> Ok (None, None, None))
  /\ match fit_transform data with
     | Raise e => predict_lstm data days_to_predict = Raise e
     | Ok (sc, scaled_data) =>
         (length scaled_data < 70 ->
          predict_lstm data days_to_predict = Ok (None, None, None))
         /\ (70 <= length scaled_data ->
             predict_lstm data days_to_predict <> Ok (None, None, None))
     end.
Proof.
  split; [|split].
  - intros Hlen.
    destruct (windows_run data 10) as (X & y & Hrun & (HX & _) & _).
    apply (forest_guard _ _ X y Hrun). lia.
  - intros Hlen.
    destruct (windows_run data 10) as (X & y & Hrun & (HX & _) & _).
    unfold predict_random_forest. rewrite Hrun. simpl.
    destruct (Nat.ltb_spec (length X) 10) as [|_]; [lia|].
    destruct (forest_fit _ _) as [model|e]; simpl; [|done].
    destruct (forest_predict model (drop _ X)) as [yp|e]; simpl; [|done].
    destruct (mean_squared_error _ _) as [mse|e]; simpl; [|done].
    destruct (mean_absolute_error _ _) as [m|e]; simpl; [|done].
    destruct (forest_rollout _ _ _ _) as [fp|e]; simpl; done.
  - destruct (fit_transform data) as [[sc scaled]|e] eqn:Efit.
    2: { unfold predict_lstm, prepare_data. by rewrite Efit. }
    destruct (windows_run scaled 60) as (X & y & Hrun & (HX & _) & _).
    assert (Hprep : prepare_data data 60 = Ok (sc, (X, y))).
    { unfold prepare_data. rewrite Efit. simpl. by rewrite Hrun. }
    split.
    + intros Hlen. apply (lstm_guard _ _ sc X y Hprep). lia.
    + intros Hlen. unfold predict_lstm. rewrite Hprep. simpl.
      destruct (Nat.ltb_spec (length X) 10) as [|_]; [lia|].
      destruct (build_lstm_model _) as [m0|e]; simpl; [|done].
      destruct (keras_fit _ _ _) as [model|e]; simpl; [|done].
      destruct (keras_predict model (take _ X)) as [trp|e]; simpl; [|done].
      destruct (keras_predict model (drop _ X)) as [tep|e]; simpl; [|done].
      destruct (inverse_transform sc trp) as [trp'|e]; simpl; [|done].
      destruct (inverse_transform sc tep) as [tep'|e]; simpl; [|done].
      destruct (inverse_transform sc (drop _ y)) as [yta|e]; simpl; [|done].
      destruct (mean_squared_error _ _) as [mse|e]; simpl; [|done].
      destruct (mean_absolute_error _ _) as [m|e]; simpl; [|done].
      destruct (getitem X (-1)) as [ls|e]; simpl; [|done].
      destruct (lstm_rollout _ _ _ _ _) as [fp|e]; simpl; done.
Qed.

(** C10. [predict_arima_simple] and [predict_linear_regression] have no
    insufficient-data guard: each either raises or returns a triple whose
    three components are all present, and [predict_arima_simple] raises
    [IndexError] on the empty series. *)
Theorem no_guard_in_arima_and_linear (data : list F) (days_to_predict : Z) :
  ((exists e, predict_arima_simple data days_to_predict = Raise e)
   \/ (exists p rmse mae,
         predict_arima_simple data days_to_predict = Ok (Some p, Some rmse, Some mae)))
  /\ ((exists e, predict_linear_regression data days_to_predict = Raise e)
      \/ (exists p rmse mae,
            predict_linear_regression data days_to_predict
            = Ok (Some p, Some rmse, Some mae)))
  /\ predict_arima_simple [] days_to_predict = Raise IndexError.
Proof.
  split; [|split].
  - unfold predict_arima_simple.
    destruct (smoothed data) as [s|e]; simpl; [|eauto].
    destruct (mean_squared_error _ _) as [mse|e]; simpl; [|eauto].
    destruct (mean_absolute_error _ _) as [mae|e]; simpl; [|eauto].
    destruct (getitem s (-1)) as [lv|e]; simpl; [|eauto].
    destruct (projection_loop _ _ _ _) as [fp|e]; simpl; eauto 6.
  - unfold predict_linear_regression.
    destruct (linreg_fit _ _) as [m|e]; simpl; [|eauto].
    destruct (linreg_predict m (drop _ _)) as [yp|e]; simpl; [|eauto].
    destruct (mean_squared_error _ _) as [mse|e]; simpl; [|eauto].
    destruct (mean_absolute_error _ _) as [mae|e]; simpl; [|eauto].
    destruct (linreg_predict m (seq _ _)) as [fp|e]; simpl; eauto 6.
  - reflexivity.
Qed.

(** C1, as the code has it. [predict_all_models] has no exception
    handler. When the four models return, the mapping has exactly the four
    keys and holds each model's tuple unchanged, an absent
    [(None, None, None)] included; when a model raises, the models before
    it have run, the ones after it are not called, and the exception leaves
    [predict_all_models] instead of a mapping. *)
Theorem predict_all_models_assembles (data : list F) (days_to_predict : Z) :
  match predict_lstm data days_to_predict,
        predict_linear_regression data days_to_predict,
        predict_random_forest data days_to_predict,
        predict_arima_simple data days_to_predict with
  | Ok r_lstm, Ok r_linear, Ok r_forest, Ok r_arima =>
      exists m : gmap string (Forecast F),
        predict_all_models data days_to_predict = Ok m
        /\ dom m = {[ "lstm"; "linear"; "random_forest"; "arima" ]}
        /\ m !! "lstm" = Some r_lstm
        /\ m !! "linear" = Some r_linear
        /\ m !! "random_forest" = Some r_forest
        /\ m !! "arima" = Some r_arima
  | Raise e, _, _, _ => predict_all_models data days_to_predict = Raise e
  | Ok _, Raise e, _, _ => predict_all_models data days_to_predict = Raise e
  | Ok _, Ok _, Raise e, _ => predict_all_models data days_to_predict = Raise e
  | Ok _, Ok _, Ok _, Raise e => predict_all_models data days_to_predict = Raise e
  end.
Proof.
  unfold predict_all_models.
  destruct (predict_lstm data days_to_predict) as [a|e]; simpl; [|reflexivity].
  destruct (predict_linear_regression data days_to_predict) as [b|e]; simpl; [|reflexivity].
  destruct (predict_random_forest data days_to_predict) as [c|e]; simpl; [|reflexivity].
  destruct (predict_arima_simple data days_to_predict) as [d|e]; simpl; [|reflexivity].
  eexists. split; [reflexivity|].
  split; [rewrite !dom_insert_L, dom_empty_L; set_solver|].
  repeat split; by simplify_map_eq.
Qed.

End OrchestratorFacts.

(** ** Exponential smoothing *)

Section ArimaFacts.
Context {F : Type} {AR : Arith F} {SK : Sklearn F}.
Local Open Scope nat_scope.

Lemma smoothing_loop_run (data : list F) (n : nat) :
  forall res : list F,
    1 <= length res ->
    length res + n <= length data ->
    smooth_prefix data res ->
    exists s, smoothing_loop data (seq (length res) n) res = Ok s
              /\ length s = length res + n
              /\ smooth_prefix data s.
Proof.
  induction n as [|n IH]; intros res H1 Hlen Hp; simpl.
  - exists res. split; [done|]. split; [lia|done].
  - destruct (lookup_lt_is_Some_2 data (length res) ltac:(lia)) as [di Hdi].
    destruct (lookup_lt_is_Some_2 res (pred (length res)) ltac:(lia)) as [prev Hprev].
    rewrite (getitem_lookup _ _ _ Hdi). simpl.
    replace (Z.of_nat (length res) - 1)%Z with (Z.of_nat (pred (length res))) by lia.
    rewrite (getitem_lookup _ _ _ Hprev). simpl.
    fold (blend di prev).
    destruct (IH (res ++ [blend di prev])) as (s & Hs & Hl & Hps).
    + rewrite length_app. simpl. lia.
    + rewrite length_app. simpl. lia.
    + destruct Hp as [Hp0 Hpi]. split.
      * rewrite lookup_app_l by lia. exact Hp0.
      * intros i p pv Hd Hs Hlt. rewrite length_app in Hlt. simpl in Hlt.
        destruct (decide (S i < length res)) as [Hin|Hout].
        -- rewrite lookup_app_l in Hs by lia. rewrite lookup_app_l by lia.
           by apply Hpi.
        -- assert (S i = length res) as Hi by lia.
           rewrite lookup_app_l in Hs by lia.
           rewrite Hi, lookup_app_r by lia. rewrite Nat.sub_diag. simpl.
           rewrite Hi in Hd.
           replace (pred (length res)) with i in Hprev by lia.
           congruence.
    + exists s. rewrite length_app in Hs, Hl. simpl in Hs, Hl.
      replace (length res + 1) with (S (length res)) in Hs by lia.
      split; [exact Hs|]. split; [lia|exact Hps].
Qed.

Lemma smoothed_run (data : list F) :
  data <> [] ->
  exists s, smoothed data = Ok s
            /\ length s = length data
            /\ s !! 0 = data !! 0
            /\ forall i p prev, data !! S i = Some p -> s !! i = Some prev ->
                 s !! S i = Some (blend p prev).
Proof.
  intros Hne. destruct data as [|d0 data']; [done|].
  unfold smoothed, py_range2. simpl getitem. simpl.
  rewrite Nat.sub_0_r.
  destruct (smoothing_loop_run (d0 :: data') (length data') [d0]) as (s & Hs & Hl & Hp0 & Hp).
  - simpl; lia.
  - simpl; lia.
  - split; [done|]. intros i p prev _ _ Hlt. simpl in Hlt. lia.
  - exists s. split; [exact Hs|]. split; [simpl in *; lia|]. split; [exact Hp0|].
    intros i p prev Hd Hs'. apply Hp; [done|done|].
    apply lookup_lt_Some in Hd. simpl in *. lia.
Qed.

Lemma projection_loop_run (data : list F) (target : F) (steps : list nat) :
  last data = Some target ->
  forall last_value future,
    projection_loop data steps last_value future
    = Ok (future ++ projections target last_value (length steps)).
Proof.
  intros Hlast. induction steps as [|i steps IH]; intros lv fut; simpl.
  - by rewrite app_nil_r.
  - rewrite (getitem_last _ _ Hlast). simpl.
    rewrite IH, <- app_assoc. reflexivity.
Qed.

Lemma projections_length (target lv : F) (n : nat) :
  length (projections target lv n) = n.
Proof. revert lv. induction n as [|n IH]; intros lv; simpl; [done|by rewrite IH]. Qed.

Lemma projections_first (target lv : F) (n : nat) :
  0 < n -> projections target lv n !! 0 = Some (blend target lv).
Proof. destruct n; [lia|done]. Qed.

Lemma projections_step (target : F) (n : nat) :
  forall lv k a b,
    projections target lv n !! k = Some a ->
    projections target lv n !! S k = Some b ->
    b = blend target a.
Proof.
  induction n as [|n IH]; intros lv k a b Ha Hb; [done|].
  destruct k as [|k]; simpl in *.
  - destruct n; simpl in *; [done|]. congruence.
  - eapply IH; eassumption.
Qed.

(** What a run of [predict_arima_simple] on a non-empty series is: the
    smoothed series, the projections from its last value, and the two
    metric calls, the only steps that can raise. *)
Lemma arima_run (data : list F) (days_to_predict : Z) :
  data <> [] ->
  exists s target last_s,
    smoothed data = Ok s
    /\ length s = length data
    /\ s !! 0 = data !! 0
    /\ (forall i p prev, data !! S i = Some p -> s !! i = Some prev ->
          s !! S i = Some (blend p prev))
    /\ last data = Some target
    /\ last s = Some last_s
    /\ predict_arima_simple data days_to_predict
       = (let y_test := drop (int_08 (length data)) data in
          let y_pred := take (length y_test) (drop (int_08 (length data)) s) in
          mse ← mean_squared_error y_test y_pred;
          mae ← mean_absolute_error y_test y_pred;
          Ok (Some (projections target last_s (Z.to_nat days_to_predict)),
              Some (np_sqrt mse), Some mae)).
Proof.
  intros Hne.
  destruct (smoothed_run data Hne) as (s & Hs & Hl & H0 & Hrec).
  assert (exists target, last data = Some target) as [target Ht].
  { destruct (last data) eqn:E; [eauto|]. apply last_None in E. done. }
  assert (exists last_s, last s = Some last_s) as [last_s Hls].
  { destruct (last s) eqn:E; [eauto|]. apply last_None in E.
    subst s. destruct data; [done|discriminate]. }
  exists s, target, last_s. repeat (split; [done|]).
  unfold predict_arima_simple. rewrite Hs. simpl.
  destruct (mean_squared_error _ _) as [mse|e]; simpl; [|done].
  destruct (mean_absolute_error _ _) as [mae|e]; simpl; [|done].
  rewrite (getitem_last _ _ Hls). simpl.
  rewrite (projection_loop_run _ _ _ Ht). simpl.
  unfold py_range. by rewrite length_seq.
Qed.

End ArimaFacts.

(** *** In binary64 *)

Lemma blend_float64 (price previous : float) :
  blend price previous = (0.3 * price + 0.7 * previous)%float.
Proof. reflexivity. Qed.

(** C4. On a non-empty series [predict_arima_simple] computes the smoothed
    series [s[0] = price[0]], [s[i] = 0.3 * price[i] + 0.7 * s[i-1]] and the
    [days_to_predict] predictions [next = 0.3 * last_price + 0.7 * previous],
    starting from the last smoothed value, the last price being the same at
    every step; these are the predictions of every triple it returns, and it
    returns one whenever the two metric calls do. The arithmetic is the
    binary64 arithmetic of the program. *)
Theorem arima_exact_recurrence (SK : Sklearn float) (data : list float)
    (days_to_predict : Z) :
  data <> [] ->
  exists s last_price last_s preds,
    smoothed data = Ok s
    /\ length s = length data
    /\ s !! 0%nat = data !! 0%nat
    /\ (forall i p prev, data !! S i = Some p -> s !! i = Some prev ->
          s !! S i = Some (0.3 * p + 0.7 * prev)%float)
    /\ last data = Some last_price
    /\ last s = Some last_s
    /\ length preds = Z.to_nat days_to_predict
    /\ (0 < days_to_predict ->
          preds !! 0%nat = Some (0.3 * last_price + 0.7 * last_s)%float)
    /\ (forall k a b, preds !! k = Some a -> preds !! S k = Some b ->
          b = (0.3 * last_price + 0.7 * a)%float)
    /\ (forall out, predict_arima_simple data days_to_predict = Ok out ->
          out.1.1 = Some preds)
    /\ (forall mse mae,
          let y_test := drop (int_08 (length data)) data in
          let y_pred := take (length y_test) (drop (int_08 (length data)) s) in
          mean_squared_error y_test y_pred = Ok mse ->
          mean_absolute_error y_test y_pred = Ok mae ->
          predict_arima_simple data days_to_predict
          = Ok (Some preds, Some (PrimFloat.sqrt mse), Some mae)).
Proof.
  intros Hne.
  destruct (arima_run data days_to_predict Hne)
    as (s & target & last_s & Hs & Hl & H0 & Hrec & Ht & Hls & Hrun).
  exists s, target, last_s, (projections target last_s (Z.to_nat days_to_predict)).
  do 3 (split; [done|]).
  split; [intros i p prev Hd Hp; rewrite <- blend_float64; by apply Hrec|].
  do 2 (split; [done|]).
  split; [apply projections_length|].
  split; [intros Hpos; rewrite <- blend_float64; apply projections_first; lia|].
  split; [intros k a b Ha Hb; rewrite <- blend_float64;
          apply (projections_step _ _ _ _ _ _ Ha Hb)|].
  split.
  - intros out Hout. rewrite Hrun in Hout. simpl in Hout.
    destruct (mean_squared_error _ _) as [mse|e]; simpl in Hout; [|done].
    destruct (mean_absolute_error _ _) as [mae|e]; simpl in Hout; [|done].
    by inversion Hout.
  - intros mse mae y_test y_pred Hmse Hmae. rewrite Hrun. simpl.
    fold y_test y_pred. rewrite Hmse. simpl. rewrite Hmae. reflexivity.
Qed.

(** *** Rounding to binary64 *)

Section Binary64Rounding.
Import Float64.

Lemma iter_pos_nat {A} (f : A -> A) (p : positive) (x : A) :
  SpecFloat.iter_pos f p x = Nat.iter (Pos.to_nat p) f x.
Proof.
  revert x. induction p as [p IH|p IH|]; intros x.
  - change (SpecFloat.iter_pos f (xI p) x) with (SpecFloat.iter_pos f p (SpecFloat.iter_pos f p (f x))).
    rewrite !IH, Pos2Nat.inj_xI.
    change (S (2 * Pos.to_nat p))%nat with (S (Pos.to_nat p + (Pos.to_nat p + 0)))%nat.
    rewrite Nat.add_0_r, Nat.iter_succ_r, Nat.iter_add. reflexivity.
  - change (SpecFloat.iter_pos f (xO p) x) with (SpecFloat.iter_pos f p (SpecFloat.iter_pos f p x)).
    rewrite !IH, Pos2Nat.inj_xO.
    change (2 * Pos.to_nat p)%nat with (Pos.to_nat p + (Pos.to_nat p + 0))%nat.
    rewrite Nat.add_0_r, Nat.iter_add. reflexivity.
  - reflexivity.
Qed.

Lemma shr_1_nonneg (m : Z) (r s : bool) :
  0 <= m ->
  shr_1 {| shr_m := m; shr_r := r; shr_s := s |}
  = {| shr_m := Z.div2 m; shr_r := Z.odd m; shr_s := orb r s |}.
Proof. intros Hm. destruct m as [|[p|p|]|p]; simpl; try lia; reflexivity. Qed.

Lemma shr_iter (m : Z) (n : nat) :
  0 <= m ->
  let rec := Nat.iter n shr_1 {| shr_m := m; shr_r := false; shr_s := false |} in
  0 <= shr_m rec
  /\ exists rem, m = shr_m rec * 2 ^ Z.of_nat n + rem
                 /\ 0 <= rem < 2 ^ Z.of_nat n
                 /\ loc_ok (Z.of_nat n) rem (shr_r rec) (shr_s rec).
Proof.
  intros Hm. induction n as [|n IH]; cbv zeta in *.
  - simpl. split; [done|]. exists 0. unfold loc_ok. simpl. lia.
  - rewrite Nat.iter_succ.
    destruct (Nat.iter n shr_1 _) as [q r s]. simpl in IH.
    destruct IH as (Hq & rem & Hdec & Hrem & Hloc).
    rewrite shr_1_nonneg by done. simpl.
    assert (HD : 0 <= Z.div2 q) by (apply Z.div2_nonneg; done).
    pose proof (Z.div2_odd q) as Hodd.
    unfold loc_ok in *.
    rewrite Nat2Z.inj_succ, !Z.pow_succ_r by lia.
    assert (Hp : 0 < 2 ^ Z.of_nat n) by (apply Z.pow_pos_nonneg; lia).
    set (P := 2 ^ Z.of_nat n) in *. set (D := Z.div2 q) in *.
    split; [done|].
    exists ((if Z.odd q then P else 0) + rem).
    clearbody P D.
    destruct (Z.odd q); simpl Z.b2z in Hodd; subst q;
      (split; [rewrite Hdec; ring|]);
      destruct r, s; simpl; lia.
Qed.

Lemma shr_spec (m e n : Z) :
  0 <= m -> 0 <= n ->
  exists rec rem,
    shr {| shr_m := m; shr_r := false; shr_s := false |} e n = (rec, e + n)
    /\ 0 <= shr_m rec
    /\ m = shr_m rec * 2 ^ n + rem
    /\ 0 <= rem < 2 ^ n
    /\ loc_ok n rem (shr_r rec) (shr_s rec).
Proof.
  intros Hm Hn. destruct n as [|p|p]; [| |lia].
  - exists {| shr_m := m; shr_r := false; shr_s := false |}, 0.
    unfold shr, loc_ok. rewrite Z.add_0_r. cbn [shr_m shr_r shr_s].
    change (2 ^ 0) with 1. repeat split; lia.
  - unfold shr. rewrite iter_pos_nat.
    pose proof (shr_iter m (Pos.to_nat p) Hm) as H. cbv zeta in H.
    rewrite positive_nat_Z in H. destruct H as (Hq & rem & H).
    eexists _, rem. split; [reflexivity|]. split; [exact Hq|exact H].
Qed.

Lemma digits2_pos_size (p : positive) : digits2_pos p = Pos.size p.
Proof. induction p as [p IH|p IH|]; simpl; by rewrite ?IH. Qed.

Lemma digits2_bounds (p : positive) :
  2 ^ (Z.pos (digits2_pos p) - 1) <= Z.pos p < 2 ^ Z.pos (digits2_pos p).
Proof.
  rewrite digits2_pos_size.
  pose proof (Pos.size_gt p) as Hgt. pose proof (Pos.size_le p) as Hle.
  apply Pos2Z.pos_lt_pos in Hgt. apply Pos2Z.pos_le_pos in Hle.
  rewrite Pos2Z.inj_pow in Hgt, Hle.
  replace (Z.pos (Pos.size p)) with (Z.succ (Z.pos (Pos.size p) - 1)) in Hle at 1 by lia.
  rewrite Z.pow_succ_r in Hle by lia.
  change (Z.pos p~0) with (2 * Z.pos p) in Hle. lia.
Qed.

Lemma digits2_unique (p : positive) (k : Z) :
  2 ^ (k - 1) <= Z.pos p < 2 ^ k -> Z.pos (digits2_pos p) = k.
Proof.
  intros [Hlo Hhi]. pose proof (digits2_bounds p) as [Hlo' Hhi'].
  set (d := Z.pos (digits2_pos p)) in *.
  assert (Hd : 0 < d) by (unfold d; lia).
  destruct (Z.lt_trichotomy d k) as [Hlt|[Heq|Hgt]]; [|done|].
  - assert (2 ^ d <= 2 ^ (k - 1)) by (apply Z.pow_le_mono_r; lia). lia.
  - destruct (Z.le_gt_cases 0 k) as [Hk|Hk].
    + assert (2 ^ k <= 2 ^ (d - 1)) by (apply Z.pow_le_mono_r; lia). lia.
    + rewrite (Z.pow_neg_r 2 k) in Hhi by lia. lia.
Qed.

Lemma rne_spec (m1 n rem : Z) (r s : bool) :
  loc_ok n rem r s -> 0 <= rem < 2 ^ n ->
  let m2 := round_nearest_even m1
              (loc_of_shr_record {| shr_m := m1; shr_r := r; shr_s := s |}) in
  (m2 = m1 \/ m2 = m1 + 1)
  /\ 2 * Z.abs (m2 * 2 ^ n - (m1 * 2 ^ n + rem)) <= 2 ^ n.
Proof.
  unfold loc_ok. intros Hloc Hrem. set (P := 2 ^ n) in *. clearbody P.
  destruct r, s; simpl.
  - split; [by right|]. lia.
  - destruct (Z.even m1); (split; [tauto|lia]).
  - split; [by left|]. lia.
  - split; [by left|]. lia.
Qed.

(** Rounding a mantissa of at least 53 bits in the normal range: the
    result is a normal number, within half a unit in the last place. *)
Lemma binary_round_aux_normal (sx : bool) (mx : positive) (ex : Z) :
  let d := Z.pos (digits2_pos mx) in
  53 <= d -> -1074 <= ex + d - 53 -> ex + d <= 1023 ->
  exists m3 e3,
    binary_round_aux prec emax sx (Z.pos mx) ex loc_Exact = S754_finite sx m3 e3
    /\ Z.pos (digits2_pos m3) = 53
    /\ ex <= e3
    /\ (e3 = ex + d - 53 \/ e3 = ex + d - 52)
    /\ 2 ^ 53 * Z.abs (Z.pos m3 * 2 ^ (e3 - ex) - Z.pos mx) <= Z.pos mx.
Proof.
  intros d Hd Hlo Hhi.
  enough (exists m3 e3,
    binary_round_aux prec emax sx (Z.pos mx) ex loc_Exact = S754_finite sx m3 e3
    /\ Z.pos (digits2_pos m3) = 53
    /\ ex <= e3
    /\ (e3 = ex + d - 53 \/ e3 = ex + d - 52)
    /\ 2 * Z.abs (Z.pos m3 * 2 ^ (e3 - ex) - Z.pos mx) <= 2 ^ (d - 53)) as H.
  { destruct H as (m3 & e3 & H1 & H2 & H3 & H4 & H5).
    exists m3, e3. do 4 (split; [done|]).
    pose proof (digits2_bounds mx) as [Hmlo _]. fold d in Hmlo.
    assert (Hpd : 2 ^ (d - 1) = 2 ^ 52 * 2 ^ (d - 53)).
    { rewrite <- Z.pow_add_r by lia. f_equal. lia. }
    change (2 ^ 53) with (2 * 2 ^ 52). lia. }
  pose proof (digits2_bounds mx) as [Hmlo Hmhi]. fold d in Hmlo, Hmhi.
  unfold binary_round_aux, shr_fexp.
  change (Zdigits2 (Z.pos mx)) with d.
  change (shr_record_of_loc (Z.pos mx) loc_Exact)
    with {| shr_m := Z.pos mx; shr_r := false; shr_s := false |}.
  assert (Hf : fexp prec emax (d + ex) - ex = d - 53).
  { unfold fexp, SpecFloat.emin, prec, emax. lia. }
  rewrite Hf.
  destruct (shr_spec (Z.pos mx) ex (d - 53) ltac:(lia) ltac:(lia))
    as ([m1 r s] & rem & Hshr & Hm1 & Hdec & Hrem & Hloc).
  rewrite Hshr. cbn [shr_m shr_r shr_s] in *.
  destruct (rne_spec m1 (d - 53) rem r s Hloc Hrem) as [Hm2 Herr].
  set (m2 := round_nearest_even m1 _) in *.
  set (n := d - 53) in *. set (P := 2 ^ n) in *.
  assert (HP : 0 < P) by (apply Z.pow_pos_nonneg; lia).
  assert (Hpd : 2 ^ d = 2 ^ 53 * P).
  { unfold P, n. rewrite <- Z.pow_add_r by lia. f_equal. lia. }
  assert (Hpd1 : 2 ^ (d - 1) = 2 ^ 52 * P).
  { unfold P, n. rewrite <- Z.pow_add_r by lia. f_equal. lia. }
  assert (Hb1 : 2 ^ 52 <= m1 < 2 ^ 53) by nia.
  assert (Hb2 : 2 ^ 52 <= m2 <= 2 ^ 53) by lia.
  change (shr_record_of_loc m2 loc_Exact)
    with {| shr_m := m2; shr_r := false; shr_s := false |}.
  destruct (Z.eq_dec m2 (2 ^ 53)) as [Htop|Htop].
  - (* the mantissa has rounded up to the next power of two *)
    rewrite Htop.
    assert (Hf2 : fexp prec emax (Zdigits2 (2 ^ 53) + (ex + n)) - (ex + n) = 1).
    { change (Zdigits2 (2 ^ 53)) with 54. unfold fexp, SpecFloat.emin, prec, emax. lia. }
    rewrite Hf2.
    change (shr {| shr_m := 2 ^ 53; shr_r := false; shr_s := false |} (ex + n) 1)
      with ({| shr_m := 2 ^ 52; shr_r := false; shr_s := false |}, ex + n + 1).
    cbn [shr_m]. change (2 ^ 52) with (Z.pos (2 ^ 52)%positive) at 1.
    cbv iota.
    assert (Hle : (ex + n + 1 <=? emax - prec) = true)
      by (apply Z.leb_le; unfold emax, prec, n; lia).
    rewrite Hle.
    exists (2 ^ 52)%positive, (ex + n + 1).
    split; [reflexivity|]. split; [reflexivity|]. split; [lia|].
    split; [right; unfold n; lia|].
    replace (ex + n + 1 - ex) with (Z.succ n) by lia.
    rewrite Z.pow_succ_r by lia. fold P.
    replace (Z.pos (2 ^ 52) * (2 * P) - Z.pos mx) with (m2 * P - (m1 * P + rem)).
    + exact Herr.
    + rewrite Htop, Hdec. change (Z.pos (2 ^ 52)) with (2 ^ 52). change (2 ^ 53) with (2 * 2 ^ 52).
      ring.
  - assert (Hb3 : 2 ^ 52 <= m2 < 2 ^ 53) by lia.
    destruct m2 as [|p2|p2] eqn:Ep2; [lia| |lia].
    assert (Hd2 : Z.pos (digits2_pos p2) = 53) by (apply digits2_unique; exact Hb3).
    assert (Hf2 : fexp prec emax (Zdigits2 (Z.pos p2) + (ex + n)) - (ex + n) = 0).
    { change (Zdigits2 (Z.pos p2)) with (Z.pos (digits2_pos p2)). rewrite Hd2.
      unfold fexp, SpecFloat.emin, prec, emax, n. lia. }
    rewrite Hf2.
    change (shr {| shr_m := Z.pos p2; shr_r := false; shr_s := false |} (ex + n) 0)
      with ({| shr_m := Z.pos p2; shr_r := false; shr_s := false |}, ex + n).
    cbn [shr_m]. cbv iota.
    assert (Hle : (ex + n <=? emax - prec) = true)
      by (apply Z.leb_le; unfold emax, prec, n; lia).
    rewrite Hle.
    exists p2, (ex + n).
    split; [reflexivity|]. split; [exact Hd2|]. split; [lia|].
    split; [left; unfold n; lia|].
    replace (ex + n - ex) with n by lia. fold P.
    rewrite Hdec. exact Herr.
Qed.


End Binary64Rounding.

(** *** The values of binary64 numbers *)

Section Binary64Values.
Import Float64.
Local Open Scope Q_scope.

Lemma pow2_pos (e : Z) : 0 < 2 ^ e.
Proof. apply Qpower_0_lt. reflexivity. Qed.

Lemma pow2_add (a b : Z) : 2 ^ (a + b) == 2 ^ a * 2 ^ b.
Proof. apply Qpower_plus. discriminate. Qed.

Lemma pow2_inject (n : Z) : (0 <= n)%Z -> inject_Z (2 ^ n) == 2 ^ n.
Proof. intros Hn. by rewrite Zpower_Qpower. Qed.

(** A rounded mantissa, as a value. *)
Lemma rounded_value (mx m3 : positive) (ex e3 : Z) :
  (ex <= e3)%Z ->
  (2 ^ 53 * Z.abs (Z.pos m3 * 2 ^ (e3 - ex) - Z.pos mx) <= Z.pos mx)%Z ->
  (1 - u53) * (inject_Z (Z.pos mx) * 2 ^ ex) <= inject_Z (Z.pos m3) * 2 ^ e3
  /\ inject_Z (Z.pos m3) * 2 ^ e3 <= (1 + u53) * (inject_Z (Z.pos mx) * 2 ^ ex).
Proof.
  intros He Herr.
  assert (E : inject_Z (Z.pos m3) * 2 ^ e3
              == inject_Z (Z.pos m3 * 2 ^ (e3 - ex)) * 2 ^ ex).
  { rewrite inject_Z_mult, pow2_inject by lia.
    replace e3 with ((e3 - ex) + ex)%Z at 1 by lia. rewrite pow2_add. ring. }
  rewrite E. set (K := (Z.pos m3 * 2 ^ (e3 - ex))%Z) in *.
  pose proof (pow2_pos ex) as HT. set (T := 2 ^ ex) in *.
  assert (H1 : (2 ^ 53 * (K + - Z.pos mx) <= Z.pos mx)%Z) by lia.
  assert (H2 : (2 ^ 53 * (Z.pos mx + - K) <= Z.pos mx)%Z) by lia.
  rewrite Zle_Qle in H1, H2.
  rewrite inject_Z_mult, inject_Z_plus, inject_Z_opp in H1, H2.
  change (inject_Z (2 ^ 53)) with (9007199254740992 # 1) in H1, H2.
  set (k := inject_Z K) in *. set (m := inject_Z (Z.pos mx)) in *.
  unfold u53. clearbody k m T. split; nra.
Qed.

Lemma pow2_le (a b : Z) : (a <= b)%Z -> 2 ^ a <= 2 ^ b.
Proof. intros H. apply Qpower_le_compat_l; [exact H|discriminate]. Qed.

Lemma pow2_lt_inv (a b : Z) : 2 ^ a < 2 ^ b -> (a < b)%Z.
Proof. intros H. apply (Qpower_lt_compat_l_inv 2); [exact H|reflexivity]. Qed.

(** A normal positive number has a mantissa of 53 bits. *)
Lemma normal_value_bounds (m : positive) (e : Z) :
  Z.pos (digits2_pos m) = 53%Z ->
  2 ^ (52 + e) <= inject_Z (Z.pos m) * 2 ^ e
  /\ inject_Z (Z.pos m) * 2 ^ e < 2 ^ (53 + e).
Proof.
  intros Hd. pose proof (digits2_bounds m) as [Hlo Hhi]. rewrite Hd in Hlo, Hhi.
  change (53 - 1)%Z with 52%Z in Hlo.
  rewrite Zle_Qle in Hlo. rewrite Zlt_Qlt in Hhi.
  change (inject_Z (2 ^ 52)) with (4503599627370496 # 1) in Hlo.
  change (inject_Z (2 ^ 53)) with (9007199254740992 # 1) in Hhi.
  rewrite !pow2_add.
  change (2 ^ 52) with (4503599627370496 # 1). change (2 ^ 53) with (9007199254740992 # 1).
  pose proof (pow2_pos e) as HT. set (T := 2 ^ e) in *. set (k := inject_Z (Z.pos m)) in *.
  clearbody T k. split; nra.
Qed.

Lemma SFmul_normal (mx my : positive) (ex ey : Z) :
  Z.pos (digits2_pos mx) = 53%Z -> Z.pos (digits2_pos my) = 53%Z ->
  (-1126 <= ex + ey <= 917)%Z ->
  exists m3 e3,
    SFmul prec emax (S754_finite false mx ex) (S754_finite false my ey)
    = S754_finite false m3 e3
    /\ Z.pos (digits2_pos m3) = 53%Z
    /\ (ex + ey + 52 <= e3 <= ex + ey + 54)%Z
    /\ (1 - u53) * (SF2Q (S754_finite false mx ex) * SF2Q (S754_finite false my ey))
       <= SF2Q (S754_finite false m3 e3)
    /\ SF2Q (S754_finite false m3 e3)
       <= (1 + u53) * (SF2Q (S754_finite false mx ex) * SF2Q (S754_finite false my ey)).
Proof.
  intros Hx Hy He.
  pose proof (digits2_bounds mx) as [Hxlo Hxhi]. rewrite Hx in Hxlo, Hxhi.
  pose proof (digits2_bounds my) as [Hylo Hyhi]. rewrite Hy in Hylo, Hyhi.
  change (53 - 1)%Z with 52%Z in *.
  assert (Hprod : (2 ^ 104 <= Z.pos (mx * my) < 2 ^ 106)%Z).
  { rewrite Pos2Z.inj_mul.
    change (2 ^ 104)%Z with (2 ^ 52 * 2 ^ 52)%Z. change (2 ^ 106)%Z with (2 ^ 53 * 2 ^ 53)%Z.
    nia. }
  pose proof (digits2_bounds (mx * my)) as [Hdlo Hdhi].
  set (d := Z.pos (digits2_pos (mx * my))) in *.
  assert (Hd : (105 <= d <= 106)%Z).
  { split.
    - destruct (Z.le_gt_cases 105 d) as [|Hc]; [done|].
      assert (2 ^ d <= 2 ^ 104)%Z by (apply Z.pow_le_mono_r; lia). lia.
    - destruct (Z.le_gt_cases d 106) as [|Hc]; [done|].
      assert (2 ^ 106 <= 2 ^ (d - 1))%Z by (apply Z.pow_le_mono_r; lia). lia. }
  destruct (binary_round_aux_normal false (mx * my) (ex + ey))
    as (m3 & e3 & Hr & Hd3 & Hle & He3 & Herr); fold d; try lia.
  exists m3, e3. split; [exact Hr|]. split; [exact Hd3|]. split; [lia|].
  pose proof (rounded_value _ _ _ _ Hle Herr) as [H1 H2].
  assert (E : SF2Q (S754_finite false mx ex) * SF2Q (S754_finite false my ey)
              == inject_Z (Z.pos (mx * my)) * 2 ^ (ex + ey)).
  { unfold SF2Q. rewrite Pos2Z.inj_mul, inject_Z_mult, pow2_add. ring. }
  rewrite E. unfold SF2Q at 1 2.
  split; [rewrite Qmult_1_l; exact H1|rewrite Qmult_1_l; exact H2].
Qed.

Lemma iter_xO (m d : positive) : Z.pos (Pos.iter xO m d) = (Z.pos m * 2 ^ Z.pos d)%Z.
Proof.
  induction d as [|d IH] using Pos.peano_ind.
  - change (Z.pos (Pos.iter xO m 1)) with (2 * Z.pos m)%Z. change (2 ^ 1)%Z with 2%Z. lia.
  - rewrite Pos.iter_succ, Pos2Z.inj_succ, Z.pow_succ_r by lia.
    change (Z.pos (Pos.iter xO m d)~0) with (2 * Z.pos (Pos.iter xO m d))%Z.
    rewrite IH. ring.
Qed.

Lemma shl_align_value (m : positive) (e e' : Z) :
  (e' <= e)%Z -> Z.pos (fst (shl_align m e e')) = (Z.pos m * 2 ^ (e - e'))%Z.
Proof.
  intros He. unfold shl_align.
  destruct (e' - e)%Z as [|p|p] eqn:E; [|lia|].
  - replace (e - e')%Z with 0%Z by lia. simpl. lia.
  - simpl fst. rewrite iter_xO. f_equal. f_equal. lia.
Qed.

Lemma shl_align_id (m : positive) (e e' : Z) :
  (e <= e')%Z -> shl_align m e e' = (m, e).
Proof.
  intros He. unfold shl_align. destruct (e' - e)%Z as [|p|p] eqn:E; [done|done|lia].
Qed.

Lemma SFadd_normal (mx my : positive) (ex ey : Z) :
  Z.pos (digits2_pos mx) = 53%Z -> Z.pos (digits2_pos my) = 53%Z ->
  (-1074 <= ex <= 969)%Z -> (-1074 <= ey <= 969)%Z ->
  exists m3 e3,
    SFadd prec emax (S754_finite false mx ex) (S754_finite false my ey)
    = S754_finite false m3 e3
    /\ Z.pos (digits2_pos m3) = 53%Z
    /\ (1 - u53) * (SF2Q (S754_finite false mx ex) + SF2Q (S754_finite false my ey))
       <= SF2Q (S754_finite false m3 e3)
    /\ SF2Q (S754_finite false m3 e3)
       <= (1 + u53) * (SF2Q (S754_finite false mx ex) + SF2Q (S754_finite false my ey)).
Proof.
  intros Hx Hy Hex Hey.
  pose proof (digits2_bounds mx) as [Hxlo Hxhi]. rewrite Hx in Hxlo, Hxhi.
  pose proof (digits2_bounds my) as [Hylo Hyhi]. rewrite Hy in Hylo, Hyhi.
  change (53 - 1)%Z with 52%Z in *.
  unfold SFadd. set (ez := Z.min ex ey).
  assert (Hzx : (ez <= ex)%Z) by (unfold ez; lia).
  assert (Hzy : (ez <= ey)%Z) by (unfold ez; lia).
  pose proof (shl_align_value mx ex ez Hzx) as Ha.
  pose proof (shl_align_value my ey ez Hzy) as Hb.
  set (a := fst (shl_align mx ex ez)) in *. set (b := fst (shl_align my ey ez)) in *.
  change (cond_Zopp false (Z.pos a) + cond_Zopp false (Z.pos b))%Z with (Z.pos (a + b)).
  change (binary_normalize prec emax (Z.pos (a + b)) ez false)
    with (binary_round prec emax false (a + b) ez).
  unfold binary_round.
  pose proof (digits2_bounds (a + b)) as [Hdlo Hdhi].
  set (d := Z.pos (digits2_pos (a + b))) in *.
  set (M := Z.max ex ey).
  assert (HPx : (0 < 2 ^ (ex - ez))%Z) by (apply Z.pow_pos_nonneg; lia).
  assert (HPy : (0 < 2 ^ (ey - ez))%Z) by (apply Z.pow_pos_nonneg; lia).
  assert (HMx : (2 ^ (ex - ez) <= 2 ^ (M - ez))%Z) by (apply Z.pow_le_mono_r; unfold M; lia).
  assert (HMy : (2 ^ (ey - ez) <= 2 ^ (M - ez))%Z) by (apply Z.pow_le_mono_r; unfold M; lia).
  assert (Hsum : (2 ^ 52 <= Z.pos (a + b) < 2 ^ 54 * 2 ^ (M - ez))%Z).
  { rewrite Pos2Z.inj_add, Ha, Hb. change (2 ^ 54)%Z with (2 * 2 ^ 53)%Z. nia. }
  assert (Hd : (53 <= d <= 54 + (M - ez))%Z).
  { split.
    - destruct (Z.le_gt_cases 53 d) as [|Hc]; [done|].
      assert (2 ^ d <= 2 ^ 52)%Z by (apply Z.pow_le_mono_r; lia). lia.
    - destruct (Z.le_gt_cases d (54 + (M - ez))) as [|Hc]; [done|].
      assert (2 ^ (54 + (M - ez)) <= 2 ^ (d - 1))%Z
        by (apply Z.pow_le_mono_r; unfold M, ez in *; lia).
      rewrite Z.pow_add_r in H by (unfold M, ez; lia). lia. }
  rewrite shl_align_id.
  2: { unfold fexp, SpecFloat.emin, prec, emax. fold d. lia. }
  destruct (binary_round_aux_normal false (a + b) ez)
    as (m3 & e3 & Hr & Hd3 & Hle & He3 & Herr); fold d; try (unfold M, ez in *; lia).
  exists m3, e3. split; [exact Hr|]. split; [exact Hd3|].
  pose proof (rounded_value _ _ _ _ Hle Herr) as [H1 H2].
  assert (E : SF2Q (S754_finite false mx ex) + SF2Q (S754_finite false my ey)
              == inject_Z (Z.pos (a + b)) * 2 ^ ez).
  { unfold SF2Q. rewrite Pos2Z.inj_add, Ha, Hb, inject_Z_plus, !inject_Z_mult.
    rewrite !pow2_inject by lia.
    replace ex with ((ex - ez) + ez)%Z at 1 by lia.
    replace ey with ((ey - ez) + ez)%Z at 1 by lia.
    rewrite !pow2_add. ring. }
  rewrite E. unfold SF2Q at 1 2.
  split; [rewrite Qmult_1_l; exact H1|rewrite Qmult_1_l; exact H2].
Qed.

(** *** Binary64 numbers of the program *)

Lemma pow2_le_inv (a b : Z) : 2 ^ a <= 2 ^ b -> (a <= b)%Z.
Proof. intros H. apply (Qpower_le_compat_l_inv 2); [exact H|reflexivity]. Qed.

Lemma in_band_exponent (x : float) (lo hi : Z) (m : positive) (e : Z) :
  Prim2SF x = S754_finite false m e -> Z.pos (digits2_pos m) = 53%Z ->
  2 ^ lo <= to_Q x <= 2 ^ hi ->
  (lo - 52 <= e <= hi - 52)%Z.
Proof.
  intros Hx Hd [Hlo Hhi]. unfold to_Q in *. rewrite Hx in *. unfold SF2Q in *.
  rewrite Qmult_1_l in *.
  destruct (normal_value_bounds m e Hd) as [H1 H2]. split.
  - assert (2 ^ lo < 2 ^ (53 + e)) as H by (eapply Qle_lt_trans; eassumption).
    apply pow2_lt_inv in H. lia.
  - assert (2 ^ (52 + e) <= 2 ^ hi) as H by (eapply Qle_trans; eassumption).
    apply pow2_le_inv in H. lia.
Qed.

Lemma price_in_band (p : float) : price p = true -> in_band p (-1000) 1000.
Proof.
  unfold price. intros H. apply andb_prop in H as [H1 H2].
  rewrite leb_spec in H1, H2.
  assert (El : Prim2SF price_low = S754_finite false 4503599627370496 (-1052))
    by (vm_compute; reflexivity).
  assert (Eh : Prim2SF price_high = S754_finite false 4503599627370496 948)
    by (vm_compute; reflexivity).
  rewrite El in H1. rewrite Eh in H2.
  pose proof (Prim2SF_valid p) as Hv.
  destruct (Prim2SF p) as [s|s| |s m e] eqn:Ep;
    [destruct s; discriminate|destruct s; discriminate|discriminate|].
  destruct s; [discriminate|].
  unfold SFleb, SFcompare in H1, H2.
  simpl in Hv. unfold bounded, canonical_mantissa in Hv.
  apply andb_prop in Hv as [Hc _]. apply Z.eqb_eq in Hc.
  unfold fexp, SpecFloat.emin, prec, emax in Hc.
  assert (He1 : (-1052 <= e)%Z).
  { destruct (Z.compare_spec (-1052) e); [lia|lia|discriminate]. }
  assert (Hd : Z.pos (digits2_pos m) = 53%Z) by lia.
  exists m, e. split; [exact Ep|]. split; [exact Hd|].
  unfold to_Q. rewrite Ep. unfold SF2Q. rewrite Qmult_1_l.
  destruct (normal_value_bounds m e Hd) as [Hlo Hhi].
  split.
  - eapply Qle_trans; [|exact Hlo]. apply pow2_le. lia.
  - destruct (Z.compare_spec e 948) as [->|Hlt|Hgt]; [| |discriminate].
    + pose proof (digits2_bounds m) as [Hmlo _]. rewrite Hd in Hmlo.
      change (2 ^ (53 - 1))%Z with 4503599627370496%Z in Hmlo.
      destruct (PosDef.Pos.compare_cont Eq m 4503599627370496) eqn:Ec; [| |discriminate].
      * apply Pos.compare_eq_iff in Ec. subst m.
        change (inject_Z 4503599627370496) with (2 ^ 52).
        rewrite <- pow2_add. apply pow2_le. lia.
      * assert (Hlt' : (m < 4503599627370496)%positive) by exact Ec.
        apply Pos2Z.pos_lt_pos in Hlt'. exfalso. clear - Hlt' Hmlo. lia.
    + apply Qlt_le_weak. eapply Qlt_le_trans; [exact Hhi|]. apply pow2_le. lia.
Qed.

Lemma mul_normal (x y : float) (mx my : positive) (ex ey : Z) :
  Prim2SF x = S754_finite false mx ex -> Z.pos (digits2_pos mx) = 53%Z ->
  Prim2SF y = S754_finite false my ey -> Z.pos (digits2_pos my) = 53%Z ->
  (-1126 <= ex + ey <= 917)%Z ->
  exists m3 e3,
    Prim2SF (x * y)%float = S754_finite false m3 e3
    /\ Z.pos (digits2_pos m3) = 53%Z
    /\ (ex + ey + 52 <= e3 <= ex + ey + 54)%Z
    /\ (1 - u53) * (to_Q x * to_Q y) <= to_Q (x * y)%float
    /\ to_Q (x * y)%float <= (1 + u53) * (to_Q x * to_Q y).
Proof.
  intros Hx Hdx Hy Hdy He.
  destruct (SFmul_normal mx my ex ey Hdx Hdy He) as (m3 & e3 & Hr & Hd3 & He3 & H1 & H2).
  exists m3, e3. unfold to_Q. rewrite mul_spec, Hx, Hy. unfold SF64mul. rewrite Hr.
  done.
Qed.

Lemma add_normal (x y : float) (mx my : positive) (ex ey : Z) :
  Prim2SF x = S754_finite false mx ex -> Z.pos (digits2_pos mx) = 53%Z ->
  Prim2SF y = S754_finite false my ey -> Z.pos (digits2_pos my) = 53%Z ->
  (-1074 <= ex <= 969)%Z -> (-1074 <= ey <= 969)%Z ->
  exists m3 e3,
    Prim2SF (x + y)%float = S754_finite false m3 e3
    /\ Z.pos (digits2_pos m3) = 53%Z
    /\ (1 - u53) * (to_Q x + to_Q y) <= to_Q (x + y)%float
    /\ to_Q (x + y)%float <= (1 + u53) * (to_Q x + to_Q y).
Proof.
  intros Hx Hdx Hy Hdy Hex Hey.
  destruct (SFadd_normal mx my ex ey Hdx Hdy Hex Hey) as (m3 & e3 & Hr & Hd3 & H1 & H2).
  exists m3, e3. unfold to_Q. rewrite add_spec, Hx, Hy. unfold SF64add. rewrite Hr.
  done.
Qed.

Lemma in_band_weaken (x : float) (lo hi lo' hi' : Z) :
  (lo' <= lo)%Z -> (hi <= hi')%Z -> in_band x lo hi -> in_band x lo' hi'.
Proof.
  intros Hlo Hhi (m & e & Hx & Hd & H1 & H2). exists m, e.
  split; [done|]. split; [done|]. split.
  - eapply Qle_trans; [apply pow2_le; exact Hlo|exact H1].
  - eapply Qle_trans; [exact H2|apply pow2_le; exact Hhi].
Qed.

(** One step of the recurrence in binary64: two products and a sum, each
    rounded once. *)
Lemma blend_model (L p : float) :
  in_band L (-1000) 1000 -> in_band p (-1001) 1001 ->
  in_band (0.3 * L + 0.7 * p)%float (-1001) 1001
  /\ (1 - u53) * ((1 - u53) * (q03 * to_Q L) + (1 - u53) * (q07 * to_Q p))
     <= to_Q (0.3 * L + 0.7 * p)%float
  /\ to_Q (0.3 * L + 0.7 * p)%float
     <= (1 + u53) * ((1 + u53) * (q03 * to_Q L) + (1 + u53) * (q07 * to_Q p)).
Proof.
  intros (mL & eL & HL & HdL & HvL) (mp & ep & Hp & Hdp & Hvp).
  pose proof (in_band_exponent _ _ _ _ _ HL HdL HvL) as HeL.
  pose proof (in_band_exponent _ _ _ _ _ Hp Hdp Hvp) as Hep.
  assert (Ea : Prim2SF 0.3%float = S754_finite false 5404319552844595 (-54))
    by (vm_compute; reflexivity).
  assert (Eb : Prim2SF 0.7%float = S754_finite false 6305039478318694 (-53))
    by (vm_compute; reflexivity).
  assert (Hda : Z.pos (digits2_pos 5404319552844595) = 53%Z) by reflexivity.
  assert (Hdb : Z.pos (digits2_pos 6305039478318694) = 53%Z) by reflexivity.
  assert (Hqa : to_Q 0.3%float == q03).
  { unfold to_Q. rewrite Ea. unfold SF2Q, q03, Qeq. vm_compute. reflexivity. }
  assert (Hqb : to_Q 0.7%float == q07).
  { unfold to_Q. rewrite Eb. unfold SF2Q, q07, Qeq. vm_compute. reflexivity. }
  destruct (mul_normal 0.3 L _ _ _ _ Ea Hda HL HdL ltac:(lia))
    as (m1 & e1 & H1 & Hd1 & He1 & H1lo & H1hi).
  destruct (mul_normal 0.7 p _ _ _ _ Eb Hdb Hp Hdp ltac:(lia))
    as (m2 & e2 & H2 & Hd2 & He2 & H2lo & H2hi).
  destruct (add_normal _ _ _ _ _ _ H1 Hd1 H2 Hd2 ltac:(lia) ltac:(lia))
    as (m3 & e3 & H3 & Hd3 & H3lo & H3hi).
  rewrite Hqa in H1lo, H1hi. rewrite Hqb in H2lo, H2hi.
  destruct HvL as [HvL1 HvL2]. destruct Hvp as [Hvp1 Hvp2].
  assert (ET : 2 ^ (-1000) == 2 * 2 ^ (-1001)).
  { change (-1000)%Z with (1 + -1001)%Z. rewrite pow2_add. reflexivity. }
  assert (EH : 2 ^ 1001 == 2 * 2 ^ 1000).
  { change 1001%Z with (1 + 1000)%Z. rewrite pow2_add. reflexivity. }
  pose proof (pow2_pos (-1001)) as HT. pose proof (pow2_pos 1000) as HH.
  rewrite ET in HvL1. rewrite EH in Hvp2.
  set (vL := to_Q L) in *. set (vp := to_Q p) in *.
  set (v1 := to_Q (0.3 * L)%float) in *. set (v2 := to_Q (0.7 * p)%float) in *.
  set (vz := to_Q (0.3 * L + 0.7 * p)%float) in *.
  set (T := 2 ^ (-1001)) in *. set (H := 2 ^ 1000) in *.
  unfold u53, q03, q07 in *.
  split; [|split].
  - exists m3, e3. split; [exact H3|]. split; [exact Hd3|].
    fold vz. fold T. rewrite EH. fold H. clearbody vL vp v1 v2 vz T H.
    split; lra.
  - clearbody vL vp v1 v2 vz T H. lra.
  - clearbody vL vp v1 v2 vz T H. lra.
Qed.

(** The deviation from the target contracts by almost 0.7, up to a
    rounding error of [2 ^ -51] times the target. *)
Lemma blend_deviation (L p : float) :
  in_band L (-1000) 1000 -> in_band p (-1001) 1001 ->
  Qabs (to_Q (0.3 * L + 0.7 * p)%float - to_Q L)
  <= (71 # 100) * Qabs (to_Q p - to_Q L) + to_Q L * (1 # 2251799813685248).
Proof.
  intros HL Hp. destruct (blend_model L p HL Hp) as (_ & Hlo & Hhi).
  destruct HL as (mL & eL & _ & _ & HvL & _).
  pose proof (pow2_pos (-1000)) as HT.
  pose proof (Qle_Qabs (to_Q p - to_Q L)) as HD1.
  pose proof (Qle_Qabs (- (to_Q p - to_Q L))) as HD2. rewrite Qabs_opp in HD2.
  set (vL := to_Q L) in *. set (vp := to_Q p) in *.
  set (vz := to_Q (0.3 * L + 0.7 * p)%float) in *.
  set (D := Qabs (vp - vL)) in *. set (T := 2 ^ (-1000)) in *.
  unfold u53, q03, q07 in *. clearbody vL vp vz D T.
  apply Qabs_Qle_condition. split; lra.
Qed.

End Binary64Values.

(** *** The projections in binary64 *)

Section ArimaBinary64.
Import Float64.
Local Open Scope Q_scope.

Lemma finite_is_finite (x : float) (s : bool) (m : positive) (e : Z) :
  Prim2SF x = S754_finite s m e -> PrimFloat.is_finite x = true.
Proof.
  unfold Prim2SF, PrimFloat.is_finite.
  destruct (PrimFloat.is_nan x); [discriminate|].
  destruct (PrimFloat.is_zero x); [discriminate|].
  destruct (PrimFloat.is_infinity x); [discriminate|]. reflexivity.
Qed.

Lemma in_band_positive (x : float) (lo hi : Z) :
  in_band x lo hi -> PrimFloat.is_finite x = true /\ 0 < to_Q x.
Proof.
  intros (m & e & Hx & _ & Hlo & _). split; [by eapply finite_is_finite|].
  eapply Qlt_le_trans; [apply pow2_pos|exact Hlo].
Qed.

Lemma price_lookup (data : list float) (i : nat) (p : float) :
  forallb price data = true -> data !! i = Some p -> price p = true.
Proof.
  revert i. induction data as [|d data IH]; intros i H Hp; [done|].
  simpl in H. apply andb_prop in H as [Hd Hrest].
  destruct i as [|i]; simpl in Hp; [by inversion Hp; subst|]. by eapply IH.
Qed.

(** Every value of the smoothed series of a series of prices is a positive
    normal number. *)
Lemma smoothed_in_band (data s : list float) :
  forallb price data = true ->
  length s = length data ->
  s !! 0%nat = data !! 0%nat ->
  (forall i p prev, data !! S i = Some p -> s !! i = Some prev ->
     s !! S i = Some (blend p prev)) ->
  forall i x, s !! i = Some x -> in_band x (-1001) 1001.
Proof.
  intros Hprice Hlen H0 Hrec. induction i as [|i IH]; intros x Hx.
  - rewrite H0 in Hx. apply (in_band_weaken _ (-1000) 1000); [lia|lia|].
    apply price_in_band. by eapply price_lookup.
  - assert (Hlt : (S i < length data)%nat) by (rewrite <- Hlen; by eapply lookup_lt_Some).
    destruct (lookup_lt_is_Some_2 data (S i) Hlt) as [p Hp].
    destruct (lookup_lt_is_Some_2 s i ltac:(rewrite Hlen; lia)) as [prev Hprev].
    rewrite (Hrec i p prev Hp Hprev) in Hx. injection Hx as <-.
    apply (blend_model p prev); [apply price_in_band; by eapply price_lookup|by apply IH].
Qed.

(** Every projection towards a price is a positive normal number. *)
Lemma projections_in_band (target : float) (n : nat) :
  in_band target (-1000) 1000 ->
  forall last_value k x,
    in_band last_value (-1001) 1001 ->
    projections target last_value n !! k = Some x ->
    in_band x (-1001) 1001.
Proof.
  intros Ht. induction n as [|n IH]; intros lv k x Hlv Hx; [done|].
  assert (Hnext : in_band (blend target lv) (-1001) 1001)
    by (rewrite blend_float64; by apply blend_model).
  destruct k as [|k]; simpl in Hx.
  - by inversion Hx; subst.
  - by eapply IH.
Qed.

End ArimaBinary64.

(** C5, as the code has it. In binary64, on a non-empty series of prices
    (doubles between [2 ^ -1000] and [2 ^ 1000]), [predict_arima_simple]
    returns its predictions whenever the two metric calls return, every
    prediction is a positive finite double, and the distance of
    a prediction to the last price is at most 0.71 times the distance of
    the prediction before it, plus a rounding error of [2 ^ -51] times the
    last price. So the distance does not increase as long as it is at least
    [2 ^ -49] times the last price, and once it is below that bound it stays
    below it: the deviation is non-increasing up to the rounding of the
    last bits. The distances are those of the rational numbers that the
    doubles denote. *)
Theorem arima_projection_contracts (SK : Sklearn float) (data : list float)
    (days_to_predict : Z) :
  data <> [] ->
  forallb Float64.price data = true ->
  exists s last_price preds,
    smoothed data = Ok s
    /\ last data = Some last_price
    /\ length preds = Z.to_nat days_to_predict
    /\ (forall out, predict_arima_simple data days_to_predict = Ok out ->
          out.1.1 = Some preds)
    /\ (forall mse mae,
          let y_test := drop (int_08 (length data)) data in
          let y_pred := take (length y_test) (drop (int_08 (length data)) s) in
          mean_squared_error y_test y_pred = Ok mse ->
          mean_absolute_error y_test y_pred = Ok mae ->
          predict_arima_simple data days_to_predict
          = Ok (Some preds, Some (PrimFloat.sqrt mse), Some mae))
    /\ (forall k a, preds !! k = Some a ->
          PrimFloat.is_finite a = true /\ (0 < Float64.to_Q a)%Q)
    /\ (forall k a b, preds !! k = Some a -> preds !! S k = Some b ->
          let dev x := Qabs (Float64.to_Q x - Float64.to_Q last_price) in
          let rounding := (Float64.to_Q last_price * (1 # 562949953421312))%Q in
          (dev b <= (71 # 100) * dev a
                    + Float64.to_Q last_price * (1 # 2251799813685248))%Q
          /\ ((rounding <= dev a)%Q -> (dev b <= dev a)%Q)
          /\ ((dev a <= rounding)%Q -> (dev b <= rounding)%Q)).
Proof.
  intros Hne Hprice.
  destruct (arima_run data days_to_predict Hne)
    as (s & target & last_s & Hs & Hl & H0 & Hrec & Ht & Hls & Hrun).
  assert (Htarget : Float64.in_band target (-1000) 1000).
  { apply price_in_band. rewrite last_lookup in Ht. by eapply price_lookup. }
  assert (Hlast : Float64.in_band last_s (-1001) 1001).
  { rewrite last_lookup in Hls. by eapply (smoothed_in_band data s). }
  exists s, target, (projections target last_s (Z.to_nat days_to_predict)).
  do 2 (split; [done|]). split; [apply projections_length|]. split; [|split; [|split]].
  - intros out Hout. rewrite Hrun in Hout. simpl in Hout.
    destruct (mean_squared_error _ _) as [mse|e]; simpl in Hout; [|done].
    destruct (mean_absolute_error _ _) as [mae|e]; simpl in Hout; [|done].
    by inversion Hout.
  - intros mse mae y_test y_pred Hmse Hmae. rewrite Hrun. simpl.
    fold y_test y_pred. rewrite Hmse. simpl. rewrite Hmae. reflexivity.
  - intros k a Ha. eapply in_band_positive.
    by eapply (projections_in_band target _ Htarget last_s k a).
  - intros k a b Ha Hb dev rounding.
    assert (Hband : Float64.in_band a (-1001) 1001)
      by (by eapply (projections_in_band target _ Htarget last_s k a)).
    rewrite (projections_step _ _ _ _ _ _ Ha Hb), blend_float64 in *.
    pose proof (blend_deviation target a Htarget Hband) as Hdev.
    destruct (in_band_positive _ _ _ Htarget) as [_ Hpos].
    unfold dev, rounding.
    set (db := Qabs (Float64.to_Q (0.3 * target + 0.7 * a)%float - Float64.to_Q target)) in *.
    set (da := Qabs (Float64.to_Q a - Float64.to_Q target)) in *.
    set (vL := Float64.to_Q target) in *. clearbody db da vL.
    split; [exact Hdev|]. split; intros Hcase; lra.
Qed.

(** ** Runs on concrete inputs *)

(** C5 does not hold in binary64. After 98 steps the prediction for the
    series [293.64, 472.62, 221.54] is the last price itself, and the 99th
    is one unit in the last place below it: rounding moves the prediction
    away from the last price again. *)
Lemma arima_projection_rounding :
  exists preds rmse mae,
    predict_arima_simple (SK := Sample.sklearn) three_prices 99 = Ok (Some preds, rmse, mae)
    /\ last three_prices = Some 221.54%float
    /\ preds !! 97%nat = Some 221.54%float
    /\ preds !! 98%nat = Some 221.53999999999996%float
    /\ PrimFloat.ltb (Float64.dist 221.54 221.54)
                     (Float64.dist 221.53999999999996 221.54) = true.
Proof.
  eexists _, _, _.
  split; [vm_compute; reflexivity|].
  repeat split.
Qed.

Lemma arima_exact_recurrence_witness :
  three_prices <> []
  /\ exists preds,
       length preds = 3%nat
       /\ forall out, predict_arima_simple (SK := Sample.sklearn) three_prices 3 = Ok out ->
                      out.1.1 = Some preds.
Proof.
  split; [discriminate|].
  destruct (arima_exact_recurrence Sample.sklearn three_prices 3 ltac:(discriminate))
    as (s & lp & ls & preds & _ & _ & _ & _ & _ & _ & Hlen & _ & _ & Hout & _).
  exists preds. split; [exact Hlen|exact Hout].
Defined.

Lemma arima_projection_contracts_witness :
  three_prices <> []
  /\ forallb Float64.price three_prices = true
  /\ exists preds,
       length preds = 3%nat
       /\ (forall out, predict_arima_simple (SK := Sample.sklearn) three_prices 3 = Ok out ->
                       out.1.1 = Some preds)
       /\ forall k a b, preds !! k = Some a -> preds !! S k = Some b ->
            (Qabs (Float64.to_Q b - Float64.to_Q 221.54)
             <= (71 # 100) * Qabs (Float64.to_Q a - Float64.to_Q 221.54)
                + Float64.to_Q 221.54 * (1 # 2251799813685248))%Q.
Proof.
  split; [discriminate|]. split; [vm_compute; reflexivity|].
  destruct (arima_projection_contracts Sample.sklearn three_prices 3
              ltac:(discriminate) ltac:(vm_compute; reflexivity))
    as (s & lp & preds & _ & Hlast & Hlen & Hout & _ & _ & Hstep).
  exists preds. split; [exact Hlen|]. split; [exact Hout|].
  intros k a b Ha Hb. inversion Hlast; subst lp.
  exact (proj1 (Hstep k a b Ha Hb)).
Defined.

(** C1 does not hold when a model raises. On a series of 70 prices with a
    Keras whose training fails, [predict_all_models] raises the failure of
    the LSTM, although each of the other three models returns a full result
    on that series; on the empty series the scaler's [ValueError] leaves it;
    on 60 prices the LSTM is absent and the mapping is returned. *)
Lemma predict_all_models_propagates :
  predict_all_models (SK := Sample.sklearn) (KR := Sample.keras_failing)
                     (Sample.ramp (F := float) 100 70) 5
  = Raise (LibraryError "ResourceExhaustedError")
  /\ (exists p rmse mae,
        predict_linear_regression (SK := Sample.sklearn) (Sample.ramp (F := float) 100 70) 5
        = Ok (Some p, Some rmse, Some mae))
  /\ (exists p rmse mae,
        predict_random_forest (SK := Sample.sklearn) (Sample.ramp (F := float) 100 70) 5
        = Ok (Some p, Some rmse, Some mae))
  /\ (exists p rmse mae,
        predict_arima_simple (SK := Sample.sklearn) (Sample.ramp (F := float) 100 70) 5
        = Ok (Some p, Some rmse, Some mae))
  /\ predict_all_models (F := float) (SK := Sample.sklearn) (KR := Sample.keras) [] 5
     = Raise ValueError.
Proof.
  split; [vm_compute; reflexivity|].
  split; [eexists _, _, _; vm_compute; reflexivity|].
  split; [eexists _, _, _; vm_compute; reflexivity|].
  split; [eexists _, _, _; vm_compute; reflexivity|].
  vm_compute; reflexivity.
Qed.

(** ** The synthetic series *)

Section DemoDataFacts.
Context {F : Type} {AR : Arith F} {PF : Platform F}.

Lemma draw_many_length {X} (draw : rng -> X * rng) (n : nat) (g : rng) :
  length (draw_many draw n g).1 = n.
Proof.
  revert g. induction n as [|n IH]; intros g; simpl; [done|].
  destruct (draw g) as [x g1]. specialize (IH g1).
  destruct (draw_many draw n g1) as [xs g2]. simpl in *. by rewrite IH.
Qed.

Lemma np_random_run {X} (draw : rng -> X * rng) (size : Z) (w : World) :
  0 <= size ->
  np_random draw size w
  = (Ok (draw_many draw (Z.to_nat size) (generator w)).1,
     set_generator (draw_many draw (Z.to_nat size) (generator w)).2 w).
Proof.
  intros Hs. unfold np_random.
  destruct (size <? 0) eqn:E; [apply Z.ltb_lt in E; lia|].
  by destruct (draw_many draw (Z.to_nat size) (generator w)).
Qed.

Lemma cumsum_from_length (acc : F) (l : list F) :
  length (cumsum_from acc l) = length l.
Proof. revert acc. induction l as [|x l IH]; intros acc; simpl; [done|by rewrite IH]. Qed.

Lemma np_cumsum_length (l : list F) : length (np_cumsum l) = length l.
Proof. destruct l; simpl; [done|by rewrite cumsum_from_length]. Qed.

Lemma offset_length (prices u : list F) :
  length u = length prices -> length (offset prices u) = length prices.
Proof.
  intros H. unfold offset. rewrite length_zip_with, length_fmap. lia.
Qed.

Lemma set_generator_twice (g1 g2 : rng) (w : World) :
  set_generator g2 (set_generator g1 w) = set_generator g2 w.
Proof. reflexivity. Qed.

Lemma representable_nonneg (end_date periods : Z) :
  representable end_date periods = true -> 0 <= periods.
Proof.
  unfold representable. intros H. apply andb_prop in H as [H _].
  apply andb_prop in H as [H _]. by apply Z.leb_le.
Qed.

(** [generate_demo_data], step by step: the dates, then the draws from the
    seeded generator, then the frame. *)
Lemma generate_demo_data_steps (symbol : string) (days : Z) (w : World) :
  generate_demo_data symbol days w
  = match pd_date_range (clock w) days with
    | Raise e => (Raise e, w)
    | Ok dates =>
        if days <? 0
        then (Raise ValueError, set_generator (rng_seed (py_hash symbol `mod` 2 ^ 32)) w)
        else (pd_DataFrame (strftime <$> dates) (demo_draws symbol (Z.to_nat days)).1,
              set_generator (demo_draws symbol (Z.to_nat days)).2 w)
    end.
Proof.
  unfold generate_demo_data, eff_bind, datetime_now, eff_lift.
  destruct (pd_date_range (clock w) days) as [dates|e]; [|done].
  unfold np_random_seed.
  destruct (days <? 0) eqn:E.
  - unfold np_random. by rewrite E.
  - apply Z.ltb_ge in E.
    rewrite np_random_run by done. simpl generator.
    rewrite !np_random_run by done. simpl generator.
    rewrite !set_generator_twice. reflexivity.
Qed.

Lemma demo_draws_lengths (symbol : string) (n : nat) :
  let c := (demo_draws symbol n).1 in
  length (Open c) = n /\ length (High c) = n /\ length (Low c) = n
  /\ length (Close c) = n /\ length (Volume c) = n /\ length (Adj_Close c) = n.
Proof.
  unfold demo_draws. cbv zeta. simpl.
  rewrite !offset_length, !length_fmap, np_cumsum_length, !draw_many_length;
    try by rewrite !length_fmap, np_cumsum_length, !draw_many_length.
  done.
Qed.

(** A run of [generate_demo_data] on a representable range: the dates end
    today, the columns are the draws from the seeded generator, and only the
    generator of the world changes. *)
Lemma generate_demo_data_run (symbol : string) (days : Z) (w : World) :
  representable (clock w) days = true ->
  generate_demo_data symbol days w
  = (Ok {| Date := strftime <$> demo_dates (clock w) days;
           columns := (demo_draws symbol (Z.to_nat days)).1 |},
     set_generator (demo_draws symbol (Z.to_nat days)).2 w).
Proof.
  intros Hr. pose proof (representable_nonneg _ _ Hr) as Hd.
  rewrite generate_demo_data_steps. unfold pd_date_range. rewrite Hr.
  destruct (days <? 0) eqn:E; [apply Z.ltb_lt in E; lia|].
  fold (demo_dates (clock w) days).
  destruct (demo_draws_lengths symbol (Z.to_nat days)) as (Ho & Hh & Hl & Hc & Hv & Ha).
  unfold pd_DataFrame.
  rewrite Ho, Hh, Hl, Hc, Hv, Ha, length_fmap. unfold demo_dates.
  rewrite length_fmap, length_seq, !Nat.eqb_refl. reflexivity.
Qed.

(** With [days < 0] the call raises: [pd.date_range] does, or
    [np.random.normal] rejects the negative size. *)
Lemma generate_demo_data_negative (symbol : string) (days : Z) (w : World) :
  days < 0 ->
  exists e g, generate_demo_data symbol days w = (Raise e, set_generator g w).
Proof.
  intros Hd. rewrite generate_demo_data_steps.
  apply Z.ltb_lt in Hd. rewrite Hd.
  destruct (pd_date_range (clock w) days) as [dates|e]; [eauto|].
  exists e, (generator w). by destruct w.
Qed.

(** Only the generator of the world changes. *)
Lemma generate_demo_data_world (symbol : string) (days : Z) (w : World) :
  exists g, (generate_demo_data symbol days w).2 = set_generator g w.
Proof.
  rewrite generate_demo_data_steps.
  destruct (pd_date_range (clock w) days) as [dates|e].
  - destruct (days <? 0); simpl; eauto.
  - exists (generator w). by destruct w.
Qed.

(** A frame returned holds the draws from the seeded generator. *)
Lemma generate_demo_data_columns (symbol : string) (days : Z) (w : World) (data : DataFrame F) :
  (generate_demo_data symbol days w).1 = Ok data ->
  columns data = (demo_draws symbol (Z.to_nat days)).1.
Proof.
  rewrite generate_demo_data_steps.
  destruct (pd_date_range (clock w) days) as [dates|e]; [|done].
  destruct (days <? 0); [done|]. simpl. unfold pd_DataFrame.
  destruct (_ && _); [|done]. intros H. by inversion H.
Qed.

End DemoDataFacts.

Section DemoDataTheorems.
Context {F : Type} {AR : Arith F} {PF : Platform F}.

Lemma demo_dates_lookup (end_date periods : Z) (i : nat) (a : Z) :
  demo_dates end_date periods !! i = Some a <->
  (i < Z.to_nat periods)%nat /\ a = end_date - (periods - 1) + Z.of_nat i.
Proof.
  unfold demo_dates. rewrite list_lookup_fmap. split.
  - intros H. destruct (seq 0 (Z.to_nat periods) !! i) as [k|] eqn:E; [|done].
    apply lookup_seq in E as [-> Hlt]. simpl in H. inversion H. split; [done|lia].
  - intros [Hlt ->]. rewrite lookup_seq_lt by done. reflexivity.
Qed.

(** C7, as the code has it. For [days >= 0] (and dates that pandas can
    represent), [generate_demo_data] returns a frame with exactly [days]
    rows in every column; its dates are the [days] consecutive days that end
    today, in ascending order; the frame is non-empty when [days >= 1] (and
    empty when [days = 0]). With [days < 0] the call raises. *)
Theorem generate_demo_data_rows (symbol : string) (days : Z) (w : World) :
  (representable (clock w) days = true ->
   exists data w' dates,
     generate_demo_data symbol days w = (Ok data, w')
     /\ df_len data = Z.to_nat days
     /\ length (Close (columns data)) = Z.to_nat days
     /\ length (Open (columns data)) = Z.to_nat days
     /\ length (High (columns data)) = Z.to_nat days
     /\ length (Low (columns data)) = Z.to_nat days
     /\ length (Volume (columns data)) = Z.to_nat days
     /\ Date data = strftime <$> dates
     /\ (forall i a, dates !! i = Some a <->
           (i < Z.to_nat days)%nat /\ a = clock w - (days - 1) + Z.of_nat i)
     /\ (forall i j a b, dates !! i = Some a -> dates !! j = Some b ->
           (i < j)%nat -> a < b)
     /\ (1 <= days -> (0 < df_len data)%nat /\ last dates = Some (clock w))
     /\ (days = 0 -> df_len data = 0%nat))
  /\ (days < 0 ->
      exists e w', generate_demo_data symbol days w = (Raise e, w')).
Proof.
  split.
  2: { intros Hd. destruct (generate_demo_data_negative symbol days w Hd) as (e & g & ->).
       eauto. }
  intros Hr. pose proof (representable_nonneg _ _ Hr) as Hd.
  eexists _, _, (demo_dates (clock w) days).
  split; [apply generate_demo_data_run; done|].
  assert (Hlen : length (demo_dates (clock w) days) = Z.to_nat days)
    by (unfold demo_dates; by rewrite length_fmap, length_seq).
  destruct (demo_draws_lengths symbol (Z.to_nat days)) as (Ho & Hh & Hl & Hc & Hv & _).
  unfold df_len. simpl. rewrite length_fmap, Hlen.
  do 7 (split; [done|]).
  split; [apply demo_dates_lookup|].
  split; [|split].
  - intros i j a b Ha Hb Hij.
    apply demo_dates_lookup in Ha as [_ ->]. apply demo_dates_lookup in Hb as [_ ->]. lia.
  - intros H1. split; [lia|].
    rewrite last_lookup, Hlen. apply demo_dates_lookup. split; lia.
  - intros ->. reflexivity.
Qed.

End DemoDataTheorems.

(** ** The retry loop *)

Section FetchFacts.
Context {F : Type} {AR : Arith F} {PF : Platform F}.
Local Open Scope nat_scope.

Lemma attempt_once_run (symbol start_str end_str : string) (retries : Z)
    (attempt : nat) (w : World) :
  exists r w',
    attempt_once symbol start_str end_str retries attempt w = (Ok r, w')
    /\ match accepted (yahoo w (downloads w) symbol start_str end_str) with
       | Some d => r = Some (reset_index d) /\ advanced w w' 1 []
       | None =>
           r = None
           /\ advanced w w' 1
                (if (Z.of_nat attempt <? retries - 1)%Z
                 then [((Z.of_nat attempt + 1) * 5)%Z] else [])
       end.
Proof.
  unfold attempt_once, try_except, eff_bind, yf_download, accepted, backoff, advanced.
  destruct (yahoo w (downloads w) symbol start_str end_str) as [[d|]|e]; simpl.
  - destruct (negb (dl_empty d) && (0 <? dl_len d)); simpl.
    + eexists _, _. split; [reflexivity|]. simpl.
      rewrite app_nil_r. repeat split; lia.
    + destruct (Z.of_nat attempt <? retries - 1)%Z; simpl;
        eexists _, _; (split; [reflexivity|]); simpl;
        rewrite ?app_nil_r; repeat split; lia.
  - destruct (Z.of_nat attempt <? retries - 1)%Z; simpl;
      eexists _, _; (split; [reflexivity|]); simpl;
      rewrite ?app_nil_r; repeat split; lia.
  - destruct (Z.of_nat attempt <? retries - 1)%Z; simpl;
      eexists _, _; (split; [reflexivity|]); simpl;
      rewrite ?app_nil_r; repeat split; lia.
Qed.

(** The loop never raises. It stops at the first accepted download, after
    [j] failed attempts and the waits [5(a+1), ..., 5(a+j)]; when no
    download is accepted it has made all the attempts and waited after
    each but the last. *)
Lemma attempt_loop_run (symbol start_str end_str : string) (retries : Z) (n : nat) :
  forall (a : nat) (w : World),
    a + n = Z.to_nat retries ->
    exists r w' j,
      attempt_loop symbol start_str end_str retries (seq a n) w = (Ok r, w')
      /\ clock w' = clock w /\ generator w' = generator w /\ yahoo w' = yahoo w
      /\ sleeps w' = sleeps w ++ backoff_waits a j
      /\ match r with
         | Some data =>
             j < n
             /\ exists d,
                  accepted (yahoo w (downloads w + j) symbol start_str end_str) = Some d
                  /\ data = reset_index d
         | None =>
             j = n - 1
             /\ forall k, k < n ->
                  accepted (yahoo w (downloads w + k) symbol start_str end_str) = None
         end.
Proof.
  induction n as [|n IH]; intros a w Han; simpl.
  - exists None, w, 0. unfold eff_ret, backoff_waits. simpl.
    rewrite app_nil_r. repeat split; try done. intros k Hk. lia.
  - unfold eff_bind.
    destruct (attempt_once_run symbol start_str end_str retries a w) as (r & w1 & Hrun & Hacc).
    rewrite Hrun.
    destruct (accepted (yahoo w (downloads w) symbol start_str end_str)) as [d|] eqn:Ea.
    + destruct Hacc as [-> (Hc & Hg & Hy & Hdl & Hsl)].
      exists (Some (reset_index d)), w1, 0. unfold eff_ret, backoff_waits. simpl.
      rewrite Nat.add_0_r.
      repeat split; try done; [lia|]. exists d. done.
    + destruct Hacc as [-> (Hc & Hg & Hy & Hdl & Hsl)].
      destruct (IH (S a) w1 ltac:(lia)) as (r & w' & j & Hloop & Hc' & Hg' & Hy' & Hsl' & Hr).
      rewrite Hloop.
      assert (Hidx : forall k, downloads w1 + k = downloads w + S k) by (intros; lia).
      destruct (Z.of_nat a <? retries - 1)%Z eqn:Elt.
      * (* a wait follows this attempt *)
        exists r, w', (S j).
        split; [reflexivity|].
        split; [congruence|]. split; [congruence|]. split; [congruence|].
        split.
        { rewrite Hsl', Hsl, <- app_assoc. reflexivity. }
        destruct r as [data|].
        -- destruct Hr as (Hj & d & Hd & ->). split; [lia|].
           exists d. rewrite Hy, Hidx in Hd. done.
        -- destruct Hr as (Hj & Hall). apply Z.ltb_lt in Elt. split; [lia|].
           intros k Hk. destruct k as [|k].
           ++ by rewrite Nat.add_0_r.
           ++ rewrite <- Hidx, <- Hy. apply Hall. lia.
      * (* the last attempt: no wait *)
        apply Z.ltb_ge in Elt.
        assert (n = 0) as -> by lia.
        simpl in Hloop. unfold eff_ret in Hloop. inversion Hloop; subst r w'.
        exists None, w1, 0. unfold backoff_waits. simpl.
        split; [reflexivity|].
        repeat split; try done.
        intros k Hk. assert (k = 0) as -> by lia. by rewrite Nat.add_0_r.
Qed.


End FetchFacts.

(** ** fetch_stock_data *)

Section FetchTheorems.
Context {F : Type} {AR : Arith F} {PF : Platform F}.

Lemma start_date_in_range (w : World) (days : Z) :
  Z.abs days <= 999999999 -> 1 <= clock w - days <= 3652059 ->
  start_date_of w days = Ok (clock w - days).
Proof.
  intros H1 H2. unfold start_date_of, timedelta, datetime_sub.
  destruct (999999999 <? Z.abs days) eqn:E; [apply Z.ltb_lt in E; lia|]. simpl.
  destruct (1 <=? clock w - days) eqn:E1; [|apply Z.leb_gt in E1; lia].
  destruct (clock w - days <=? 3652059) eqn:E2; [|apply Z.leb_gt in E2; lia].
  reflexivity.
Qed.

(** The two ways [fetch_stock_data] ends: with the first accepted download,
    or with whatever [generate_demo_data] does in the world [w1] the
    attempts have left (once more after a first failure of the generator). *)
Lemma fetch_run (symbol : string) (days retries : Z) (w : World) :
  exists (j : nat) (w1 : World),
    sleeps w1 = sleeps w ++ backoff_waits 0 j
    /\ clock w1 = clock w
    /\ ((exists d start_str end_str,
           (j < Z.to_nat retries)%nat
           /\ accepted (yahoo w (downloads w + j)%nat symbol start_str end_str) = Some d
           /\ fetch_stock_data symbol days retries w = (Ok (reset_index d), w1))
        \/ (fetch_stock_data symbol days retries w = generate_demo_data symbol days w1
            /\ ((exists e, start_date_of w days = Raise e) /\ j = 0%nat
                \/ (exists start, start_date_of w days = Ok start
                      /\ j = (Z.to_nat retries - 1)%nat
                      /\ forall k, (k < Z.to_nat retries)%nat ->
                           accepted (yahoo w (downloads w + k)%nat symbol
                                           (strftime start) (strftime (clock w))) = None)))).
Proof.
  unfold fetch_stock_data, try_except, eff_bind, datetime_now, eff_lift, start_date_of.
  destruct (timedelta days) as [delta|e]; simpl.
  2: { exists 0%nat, w. unfold backoff_waits. simpl. rewrite app_nil_r.
       split; [done|]. split; [done|]. right. split; [done|]. left. eauto. }
  destruct (datetime_sub (clock w) delta) as [start|e]; simpl.
  2: { exists 0%nat, w. unfold backoff_waits. simpl. rewrite app_nil_r.
       split; [done|]. split; [done|]. right. split; [done|]. left. eauto. }
  destruct (attempt_loop_run symbol (strftime start) (strftime (clock w)) retries
              (Z.to_nat retries) 0 w eq_refl)
    as (r & w1 & j & Hloop & Hc & Hg & Hy & Hsl & Hr).
  unfold py_range. rewrite Hloop.
  destruct r as [data|].
  - destruct Hr as (Hj & d & Hd & ->).
    exists j, w1. split; [done|]. split; [done|]. left.
    exists d, (strftime start), (strftime (clock w)). done.
  - destruct Hr as (-> & Hall).
    destruct (generate_demo_data symbol days w1) as [[data|e] w2] eqn:Eg.
    + exists (Z.to_nat retries - 0 - 1)%nat, w1. rewrite Nat.sub_0_r in *.
      split; [done|]. split; [done|]. right. split; [by rewrite Eg|]. right. eauto.
    + destruct (generate_demo_data_world symbol days w1) as [g Hw2].
      rewrite Eg in Hw2. simpl in Hw2. subst w2.
      exists (Z.to_nat retries - 0 - 1)%nat, (set_generator g w1). rewrite Nat.sub_0_r in *.
      split; [done|]. split; [done|]. right. split; [done|]. right. eauto.
Qed.






(** C6. Within a process (one [hash]), the prices that
    [generate_demo_data] produces for a symbol and a number of days do not
    depend on the world the call is made in: not on the clock, nor on the
    state of numpy's generator before the call (it is seeded from the hash
    of the symbol on each call), nor on the network. Two calls that return
    a frame return the same price columns; two calls made on the same day
    end in the same way; on a representable range of days both calls do
    return a frame; and two calls of [fetch_stock_data] that accept no
    download and return, return the same price columns. *)
Theorem demo_data_deterministic (symbol : string) (days : Z) (w1 w2 : World) :
  (forall d1 d2,
      (generate_demo_data symbol days w1).1 = Ok d1 ->
      (generate_demo_data symbol days w2).1 = Ok d2 ->
      columns d1 = columns d2 /\ get_closing_prices d1 = get_closing_prices d2)
  /\ (clock w1 = clock w2 ->
      (generate_demo_data symbol days w1).1 = (generate_demo_data symbol days w2).1)
  /\ (representable (clock w1) days = true ->
      representable (clock w2) days = true ->
      exists d1 d2,
        (generate_demo_data symbol days w1).1 = Ok d1
        /\ (generate_demo_data symbol days w2).1 = Ok d2
        /\ columns d1 = columns d2)
  /\ (forall retries1 retries2 d1 d2,
        (forall k start_str end_str, accepted (yahoo w1 k symbol start_str end_str) = None) ->
        (forall k start_str end_str, accepted (yahoo w2 k symbol start_str end_str) = None) ->
        (fetch_stock_data symbol days retries1 w1).1 = Ok d1 ->
        (fetch_stock_data symbol days retries2 w2).1 = Ok d2 ->
        columns d1 = columns d2 /\ get_closing_prices d1 = get_closing_prices d2).
Proof.
  split; [|split; [|split]].
  - intros d1 d2 H1 H2.
    apply generate_demo_data_columns in H1, H2.
    unfold get_closing_prices. by rewrite H1, H2.
  - intros Hc. rewrite !generate_demo_data_steps, Hc.
    destruct (pd_date_range (clock w2) days) as [dates|e]; [|done].
    by destruct (days <? 0).
  - intros H1 H2. rewrite !generate_demo_data_run by done. simpl. eauto.
  - intros r1 r2 d1 d2 Hn1 Hn2 H1 H2.
    destruct (fetch_run symbol days r1 w1) as (j1 & v1 & _ & _ & [Hreal|[Hgen _]]).
    { destruct Hreal as (d & s & e & _ & Hacc & _). by rewrite Hn1 in Hacc. }
    destruct (fetch_run symbol days r2 w2) as (j2 & v2 & _ & _ & [Hreal|[Hgen2 _]]).
    { destruct Hreal as (d & s & e & _ & Hacc & _). by rewrite Hn2 in Hacc. }
    rewrite Hgen in H1. rewrite Hgen2 in H2.
    apply generate_demo_data_columns in H1, H2.
    unfold get_closing_prices. by rewrite H1, H2.
Qed.

End FetchTheorems.

(** ** Runs of the fetcher on concrete inputs *)


(** C7 does not hold for [days = 0]: the frame returned has no row. *)
Lemma generate_demo_data_zero_days :
  exists data,
    (generate_demo_data "AAPL" 0 offline).1 = Ok data
    /\ df_len data = 0%nat
    /\ get_closing_prices data = [].
Proof. eexists. split; [vm_compute; reflexivity|]. split; reflexivity. Qed.


Lemma generate_demo_data_rows_witness :
  representable (clock offline) 3 = true
  /\ exists data,
       (generate_demo_data "AAPL" 3 offline).1 = Ok data
       /\ df_len data = 3%nat
       /\ length (get_closing_prices data) = 3%nat.
Proof.
  split; [reflexivity|].
  destruct (proj1 (generate_demo_data_rows "AAPL" 3 offline) eq_refl)
    as (data & w' & dates & Hrun & Hlen & Hclose & _).
  exists data. rewrite Hrun. split; [reflexivity|]. split; [exact Hlen|exact Hclose].
Defined.

Lemma window_construction_witness :
  exists sc X y,
    prepare_data (SK := Sample.sklearn) (Sample.ramp (F := float) 100 65) 60 = Ok (sc, (X, y))
    /\ length X = 5%nat.
Proof.
  destruct (window_construction (SK := Sample.sklearn) (Sample.ramp (F := float) 100 65) 60)
    as (_ & _ & H).
  destruct (fit_transform (Sample.ramp (F := float) 100 65)) as [[sc scaled]|e] eqn:E.
  - destruct H as (X & y & Hrun & _ & _ & Hlen).
    assert (Hs : length scaled = 65%nat) by (vm_compute in E; inversion E; reflexivity).
    exists sc, X, y. split; [exact Hrun|].
    rewrite (proj1 (Hlen ltac:(rewrite Hs; vm_compute; reflexivity))).
    vm_compute. reflexivity.
  - vm_compute in E. discriminate E.
Defined.

(** C3 does not hold for [prepare_data] on the empty series: the scaler
    rejects it, and no sequences are returned. The loop itself returns
    empty sequences on it. *)
Lemma prepare_data_empty_series_raises :
  prepare_data (SK := Sample.sklearn) ([] : list float) 60 = Raise ValueError
  /\ window_loop ([] : list float) 60 (py_range2 60 0) [] [] = Ok ([], []).
Proof. split; reflexivity. Qed.

Lemma insufficient_data_is_absent_witness :
  predict_random_forest (SK := Sample.sklearn) (Sample.ramp (F := float) 100 15) 5
  = Ok (None, None, None)
  /\ predict_lstm (SK := Sample.sklearn) (KR := Sample.keras) (Sample.ramp (F := float) 100 65) 5
     = Ok (None, None, None).
Proof.
  split.
  - apply (insufficient_data_is_absent (SK := Sample.sklearn) (KR := Sample.keras)).
    vm_compute. lia.
  - destruct (insufficient_data_is_absent (SK := Sample.sklearn) (KR := Sample.keras)
                (Sample.ramp (F := float) 100 65) 5) as (_ & _ & H).
    destruct (fit_transform (Sample.ramp (F := float) 100 65)) as [[sc scaled]|e] eqn:E.
    + assert (Hs : length scaled = 65%nat) by (vm_compute in E; inversion E; reflexivity).
      apply (proj1 H). rewrite Hs. lia.
    + vm_compute in E. discriminate E.
Defined.

(** C8 does not hold for the LSTM on the empty series: it has no window,
    but the scaler rejects it before the guard is reached and the
    [ValueError] leaves [predict_lstm]; the random forest is absent on it. *)
Lemma predict_lstm_empty_series_raises :
  predict_lstm (SK := Sample.sklearn) (KR := Sample.keras) ([] : list float) 30
  = Raise ValueError
  /\ predict_random_forest (SK := Sample.sklearn) ([] : list float) 30
     = Ok (None, None, None).
Proof. split; reflexivity. Qed.

(** On exactly 60 prices the LSTM has no window and is absent; the mapping
    is returned with its four keys. *)
Lemma predict_all_models_assembles_witness :
  exists m : gmap string (Forecast float),
    predict_all_models (SK := Sample.sklearn) (KR := Sample.keras)
                       (Sample.ramp (F := float) 100 60) 5 = Ok m
    /\ dom m = {[ "lstm"; "linear"; "random_forest"; "arima" ]}
    /\ m !! "lstm" = Some (None, None, None).
Proof.
  pose proof (predict_all_models_assembles (SK := Sample.sklearn) (KR := Sample.keras)
                (Sample.ramp (F := float) 100 60) 5) as H.
  assert (E1 : predict_lstm (SK := Sample.sklearn) (KR := Sample.keras)
                 (Sample.ramp (F := float) 100 60) 5 = Ok (None, None, None))
    by (vm_compute; reflexivity).
  assert (E2 : exists r, predict_linear_regression (SK := Sample.sklearn)
                 (Sample.ramp (F := float) 100 60) 5 = Ok r)
    by (eexists; vm_compute; reflexivity).
  assert (E3 : exists r, predict_random_forest (SK := Sample.sklearn)
                 (Sample.ramp (F := float) 100 60) 5 = Ok r)
    by (eexists; vm_compute; reflexivity).
  assert (E4 : exists r, predict_arima_simple (SK := Sample.sklearn)
                 (Sample.ramp (F := float) 100 60) 5 = Ok r)
    by (eexists; vm_compute; reflexivity).
  destruct E2 as [r2 E2]. destruct E3 as [r3 E3]. destruct E4 as [r4 E4].
  rewrite E1, E2, E3, E4 in H.
  destruct H as (m & Hm & Hdom & Hl & _).
  exists m. split; [exact Hm|]. split; [exact Hdom|exact Hl].
Defined.


Lemma demo_data_deterministic_witness :
  exists d1 d2,
    (generate_demo_data "AAPL" 5 offline).1 = Ok d1
    /\ (generate_demo_data "AAPL" 5 next_day).1 = Ok d2
    /\ columns d1 = columns d2.
Proof.
  destruct (demo_data_deterministic "AAPL" 5 offline next_day) as (_ & _ & H & _).
  exact (H eq_refl eq_refl).
Defined.

(** A day on which the quote source answers with two rows. *)
Lemma fetch_returns_download :
  let rows : Download float :=
    {| dl_index := [739922; 739923];
       dl_columns := {| Open := [1; 2]%float; High := [1; 2]%float; Low := [1; 2]%float;
                        Close := [1; 2]%float; Volume := [10; 20];
                        Adj_Close := [1; 2]%float |} |} in
  (fetch_stock_data "AAPL" 365 3 (Sample.world 739923 (Ok (Some rows)))).1
  = Ok (reset_index (PF := Sample.platform) rows)
  /\ sleeps (fetch_stock_data "AAPL" 365 3 (Sample.world 739923 (Ok (Some rows)))).2 = [].
Proof. split; vm_compute; reflexivity. Qed.

(* ================================================================== *)
(** * Further properties                                               *)
(* ================================================================== *)

(** ** The rollouts *)

Section RolloutFacts.
Context {F : Type} {AR : Arith F} {SK : Sklearn F} {KR : Keras F}.
Local Open Scope nat_scope.

Lemma forest_rollout_length (model : forest) (steps : list nat) :
  forall last_sequence future fp,
    forest_rollout model steps last_sequence future = Ok fp ->
    length fp = length future + length steps.
Proof.
  induction steps as [|i steps IH]; intros ls fut fp H; simpl in H.
  - inversion H; subst. simpl. lia.
  - destruct (forest_predict model [ls]) as [out|e]; simpl in H; [|done].
    destruct (getitem out 0%Z) as [np|e]; simpl in H; [|done].
    apply IH in H. rewrite length_app in H. simpl in *. lia.
Qed.

Lemma lstm_rollout_length (model : network) (sc : scaler) (steps : list nat) :
  forall last_sequence future fp,
    lstm_rollout model sc steps last_sequence future = Ok fp ->
    length fp = length future + length steps.
Proof.
  induction steps as [|i steps IH]; intros ls fut fp H; simpl in H.
  - inversion H; subst. simpl. lia.
  - destruct (keras_predict model [ls]) as [out|e]; simpl in H; [|done].
    destruct (getitem out 0%Z) as [np|e]; simpl in H; [|done].
    destruct (inverse_transform sc [np]) as [inv|e]; simpl in H; [|done].
    destruct (getitem inv 0%Z) as [v|e]; simpl in H; [|done].
    apply IH in H. rewrite length_app in H. simpl in *. lia.
Qed.

Lemma forest_predictions_length (data : list F) (days_to_predict : Z) p rmse mae :
  predict_random_forest data days_to_predict = Ok (Some p, rmse, mae) ->
  length p = Z.to_nat days_to_predict.
Proof.
  unfold predict_random_forest. intros H.
  destruct (window_loop _ _ _ _ _) as [[X y]|e]; simpl in H; [|done].
  destruct (length X <? 10); [done|].
  destruct (forest_fit _ _) as [model|e]; simpl in H; [|done].
  destruct (forest_predict model (drop _ X)) as [yp|e]; simpl in H; [|done].
  destruct (mean_squared_error _ _) as [mse|e]; simpl in H; [|done].
  destruct (mean_absolute_error _ _) as [m|e]; simpl in H; [|done].
  destruct (forest_rollout _ _ _ _) as [fp|e] eqn:E; simpl in H; [|done].
  inversion H; subst. apply forest_rollout_length in E.
  unfold py_range in E. rewrite length_seq in E. simpl in E. lia.
Qed.

Lemma lstm_predictions_length (data : list F) (days_to_predict : Z) p rmse mae :
  predict_lstm data days_to_predict = Ok (Some p, rmse, mae) ->
  length p = Z.to_nat days_to_predict.
Proof.
  unfold predict_lstm. intros H.
  destruct (prepare_data _ _) as [[sc [X y]]|e]; simpl in H; [|done].
  destruct (length X <? 10); [done|].
  destruct (build_lstm_model _) as [m0|e]; simpl in H; [|done].
  destruct (keras_fit _ _ _) as [model|e]; simpl in H; [|done].
  destruct (keras_predict model (take _ X)) as [trp|e]; simpl in H; [|done].
  destruct (keras_predict model (drop _ X)) as [tep|e]; simpl in H; [|done].
  destruct (inverse_transform sc trp) as [trp'|e]; simpl in H; [|done].
  destruct (inverse_transform sc tep) as [tep'|e]; simpl in H; [|done].
  destruct (inverse_transform sc (drop _ y)) as [yta|e]; simpl in H; [|done].
  destruct (mean_squared_error _ _) as [mse|e]; simpl in H; [|done].
  destruct (mean_absolute_error _ _) as [m|e]; simpl in H; [|done].
  destruct (getitem X (-1)) as [ls|e]; simpl in H; [|done].
  destruct (lstm_rollout _ _ _ _ _) as [fp|e] eqn:E; simpl in H; [|done].
  inversion H; subst. apply lstm_rollout_length in E.
  unfold py_range in E. rewrite length_seq in E. simpl in E. lia.
Qed.

Lemma arima_predictions_length (data : list F) (days_to_predict : Z) p rmse mae :
  predict_arima_simple data days_to_predict = Ok (Some p, rmse, mae) ->
  length p = Z.to_nat days_to_predict.
Proof.
  intros H. destruct data as [|d0 data'] eqn:Ed; [done|]. rewrite <- Ed in *.
  destruct (arima_run data days_to_predict ltac:(by subst))
    as (s & t & ls & _ & _ & _ & _ & _ & _ & Hrun).
  rewrite Hrun in H. simpl in H.
  destruct (mean_squared_error _ _) as [mse|e]; simpl in H; [|done].
  destruct (mean_absolute_error _ _) as [m|e]; simpl in H; [|done].
  inversion H. apply projections_length.
Qed.

(** X1. Whenever the LSTM, the random forest or the smoothing model
    returns predictions, there are exactly [days_to_predict] of them (none
    for a horizon of zero or less): every step of a rollout yields one
    prediction. *)
Theorem rollouts_fill_the_horizon (data : list F) (days_to_predict : Z) :
  (forall p rmse mae,
      predict_lstm data days_to_predict = Ok (Some p, rmse, mae) ->
      length p = Z.to_nat days_to_predict)
  /\ (forall p rmse mae,
      predict_random_forest data days_to_predict = Ok (Some p, rmse, mae) ->
      length p = Z.to_nat days_to_predict)
  /\ (forall p rmse mae,
      predict_arima_simple data days_to_predict = Ok (Some p, rmse, mae) ->
      length p = Z.to_nat days_to_predict).
Proof.
  split; [|split]; intros p rmse mae.
  - apply lstm_predictions_length.
  - apply forest_predictions_length.
  - apply arima_predictions_length.
Qed.

End RolloutFacts.

Lemma rollouts_fill_the_horizon_witness :
  exists p rmse mae,
    predict_random_forest (SK := Sample.sklearn) (Sample.ramp (F := float) 100 70) 5
    = Ok (Some p, rmse, mae)
    /\ length p = 5%nat.
Proof.
  destruct (rollouts_fill_the_horizon (SK := Sample.sklearn) (KR := Sample.keras)
              (Sample.ramp (F := float) 100 70) 5) as (_ & H & _).
  assert (E : exists p rmse mae,
             predict_random_forest (SK := Sample.sklearn) (Sample.ramp (F := float) 100 70) 5
             = Ok (Some p, rmse, mae))
    by (eexists _, _, _; vm_compute; reflexivity).
  destruct E as (p & rmse & mae & E).
  exists p, rmse, mae. split; [exact E|]. exact (H p rmse mae E).
Defined.

(** ** ChartGenerator *)

Section ChartFacts.
Context {F : Type}.
Local Open Scope nat_scope.

Lemma day_label_inj (i j : nat) :
  "Day " +:+ pretty (i + 1) = "Day " +:+ pretty (j + 1) -> i = j.
Proof.
  intros H. simpl in H. inversion H as [H1].
  apply pretty_nat_inj in H1. lia.
Qed.

(** X2. For a list of predictions, [prepare_prediction_data] shows the
    last 30 prices (all of them when there are at most 30), keeps the
    predictions, and labels them ["Day 1"], ["Day 2"], ...: one label per
    prediction, all different. On [None] it raises a [TypeError]. *)
Theorem prepare_prediction_data_shape (actual_data p : list F) :
  (exists c,
      prepare_prediction_data actual_data (Some p) = Ok c
      /\ predicted c = Some p
      /\ length (actual c) = min 30 (length actual_data)
      /\ (exists older, actual_data = older ++ actual c)
      /\ length (dates c) = length p
      /\ (forall i, i < length p -> dates c !! i = Some ("Day " +:+ pretty (i + 1)))
      /\ NoDup (dates c))
  /\ prepare_prediction_data actual_data None = Raise TypeError.
Proof.
  split; [|reflexivity].
  eexists. split; [reflexivity|]. cbn [actual predicted dates].
  split; [reflexivity|]. split; [|split; [|split; [|split]]].
  - destruct (30 <? length actual_data) eqn:E.
    + apply Nat.ltb_lt in E. rewrite length_drop. lia.
    + apply Nat.ltb_ge in E. lia.
  - destruct (30 <? length actual_data) eqn:E.
    + exists (take (length actual_data - 30) actual_data). by rewrite take_drop.
    + by exists [].
  - by rewrite length_fmap, length_seq.
  - intros i Hi. rewrite list_lookup_fmap, lookup_seq_lt by done. reflexivity.
  - apply NoDup_fmap_2; [|apply NoDup_seq].
    intros i j. apply day_label_inj.
Qed.

Lemma first_ten_take (pred : option (list F)) :
  first_ten pred = take 10 (_to_list pred).
Proof. destruct pred as [[|x l]|]; reflexivity. Qed.

(** X3. [prepare_comparison_data] has the four entries LSTM, Linear
    Regression, Random Forest and ARIMA; each holds the first ten
    predictions of its model (all of them when there are at most ten), and
    the empty list for a model without predictions. *)
Theorem prepare_comparison_data_first_ten (lstm_pred linear_pred rf_pred arima_pred
    : option (list F)) :
  let c := prepare_comparison_data lstm_pred linear_pred rf_pred arima_pred in
  dom c = {[ "LSTM"; "Linear Regression"; "Random Forest"; "ARIMA" ]}
  /\ c !! "LSTM" = Some (take 10 (_to_list lstm_pred))
  /\ c !! "Linear Regression" = Some (take 10 (_to_list linear_pred))
  /\ c !! "Random Forest" = Some (take 10 (_to_list rf_pred))
  /\ c !! "ARIMA" = Some (take 10 (_to_list arima_pred))
  /\ (forall key l, c !! key = Some l -> length l <= 10)
  /\ (lstm_pred = None -> c !! "LSTM" = Some []).
Proof.
  intros c. unfold c, prepare_comparison_data.
  assert (Hlen : forall p : option (list F), length (first_ten p) <= 10).
  { intros p. rewrite first_ten_take, length_take. lia. }
  split; [rewrite !dom_insert_L, dom_empty_L; set_solver|].
  rewrite <- !first_ten_take.
  do 4 (split; [by simplify_map_eq|]).
  split.
  - intros key l H.
    repeat (apply lookup_insert_Some in H as [[_ <-]|[_ H]]; [apply Hlen|]).
    done.
  - intros ->. by simplify_map_eq.
Qed.

End ChartFacts.

Section MetricsFacts.
Context {F : Type} {WS : WebStack F}.

(** X4. [prepare_metrics_data] returns the four rounded entries when the
    eight metrics are numbers, and raises a [TypeError] as soon as one of
    them is [None]: the metrics of an absent model cannot be displayed. *)
Theorem prepare_metrics_data_needs_numbers
    (lstm_rmse lstm_mae linear_rmse linear_mae rf_rmse rf_mae arima_rmse arima_mae : option F) :
  match lstm_rmse, lstm_mae, linear_rmse, linear_mae, rf_rmse, rf_mae, arima_rmse, arima_mae with
  | Some a, Some b, Some c, Some d, Some e, Some f, Some g, Some h =>
      exists m,
        prepare_metrics_data lstm_rmse lstm_mae linear_rmse linear_mae
                             rf_rmse rf_mae arima_rmse arima_mae = Ok m
        /\ dom m = {[ "LSTM"; "Linear Regression"; "Random Forest"; "ARIMA" ]}
        /\ m !! "LSTM" = Some {| RMSE := py_round a 4; MAE := py_round b 4 |}
        /\ m !! "Linear Regression" = Some {| RMSE := py_round c 4; MAE := py_round d 4 |}
        /\ m !! "Random Forest" = Some {| RMSE := py_round e 4; MAE := py_round f 4 |}
        /\ m !! "ARIMA" = Some {| RMSE := py_round g 4; MAE := py_round h 4 |}
  | _, _, _, _, _, _, _, _ =>
      prepare_metrics_data lstm_rmse lstm_mae linear_rmse linear_mae
                           rf_rmse rf_mae arima_rmse arima_mae = Raise TypeError
  end.
Proof.
  destruct lstm_rmse, lstm_mae, linear_rmse, linear_mae, rf_rmse, rf_mae,
    arima_rmse, arima_mae; try reflexivity.
  eexists. split; [reflexivity|].
  split; [rewrite !dom_insert_L, dom_empty_L; set_solver|].
  repeat split; by simplify_map_eq.
Qed.

End MetricsFacts.

(** ** The prediction route *)

Section RouteFacts.
Context {F : Type} {AR : Arith F} {SK : Sklearn F} {KR : Keras F}
        {PF : Platform F} {WS : WebStack F}.

Lemma prediction_run (stock_symbol : string) (days_to_predict : Z) (w : World) :
  stock_symbol <> "" -> 1 <= days_to_predict <= 30 ->
  prediction stock_symbol days_to_predict w
  = match fetch_stock_data stock_symbol 365 3 w with
    | (Ok stock_data, w') => (after_fetch stock_symbol days_to_predict stock_data, w')
    | (Raise e, w') => (Respond500 e, w')
    end.
Proof.
  intros Hs Hd. unfold prediction.
  destruct (String.eqb_spec stock_symbol "") as [->|_]; [done|].
  destruct (days_to_predict <? 1) eqn:E1; [apply Z.ltb_lt in E1; lia|].
  destruct (30 <? days_to_predict) eqn:E2; [apply Z.ltb_lt in E2; lia|].
  simpl. unfold answer_500, eff_bind, after_fetch.
  destruct (fetch_stock_data stock_symbol 365 3 w) as [[data|e] w']; [|done].
  destruct (df_len data =? 0)%nat; [done|].
  destruct (length (get_closing_prices data) <? 60)%nat; [done|].
  unfold eff_lift. by destruct (predict_and_answer _ _ _).
Qed.

Lemma prediction_valid_request (stock_symbol : string) (days_to_predict : Z) (w : World) r w' :
  prediction stock_symbol days_to_predict w = (r, w') ->
  status_of r <> 400 ->
  stock_symbol <> "" /\ 1 <= days_to_predict <= 30.
Proof.
  unfold prediction. intros H Hst.
  destruct (String.eqb_spec stock_symbol "") as [->|Hne].
  { inversion H; subst. done. }
  destruct (days_to_predict <? 1) eqn:E1.
  { inversion H; subst. done. }
  destruct (30 <? days_to_predict) eqn:E2.
  { inversion H; subst. done. }
  apply Z.ltb_ge in E1, E2. split; [done|lia].
Qed.

(** X6. A valid request whose series has fewer than 60 closing prices is
    answered with status 400 whatever the forecasting libraries would do:
    no model is called on it. *)
Theorem prediction_needs_sixty_prices (stock_symbol : string) (days_to_predict : Z)
    (w w' : World) (stock_data : DataFrame F) :
  stock_symbol <> "" -> 1 <= days_to_predict <= 30 ->
  fetch_stock_data stock_symbol 365 3 w = (Ok stock_data, w') ->
  (length (get_closing_prices stock_data) < 60)%nat ->
  exists message,
    prediction stock_symbol days_to_predict w = (Refuse 400 message, w').
Proof.
  intros Hs Hd Hf Hlen. rewrite prediction_run, Hf by done. unfold after_fetch.
  destruct (df_len stock_data =? 0)%nat; [eauto|].
  apply Nat.ltb_lt in Hlen. rewrite Hlen. eauto.
Qed.

Lemma lstm_short_series (data : list F) (days_to_predict : Z) :
  scaler_keeps_length -> (length data < 70)%nat ->
  (exists e, predict_lstm data days_to_predict = Raise e)
  \/ predict_lstm data days_to_predict = Ok absent.
Proof.
  intros Hsc Hlen.
  destruct (fit_transform data) as [[sc scaled]|e] eqn:Ef.
  - right. pose proof (Hsc _ _ _ Ef) as Hl.
    destruct (windows_run scaled 60) as (X & y & Hrun & (HX & _) & _).
    apply (lstm_guard data days_to_predict sc X y).
    + unfold prepare_data. rewrite Ef. simpl. rewrite Hrun. reflexivity.
    + lia.
  - left. exists e. unfold predict_lstm, prepare_data. rewrite Ef. reflexivity.
Qed.

(** [predict_and_answer] once the four models have returned. *)
Lemma predict_and_answer_run (stock_symbol : string) (days_to_predict : Z)
    (closing_prices : list F) (a b c d : Forecast F) :
  predict_lstm closing_prices days_to_predict = Ok a ->
  predict_linear_regression closing_prices days_to_predict = Ok b ->
  predict_random_forest closing_prices days_to_predict = Ok c ->
  predict_arima_simple closing_prices days_to_predict = Ok d ->
  predict_and_answer stock_symbol days_to_predict closing_prices
  = (chart_data ← prepare_prediction_data closing_prices
                    (if truthy a.1.1 then a.1.1 else b.1.1);
     metrics_data ← prepare_metrics_data a.1.2 a.2 b.1.2 b.2 c.1.2 c.2 d.1.2 d.2;
     _ ← save_prediction stock_symbol days_to_predict
           (_to_list a.1.1, _to_list b.1.1, _to_list c.1.1, _to_list d.1.1)
           [a.1.2; a.2; b.1.2; b.2; c.1.2; c.2; d.1.2; d.2] chart_data;
     last_price ← getitem closing_prices (-1);
     let answer :=
       {| predictions :=
            <["arima" := _to_list d.1.1]> (<["random_forest" := _to_list c.1.1]>
              (<["linear" := _to_list b.1.1]> (<["lstm" := _to_list a.1.1]> ∅)));
          metrics := metrics_data;
          comparison := prepare_comparison_data a.1.1 b.1.1 c.1.1 d.1.1;
          current_price := last_price |} in
     _ ← jsonify answer;
     Ok (Respond200 answer)).
Proof.
  intros Ha Hb Hc Hd. unfold predict_and_answer, predict_all_models.
  rewrite Ha, Hb, Hc, Hd. cbn [mbind outcome_bind].
  unfold dict_get.
  rewrite (lookup_insert_ne _ "arima" "lstm"), (lookup_insert_ne _ "random_forest" "lstm"),
    (lookup_insert_ne _ "linear" "lstm"), lookup_insert_eq by done.
  rewrite (lookup_insert_ne _ "arima" "linear"), (lookup_insert_ne _ "random_forest" "linear"),
    lookup_insert_eq by done.
  rewrite (lookup_insert_ne _ "arima" "random_forest"), !lookup_insert_eq by done.
  destruct a as [[? ?] ?], b as [[? ?] ?], c as [[? ?] ?], d as [[? ?] ?]. reflexivity.
Qed.

Lemma predict_and_answer_raises (stock_symbol : string) (days_to_predict : Z)
    (closing_prices : list F) :
  (exists e, predict_lstm closing_prices days_to_predict = Raise e)
  \/ predict_lstm closing_prices days_to_predict = Ok absent ->
  exists e, predict_and_answer stock_symbol days_to_predict closing_prices = Raise e.
Proof.
  intros [[e He]|Ha].
  { exists e. unfold predict_and_answer, predict_all_models. by rewrite He. }
  destruct (predict_linear_regression closing_prices days_to_predict) as [b|e] eqn:Hb.
  2: { exists e. unfold predict_and_answer, predict_all_models. by rewrite Ha, Hb. }
  destruct (predict_random_forest closing_prices days_to_predict) as [c|e] eqn:Hc.
  2: { exists e. unfold predict_and_answer, predict_all_models. by rewrite Ha, Hb, Hc. }
  destruct (predict_arima_simple closing_prices days_to_predict) as [d|e] eqn:Hd.
  2: { exists e. unfold predict_and_answer, predict_all_models. by rewrite Ha, Hb, Hc, Hd. }
  rewrite (predict_and_answer_run _ _ _ _ _ _ _ Ha Hb Hc Hd). simpl.
  destruct (prepare_prediction_data closing_prices b.1.1) as [chart|e]; simpl; eauto.
Qed.

(** X7. A series of 60 to 69 closing prices passes the 60-day check of the
    route, but its request always ends with status 500: the LSTM needs 70
    prices for its ten windows, and an absent LSTM has no metrics to round
    (given a scaler that returns as many values as it gets). *)
Theorem prediction_fails_below_seventy_prices (stock_symbol : string) (days_to_predict : Z)
    (w w' : World) (stock_data : DataFrame F) :
  scaler_keeps_length ->
  stock_symbol <> "" -> 1 <= days_to_predict <= 30 ->
  fetch_stock_data stock_symbol 365 3 w = (Ok stock_data, w') ->
  df_len stock_data <> 0%nat ->
  (60 <= length (get_closing_prices stock_data) < 70)%nat ->
  exists e, prediction stock_symbol days_to_predict w = (Respond500 e, w').
Proof.
  intros Hsc Hs Hd Hf Hrows [Hlo Hhi]. rewrite prediction_run, Hf by done. unfold after_fetch.
  destruct (Nat.eqb_spec (df_len stock_data) 0) as [|_]; [done|].
  destruct (Nat.ltb_spec (length (get_closing_prices stock_data)) 60) as [|_]; [lia|].
  destruct (predict_and_answer_raises stock_symbol days_to_predict
              (get_closing_prices stock_data)) as [e ->]; [|eauto].
  by apply lstm_short_series.
Qed.

Lemma getitem_minus_one {A} (l : list A) (x : A) :
  getitem l (-1) = Ok x -> last l = Some x.
Proof.
  intros H. destruct (last l) as [y|] eqn:E.
  - rewrite (getitem_last _ _ E) in H. by inversion H.
  - apply last_None in E. subst l. done.
Qed.

Lemma lstm_shape (data : list F) (days_to_predict : Z) r :
  predict_lstm data days_to_predict = Ok r ->
  r = absent \/ exists p rmse mae, r = (Some p, Some rmse, Some mae).
Proof.
  unfold predict_lstm. intros H.
  destruct (prepare_data _ _) as [[sc [X y]]|e]; simpl in H; [|done].
  destruct (length X <? 10)%nat; [left; by inversion H|].
  destruct (build_lstm_model _) as [m0|e]; simpl in H; [|done].
  destruct (keras_fit _ _ _) as [model|e]; simpl in H; [|done].
  destruct (keras_predict model (take _ X)) as [trp|e]; simpl in H; [|done].
  destruct (keras_predict model (drop _ X)) as [tep|e]; simpl in H; [|done].
  destruct (inverse_transform sc trp) as [trp'|e]; simpl in H; [|done].
  destruct (inverse_transform sc tep) as [tep'|e]; simpl in H; [|done].
  destruct (inverse_transform sc (drop _ y)) as [yta|e]; simpl in H; [|done].
  destruct (mean_squared_error _ _) as [mse|e]; simpl in H; [|done].
  destruct (mean_absolute_error _ _) as [m|e]; simpl in H; [|done].
  destruct (getitem X (-1)) as [ls|e]; simpl in H; [|done].
  destruct (lstm_rollout _ _ _ _ _) as [fp|e]; simpl in H; [|done].
  right. inversion H. eauto.
Qed.

Lemma forest_shape (data : list F) (days_to_predict : Z) r :
  predict_random_forest data days_to_predict = Ok r ->
  r = absent \/ exists p rmse mae, r = (Some p, Some rmse, Some mae).
Proof.
  unfold predict_random_forest. intros H.
  destruct (window_loop _ _ _ _ _) as [[X y]|e]; simpl in H; [|done].
  destruct (length X <? 10)%nat; [left; by inversion H|].
  destruct (forest_fit _ _) as [model|e]; simpl in H; [|done].
  destruct (forest_predict model (drop _ X)) as [yp|e]; simpl in H; [|done].
  destruct (mean_squared_error _ _) as [mse|e]; simpl in H; [|done].
  destruct (mean_absolute_error _ _) as [m|e]; simpl in H; [|done].
  destruct (forest_rollout _ _ _ _) as [fp|e]; simpl in H; [|done].
  right. inversion H. eauto.
Qed.

Lemma linear_shape (data : list F) (days_to_predict : Z) r :
  predict_linear_regression data days_to_predict = Ok r ->
  exists p rmse mae, r = (Some p, Some rmse, Some mae).
Proof.
  unfold predict_linear_regression. intros H.
  destruct (linreg_fit _ _) as [m|e]; simpl in H; [|done].
  destruct (linreg_predict m (drop _ _)) as [yp|e]; simpl in H; [|done].
  destruct (mean_squared_error _ _) as [mse|e]; simpl in H; [|done].
  destruct (mean_absolute_error _ _) as [mae|e]; simpl in H; [|done].
  destruct (linreg_predict m (seq _ _)) as [fp|e]; simpl in H; [|done].
  inversion H. eauto.
Qed.

Lemma arima_shape (data : list F) (days_to_predict : Z) r :
  predict_arima_simple data days_to_predict = Ok r ->
  exists p rmse mae, r = (Some p, Some rmse, Some mae).
Proof.
  unfold predict_arima_simple. intros H.
  destruct (smoothed data) as [s|e]; simpl in H; [|done].
  destruct (mean_squared_error _ _) as [mse|e]; simpl in H; [|done].
  destruct (mean_absolute_error _ _) as [mae|e]; simpl in H; [|done].
  destruct (getitem s (-1)) as [lv|e]; simpl in H; [|done].
  destruct (projection_loop _ _ _ _) as [fp|e]; simpl in H; [|done].
  inversion H. eauto.
Qed.

(** What a returned answer of [predict_and_answer] is made of. *)
Lemma predict_and_answer_ok (stock_symbol : string) (days_to_predict : Z)
    (closing_prices : list F) (r : response (PredictionAnswer F)) :
  predict_and_answer stock_symbol days_to_predict closing_prices = Ok r ->
  exists ans lp lr lm np nr nm fp fr fm ap ar am,
    r = Respond200 ans
    /\ predict_lstm closing_prices days_to_predict = Ok (Some lp, Some lr, Some lm)
    /\ predict_linear_regression closing_prices days_to_predict = Ok (Some np, Some nr, Some nm)
    /\ predict_random_forest closing_prices days_to_predict = Ok (Some fp, Some fr, Some fm)
    /\ predict_arima_simple closing_prices days_to_predict = Ok (Some ap, Some ar, Some am)
    /\ predictions ans
       = <["arima" := ap]> (<["random_forest" := fp]>
           (<["linear" := np]> (<["lstm" := lp]> ∅)))
    /\ prepare_metrics_data (Some lr) (Some lm) (Some nr) (Some nm)
                            (Some fr) (Some fm) (Some ar) (Some am) = Ok (metrics ans)
    /\ comparison ans = prepare_comparison_data (Some lp) (Some np) (Some fp) (Some ap)
    /\ last closing_prices = Some (current_price ans).
Proof.
  intros H.
  destruct (predict_lstm closing_prices days_to_predict) as [a|e] eqn:Ha.
  2: { unfold predict_and_answer, predict_all_models in H. by rewrite Ha in H. }
  destruct (predict_linear_regression closing_prices days_to_predict) as [b|e] eqn:Hb.
  2: { unfold predict_and_answer, predict_all_models in H. by rewrite Ha, Hb in H. }
  destruct (predict_random_forest closing_prices days_to_predict) as [c|e] eqn:Hc.
  2: { unfold predict_and_answer, predict_all_models in H. by rewrite Ha, Hb, Hc in H. }
  destruct (predict_arima_simple closing_prices days_to_predict) as [d|e] eqn:Hd.
  2: { unfold predict_and_answer, predict_all_models in H. by rewrite Ha, Hb, Hc, Hd in H. }
  rewrite (predict_and_answer_run _ _ _ _ _ _ _ Ha Hb Hc Hd) in H.
  destruct (linear_shape _ _ _ Hb) as (np & nr & nm & ->).
  destruct (arima_shape _ _ _ Hd) as (ap & ar & am & ->).
  destruct (lstm_shape _ _ _ Ha) as [->|(lp & lr & lm & ->)].
  { simpl in H. by destruct (prepare_prediction_data closing_prices (Some np)). }
  destruct (forest_shape _ _ _ Hc) as [->|(fp & fr & fm & ->)].
  { simpl in H.
    destruct (prepare_prediction_data closing_prices _); simpl in H; done. }
  cbn [fst snd] in H.
  destruct (prepare_prediction_data closing_prices _) as [chart|e];
    cbn [mbind outcome_bind] in H; [|done].
  destruct (prepare_metrics_data _ _ _ _ _ _ _ _) as [md|e] eqn:Em;
    cbn [mbind outcome_bind] in H; [|done].
  destruct (save_prediction _ _ _ _ _) as [[]|e]; cbn [mbind outcome_bind] in H; [|done].
  destruct (getitem closing_prices (-1)) as [lastp|e] eqn:El;
    cbn [mbind outcome_bind] in H; [|done].
  destruct (jsonify _) as [[]|e]; cbn [mbind outcome_bind] in H; [|done].
  inversion H; subst r.
  eexists _, lp, lr, lm, np, nr, nm, fp, fr, fm, ap, ar, am.
  split; [reflexivity|]. do 4 (split; [reflexivity|]).
  cbn [predictions metrics comparison current_price _to_list default].
  split; [reflexivity|]. split; [exact Em|]. split; [reflexivity|].
  by apply getitem_minus_one.
Qed.

(** X8. A 200 answer is complete: the request was valid, the series had
    at least 60 closing prices (70 with a scaler that keeps the length), the
    four models all returned predictions and metrics, the answer holds these
    predictions unchanged, their first ten in the comparison and their
    rounded metrics; the LSTM, the random forest and the smoothing model
    each contribute exactly [days_to_predict] predictions, and the current
    price is the last closing price. *)
Theorem prediction_success_is_complete (stock_symbol : string) (days_to_predict : Z)
    (w w' : World) (ans : PredictionAnswer F) :
  prediction stock_symbol days_to_predict w = (Respond200 ans, w') ->
  stock_symbol <> "" /\ 1 <= days_to_predict <= 30
  /\ exists stock_data lp lr lm np nr nm fp fr fm ap ar am,
       fetch_stock_data stock_symbol 365 3 w = (Ok stock_data, w')
       /\ (60 <= length (get_closing_prices stock_data))%nat
       /\ (scaler_keeps_length -> (70 <= length (get_closing_prices stock_data))%nat)
       /\ predict_lstm (get_closing_prices stock_data) days_to_predict
          = Ok (Some lp, Some lr, Some lm)
       /\ predict_linear_regression (get_closing_prices stock_data) days_to_predict
          = Ok (Some np, Some nr, Some nm)
       /\ predict_random_forest (get_closing_prices stock_data) days_to_predict
          = Ok (Some fp, Some fr, Some fm)
       /\ predict_arima_simple (get_closing_prices stock_data) days_to_predict
          = Ok (Some ap, Some ar, Some am)
       /\ predictions ans
          = <["arima" := ap]> (<["random_forest" := fp]>
              (<["linear" := np]> (<["lstm" := lp]> ∅)))
       /\ length lp = Z.to_nat days_to_predict
       /\ length fp = Z.to_nat days_to_predict
       /\ length ap = Z.to_nat days_to_predict
       /\ prepare_metrics_data (Some lr) (Some lm) (Some nr) (Some nm)
                               (Some fr) (Some fm) (Some ar) (Some am) = Ok (metrics ans)
       /\ comparison ans = prepare_comparison_data (Some lp) (Some np) (Some fp) (Some ap)
       /\ last (get_closing_prices stock_data) = Some (current_price ans).
Proof.
  intros H.
  destruct (prediction_valid_request _ _ _ _ _ H ltac:(done)) as [Hs Hd].
  split; [done|]. split; [done|].
  rewrite prediction_run in H by done.
  destruct (fetch_stock_data stock_symbol 365 3 w) as [[data|e] w1]; [|done].
  inversion H as [[Hr Hw]]. subst w1. unfold after_fetch in Hr.
  destruct (df_len data =? 0)%nat; [done|].
  destruct (Nat.ltb_spec (length (get_closing_prices data)) 60) as [|Hlen]; [done|].
  destruct (predict_and_answer stock_symbol days_to_predict (get_closing_prices data))
    as [r|e] eqn:Ep; [|done].
  subst r.
  destruct (predict_and_answer_ok _ _ _ _ Ep)
    as (ans' & lp & lr & lm & np & nr & nm & fp & fr & fm & ap & ar & am
        & Hans & Hl & Hn & Hf & Ha & Hp & Hm & Hc & Hlast).
  inversion Hans; subst ans'.
  exists data, lp, lr, lm, np, nr, nm, fp, fr, fm, ap, ar, am.
  split; [reflexivity|]. split; [done|].
  split.
  { intros Hsc.
    destruct (le_lt_dec 70 (length (get_closing_prices data))) as [|Hshort]; [done|].
    destruct (lstm_short_series (get_closing_prices data) days_to_predict Hsc Hshort)
      as [[e He]|He]; rewrite He in Hl; done. }
  do 5 (split; [done|]).
  split; [by apply (lstm_predictions_length _ _ _ _ _ Hl)|].
  split; [by apply (forest_predictions_length _ _ _ _ _ Hf)|].
  split; [by apply (arima_predictions_length _ _ _ _ _ Ha)|].
  done.
Qed.

(** Without an accepted download the fetcher ends as the generator does, in
    a world with the clock of the call. *)
Lemma fetch_offline (stock_symbol : string) (days retries : Z) (w : World) :
  (forall k start_str end_str, accepted (yahoo w k stock_symbol start_str end_str) = None) ->
  exists (j : nat) (w1 : World),
    fetch_stock_data stock_symbol days retries w = generate_demo_data stock_symbol days w1
    /\ clock w1 = clock w
    /\ sleeps w1 = sleeps w ++ backoff_waits 0 j
    /\ ((exists e, start_date_of w days = Raise e) \/ j = (Z.to_nat retries - 1)%nat).
Proof.
  intros Hnone.
  destruct (fetch_run stock_symbol days retries w) as (j & w1 & Hsl & Hc & [Hreal|[Hgen Hj]]).
  - destruct Hreal as (d & s & e & _ & Hacc & _). by rewrite Hnone in Hacc.
  - exists j, w1. repeat (split; [done|]).
    destruct Hj as [[He _]|(st & _ & -> & _)]; eauto.
Qed.

(** X9. When the quote source gives nothing, a valid request is never
    refused: after waiting 5 and 10 seconds the route runs the four models
    on the 365 synthetic closing prices of the symbol, and answers 200 or
    500 as they end (on a day whose year of dates pandas can represent). *)
Theorem prediction_offline_runs_the_models (stock_symbol : string) (days_to_predict : Z)
    (w : World) :
  stock_symbol <> "" -> 1 <= days_to_predict <= 30 ->
  representable (clock w) 365 = true ->
  (forall k start_str end_str, accepted (yahoo w k stock_symbol start_str end_str) = None) ->
  exists stock_data w',
    fetch_stock_data stock_symbol 365 3 w = (Ok stock_data, w')
    /\ get_closing_prices stock_data = Close (demo_draws stock_symbol 365).1
    /\ length (get_closing_prices stock_data) = 365%nat
    /\ sleeps w' = sleeps w ++ [5; 10]
    /\ prediction stock_symbol days_to_predict w
       = (match predict_and_answer stock_symbol days_to_predict
                  (get_closing_prices stock_data) with
          | Ok r => r
          | Raise e => Respond500 e
          end, w')
    /\ ((exists ans, (prediction stock_symbol days_to_predict w).1 = Respond200 ans)
        \/ (exists e, (prediction stock_symbol days_to_predict w).1 = Respond500 e)).
Proof.
  intros Hs Hd Hr Hnone.
  destruct (fetch_offline stock_symbol 365 3 w Hnone) as (j & w1 & Hgen & Hc & Hsl & Hj).
  assert (Hrange : 1 <= clock w - 365 <= 3652059).
  { unfold representable, timestamp_first_day, timestamp_last_day in Hr.
    apply andb_prop in Hr as [Hr H3]. apply andb_prop in Hr as [_ H2].
    apply Z.leb_le in H2, H3. lia. }
  assert (j = 2%nat) as ->.
  { destruct Hj as [[e He]| ->]; [|done].
    rewrite start_date_in_range in He by (simpl; lia). done. }
  rewrite generate_demo_data_run in Hgen by (by rewrite Hc).
  change (Z.to_nat 365) with 365%nat in Hgen.
  eexists _, _. split; [exact Hgen|].
  destruct (demo_draws_lengths stock_symbol 365) as (_ & _ & _ & Hclose & _).
  unfold get_closing_prices at 1 2. cbn [columns].
  split; [reflexivity|]. split; [exact Hclose|].
  split; [exact Hsl|].
  rewrite prediction_run, Hgen by done. unfold after_fetch, df_len, get_closing_prices.
  cbn [Date columns]. unfold demo_dates. rewrite !length_fmap, length_seq, Hclose.
  change (365 =? 0)%nat with false. change (365 <? 60)%nat with false. cbv iota.
  split; [reflexivity|]. cbn [fst].
  destruct (predict_and_answer _ _ _) as [r|e] eqn:Ep; [|eauto].
  destruct (predict_and_answer_ok _ _ _ _ Ep) as (ans & ? & ? & ? & ? & ? & ? & ? & ? & ? & ? & ? & ? & -> & _).
  eauto.
Qed.


End RouteFacts.

(** The sample scaler keeps the length. *)
Lemma sample_scaler_keeps_length :
  scaler_keeps_length (F := float) (SK := Sample.sklearn).
Proof.
  intros d sc l H. simpl in H. unfold Sample.min_max_fit in H.
  destruct d as [|x r]; [done|]. inversion H; subst. simpl. by rewrite length_map.
Qed.

Lemma prediction_needs_sixty_prices_witness :
  exists message w',
    prediction (SK := Sample.sklearn) (KR := Sample.keras) (WS := SampleWeb.webstack)
               "AAPL" 5 short_history
    = (Refuse 400 message, w').
Proof.
  assert (H : exists stock_data,
             (fetch_stock_data "AAPL" 365 3 short_history).1 = Ok stock_data
             /\ length (get_closing_prices stock_data) = 50%nat)
    by (eexists; split; [vm_compute; reflexivity|vm_compute; reflexivity]).
  destruct H as (stock_data & H & Hlen).
  destruct (fetch_stock_data "AAPL" 365 3 short_history) as [o w'] eqn:E.
  simpl in H. subst o.
  destruct (prediction_needs_sixty_prices (SK := Sample.sklearn) (KR := Sample.keras)
              (WS := SampleWeb.webstack) "AAPL" 5 short_history w' stock_data)
    as [message Hm]; [done|lia|exact E|lia|].
  exists message, w'. exact Hm.
Defined.

Lemma prediction_fails_below_seventy_prices_witness :
  exists e w',
    prediction (SK := Sample.sklearn) (KR := Sample.keras) (WS := SampleWeb.webstack)
               "AAPL" 5 medium_history
    = (Respond500 e, w').
Proof.
  assert (H : exists stock_data,
             (fetch_stock_data "AAPL" 365 3 medium_history).1 = Ok stock_data
             /\ df_len stock_data = 65%nat
             /\ length (get_closing_prices stock_data) = 65%nat)
    by (eexists; split; [vm_compute; reflexivity|split; vm_compute; reflexivity]).
  destruct H as (stock_data & H & Hrows & Hlen).
  destruct (fetch_stock_data "AAPL" 365 3 medium_history) as [o w'] eqn:E.
  simpl in H. subst o.
  destruct (prediction_fails_below_seventy_prices (SK := Sample.sklearn) (KR := Sample.keras)
              (WS := SampleWeb.webstack) "AAPL" 5 medium_history w' stock_data)
    as [e He]; [apply sample_scaler_keeps_length|done|lia|exact E|lia|lia|].
  exists e, w'. exact He.
Defined.

Lemma prediction_success_is_complete_witness :
  exists ans w' ap,
    prediction (SK := Sample.sklearn) (KR := Sample.keras) (WS := SampleWeb.webstack)
               "AAPL" 5 long_history
    = (Respond200 ans, w')
    /\ predictions ans !! "arima" = Some ap /\ length ap = 5%nat.
Proof.
  assert (H : match (prediction (SK := Sample.sklearn) (KR := Sample.keras)
                       (WS := SampleWeb.webstack) "AAPL" 5 long_history).1 with
              | Respond200 _ => true
              | _ => false
              end = true)
    by (vm_compute; reflexivity).
  destruct (prediction (SK := Sample.sklearn) (KR := Sample.keras)
              (WS := SampleWeb.webstack) "AAPL" 5 long_history) as [r w'] eqn:E.
  destruct r as [ans| |]; simpl in H; [|discriminate|discriminate].
  destruct (prediction_success_is_complete (SK := Sample.sklearn) (KR := Sample.keras)
              (WS := SampleWeb.webstack) "AAPL" 5 long_history w' ans E)
    as (_ & _ & stock_data & lp & lr & lm & np & nr & nm & fp & fr & fm & ap & ar & am
        & _ & _ & _ & _ & _ & _ & _ & Hp & _ & _ & Ha & _).
  exists ans, w', ap. split; [reflexivity|]. rewrite Hp.
  split; [apply lookup_insert_eq|exact Ha].
Defined.

Lemma prediction_offline_runs_the_models_witness :
  exists stock_data w',
    fetch_stock_data "AAPL" 365 3 offline = (Ok stock_data, w')
    /\ length (get_closing_prices stock_data) = 365%nat
    /\ sleeps w' = [5; 10].
Proof.
  destruct (prediction_offline_runs_the_models (SK := Sample.sklearn) (KR := Sample.keras)
              (WS := SampleWeb.webstack) "AAPL" 5 offline)
    as (stock_data & w' & Hf & _ & Hlen & Hsl & _);
    [done|lia|reflexivity|reflexivity|].
  exists stock_data, w'. split; [exact Hf|]. split; [exact Hlen|exact Hsl].
Defined.


(** ** The chatbot *)

Lemma prefix_append (keyword user_input : string) :
  String.prefix keyword user_input = true <-> exists after, user_input = keyword +:+ after.
Proof.
  revert user_input.
  induction keyword as [|c keyword IH]; intros [|c' rest]; simpl.
  - split; [intros _; by exists ""|done].
  - split; [intros _; by exists (String c' rest)|done].
  - split; [done|intros [after H]; discriminate].
  - destruct (Ascii.ascii_dec c c') as [->|Hne].
    + rewrite IH. split; intros [after H]; exists after; [by rewrite H|by inversion H].
    + split; [done|intros [after H]; inversion H; congruence].
Qed.

Lemma occurs_in_spec (keyword user_input : string) :
  occurs_in keyword user_input = true <-> substring_of keyword user_input.
Proof.
  unfold substring_of. induction user_input as [|c rest IH].
  - change (occurs_in keyword "") with (String.prefix keyword "" || false).
    rewrite orb_false_r, prefix_append. split.
    + intros [after H]. by exists "", after.
    + intros (before & after & H). destruct before; [by exists after|discriminate].
  - change (occurs_in keyword (String c rest))
      with (String.prefix keyword (String c rest) || occurs_in keyword rest).
    rewrite orb_true_iff, prefix_append, IH. split.
    + intros [[after H]|(before & after & H)].
      * by exists "", after.
      * exists (String c before), after. simpl. by rewrite H.
    + intros (before & after & H). destruct before as [|c' before].
      * left. by exists after.
      * right. exists before, after. by inversion H.
Qed.

Lemma first_keyword_spec (kws : list string) (user_input : string) :
  first_keyword kws user_input = true
  <-> exists keyword, keyword ∈ kws /\ substring_of keyword user_input.
Proof.
  induction kws as [|keyword rest IH]; simpl.
  - split; [done|]. intros (k & H & _). by apply elem_of_nil in H.
  - destruct (occurs_in keyword user_input) eqn:E.
    + split; [|done]. intros _. exists keyword. split; [left|by apply occurs_in_spec].
    + rewrite IH. split.
      * intros (k & H & Hs). exists k. split; [by right|done].
      * intros (k & H & Hs). apply elem_of_cons in H as [->|H]; [|eauto].
        apply occurs_in_spec in Hs. congruence.
Qed.

(** The outer loop returns the reply of the first topic, other than
    [default], one of whose keywords occurs. *)
Lemma scan_topics_some (items : list (string * Topic)) (user_input r : string) :
  scan_topics items user_input = Some r ->
  exists i key data,
    items !! i = Some (key, data) /\ key <> "default" /\ r = reply data
    /\ first_keyword (keywords data) user_input = true
    /\ forall j k d, (j < i)%nat -> items !! j = Some (k, d) -> k <> "default" ->
                     first_keyword (keywords d) user_input = false.
Proof.
  induction items as [|[key data] rest IH]; simpl; [done|]. intros H.
  destruct (String.eqb_spec key "default") as [Hk|Hk].
  - destruct (IH H) as (i & k & d & Hi & Hne & Hr & Hf & Hb).
    exists (S i), k, d. repeat (split; [done|]).
    intros [|j] k' d' Hj Hl Hk'; simpl in Hl.
    + inversion Hl; subst. done.
    + apply (Hb j k' d'); [lia|done|done].
  - destruct (first_keyword (keywords data) user_input) eqn:E.
    + inversion H; subst. exists 0%nat, key, data. repeat (split; [done|]).
      intros j k d Hj. lia.
    + destruct (IH H) as (i & k & d & Hi & Hne & Hr & Hf & Hb).
      exists (S i), k, d. repeat (split; [done|]).
      intros [|j] k' d' Hj Hl Hk'; simpl in Hl.
      * inversion Hl; subst. done.
      * apply (Hb j k' d'); [lia|done|done].
Qed.

Lemma scan_topics_none (items : list (string * Topic)) (user_input : string) :
  scan_topics items user_input = None ->
  forall j k d, items !! j = Some (k, d) -> k <> "default" ->
                first_keyword (keywords d) user_input = false.
Proof.
  induction items as [|[key data] rest IH]; simpl; [done|]. intros H [|j] k d Hl Hk; simpl in Hl.
  - inversion Hl; subst. destruct (String.eqb_spec k "default"); [done|].
    by destruct (first_keyword (keywords d) user_input).
  - apply (IH ltac:(by repeat case_match) j k d Hl Hk).
Qed.

(** In the table, [default] is the last entry and the only one without
    keywords. *)
Lemma responses_default (j : nat) (k : string) (d : Topic) :
  responses !! j = Some (k, d) -> k = "default" -> j = 10%nat /\ keywords d = [].
Proof.
  intros Hl Hk. do 11 (destruct j as [|j]; [inversion Hl; subst; done|]). done.
Qed.

Section ChatbotFacts.
Variables (py_lower py_strip : string -> string).

Lemma no_keyword_of (d : Topic) (user_input : string) :
  first_keyword (keywords d) user_input = false ->
  forall keyword, keyword ∈ keywords d -> ~ substring_of keyword user_input.
Proof.
  intros H keyword Hk Hs.
  assert (first_keyword (keywords d) user_input = true) by (apply first_keyword_spec; eauto).
  congruence.
Qed.

(** X11. [get_response] never raises: it returns the reply of the first
    topic of the table one of whose keywords occurs in the lower-cased,
    stripped input (no keyword of an earlier topic occurs in it), and the
    [default] reply when no keyword of the table occurs at all. *)
Theorem get_response_first_match (user_input : string) :
  let u := py_strip (py_lower user_input) in
  exists i key data,
    responses !! i = Some (key, data)
    /\ get_response py_lower py_strip user_input = Ok (reply data)
    /\ (forall j k d keyword,
           (j < i)%nat -> responses !! j = Some (k, d) -> keyword ∈ keywords d ->
           ~ substring_of keyword u)
    /\ (key = "default" \/ exists keyword, keyword ∈ keywords data /\ substring_of keyword u).
Proof.
  intros u. unfold get_response. fold u.
  destruct (scan_topics responses u) as [r|] eqn:E.
  - destruct (scan_topics_some _ _ _ E) as (i & key & data & Hi & Hne & -> & Hf & Hb).
    exists i, key, data. split; [done|]. split; [done|]. split.
    + intros j k d keyword Hj Hl. apply no_keyword_of. apply (Hb j k d Hj Hl).
      intros Hk. destruct (responses_default j k d Hl Hk) as [-> _].
      assert (i < 11)%nat by (apply lookup_lt_Some in Hi; exact Hi). lia.
    + right. by apply first_keyword_spec.
  - eexists 10%nat, "default", _. split; [reflexivity|]. split; [reflexivity|].
    split; [|by left].
    intros j k d keyword Hj Hl. apply no_keyword_of.
    apply (scan_topics_none _ _ E j k d Hl).
    intros Hk. destruct (responses_default j k d Hl Hk) as [-> _]. lia.
Qed.

(** X12. The greeting comes first: an input whose lower-cased, stripped
    form contains "hello", "hi", "hey" or "greetings" anywhere, also inside
    a word or beside the keywords of other topics, gets the greeting. *)
Theorem get_response_greeting_first (user_input keyword : string) :
  keyword ∈ ["hello"; "hi"; "hey"; "greetings"] ->
  substring_of keyword (py_strip (py_lower user_input)) ->
  get_response py_lower py_strip user_input
  = Ok "Hello! Welcome to Stock Price Prediction. How can I assist you today?".
Proof.
  intros Hk Hs. unfold get_response.
  assert (H : first_keyword ["hello"; "hi"; "hey"; "greetings"]
                (py_strip (py_lower user_input)) = true)
    by (apply first_keyword_spec; eauto).
  unfold responses. cbn [scan_topics String.eqb Ascii.eqb Bool.eqb keywords reply].
  by rewrite H.
Qed.

(** X13. No keyword is dead: when the lower-cased, stripped input is a
    keyword of the table, the reply is the one of the keyword's own topic
    (no earlier topic has a keyword inside it). *)
Theorem get_response_every_keyword_answers (user_input key keyword : string) (data : Topic) :
  (key, data) ∈ responses -> keyword ∈ keywords data ->
  py_strip (py_lower user_input) = keyword ->
  get_response py_lower py_strip user_input = Ok (reply data).
Proof.
  intros Ht Hk Hu. unfold get_response. rewrite Hu. clear Hu.
  unfold responses in Ht.
  repeat (apply elem_of_cons in Ht as [Ht|Ht];
          [inversion Ht; subst; clear Ht; cbn [keywords] in Hk;
           repeat (apply elem_of_cons in Hk as [->|Hk]; [vm_compute; reflexivity|]);
           by apply elem_of_nil in Hk|]).
  by apply elem_of_nil in Ht.
Qed.

End ChatbotFacts.

Lemma get_response_greeting_first_witness :
  SampleWeb.strip (SampleWeb.lower "  Which stock? ") = "w" +:+ "hi" +:+ "ch stock?"
  /\ get_response SampleWeb.lower SampleWeb.strip "  Which stock? "
     = Ok "Hello! Welcome to Stock Price Prediction. How can I assist you today?".
Proof.
  split; [reflexivity|].
  apply (get_response_greeting_first SampleWeb.lower SampleWeb.strip "  Which stock? " "hi").
  - right. left.
  - by exists "w", "ch stock?".
Defined.

Lemma get_response_every_keyword_answers_witness :
  get_response SampleWeb.lower SampleWeb.strip " Forecast "
  = Ok ("To make a prediction:" +:+ nl +:+ "1. Click 'Start Prediction'" +:+ nl
        +:+ "2. Select a stock symbol" +:+ nl
        +:+ "3. Choose prediction days (1-30)" +:+ nl +:+ "4. Click 'Predict'" +:+ nl
        +:+ "Results will show predicted prices and model comparisons.").
Proof.
  apply (get_response_every_keyword_answers SampleWeb.lower SampleWeb.strip " Forecast "
           "prediction" "forecast"
           {| keywords := ["predict"; "forecast"; "prediction"; "future"];
              reply := "To make a prediction:" +:+ nl +:+ "1. Click 'Start Prediction'" +:+ nl
                       +:+ "2. Select a stock symbol" +:+ nl
                       +:+ "3. Choose prediction days (1-30)" +:+ nl
                       +:+ "4. Click 'Predict'" +:+ nl
                       +:+ "Results will show predicted prices and model comparisons." |}).
  - unfold responses. do 3 right. left.
  - right. left.
  - reflexivity.
Defined.
